(** * optixNDRangeSearch: the host program of the N-D range search

    A shallow embedding of [SDK/optixNDRangeSearch/optixNDRangeSearch.cpp]:
    point ingestion ([tokenize], [read_pc_data]), command-line scanning and
    the phase sequence of [main], the result buffer set up by
    [launchSubframe], and the host-side sanity check of the result rows.

    Conventions.
    - [unsigned int] values are [Z] in [0, 2^32) and every operation on them
      is wrapped with [u32]; [int] values that index a line of text stay below
      the 1024-byte line buffer and are plain [Z].
    - [float] is IEEE binary32 and [double] is binary64, both through the
      Standard Library's [SpecFloat] operations.
    - An exception in flight, a failed assertion, [exit] and an out-of-bounds
      store are the [stop] outcomes of the [res] monad; the text written to
      the terminal and the calls into the acceleration backend are the
      [event]s of a run.  The output of [Timing] and the lines about the
      visible GPUs are not part of the trace.
    - What lies outside the translation unit is a parameter, collected in
      [world]: [std::stof], [atoi], the file system, [NDEBUG], [MAX_DIM], the
      success of each CUDA or OptiX call, and the stores of the device
      program into the result buffer. *)

From Stdlib Require Import ZArith List String Ascii Bool Lia.

From Stdlib Require Import Floats.SpecFloat.

Import ListNotations.

Open Scope string_scope.

Open Scope list_scope.

Open Scope Z_scope.

(** * Part I: the program *)

(** ** Machine integers *)

Module U32.

Definition modulus : Z := 2 ^ 32.

(** [UINT_MAX] of <climits>. *)
Definition UINT_MAX : Z := 4294967295.

Definition u32 (z : Z) : Z := z mod modulus.

Definition add (a b : Z) : Z := u32 (a + b).

Definition mul (a b : Z) : Z := u32 (a * b).

Definition incr (a : Z) : Z := add a 1.

Definition in_range (z : Z) : Prop := 0 <= z < modulus.

End U32.

(** ** Outcomes *)

Inductive exn : Type :=
| std_invalid_argument   (* std::stof: no conversion could be performed *)
| std_out_of_range       (* std::stof: the value does not fit a float *)
| sutil_Exception.       (* thrown by CUDA_CHECK / OPTIX_CHECK / CUDA_SYNC_CHECK *)

Inductive stop : Type :=
| Exit (code : Z)        (* exit(code) *)
| Abort                  (* a failed assert, or std::terminate *)
| Throw (e : exn)        (* an exception that has not been caught yet *)
| Undefined              (* a store outside an allocation, a branch on an
                            indeterminate value, a division by zero *)
| OutOfFuel.             (* the model's loop bound was too small *)

Inductive res (A : Type) : Type :=
| Ret (a : A)
| Stop (s : stop).

Arguments Ret {A} a.

Arguments Stop {A} s.

Definition rbind {A B : Type} (r : res A) (f : A -> res B) : res B :=
  match r with
  | Ret a => f a
  | Stop s => Stop s
  end.

Declare Scope res_scope.

Delimit Scope res_scope with res.

Notation "x <- r ;; k" := (rbind r (fun x => k))
  (at level 61, r at next level, right associativity) : res_scope.

Notation "' p <- r ;; k" := (rbind r (fun p => k))
  (at level 61, p pattern, r at next level, right associativity) : res_scope.

(** ** Floating point *)

Definition float : Type := spec_float.

Definition double : Type := spec_float.

Module F32.

Definition prec : Z := 24.

Definition emax : Z := 128.

Definition add : float -> float -> float := SFadd prec emax.

Definition sub : float -> float -> float := SFsub prec emax.

Definition mul : float -> float -> float := SFmul prec emax.

(** [a > b] *)
Definition gt (a b : float) : bool := SFltb b a.

Definition of_Z (z : Z) : float := binary_normalize prec emax z 0 false.

End F32.

Module F64.

Definition prec : Z := 53.

Definition emax : Z := 1024.

Definition add : double -> double -> double := SFadd prec emax.

Definition sub : double -> double -> double := SFsub prec emax.

Definition div : double -> double -> double := SFdiv prec emax.

(** [sqrt] of <math.h>, the [double] function. *)
Definition sqrt : double -> double := SFsqrt prec emax.

Definition of_Z (z : Z) : double := binary_normalize prec emax z 0 false.

(** The implicit conversion float -> double: exact, renormalised. *)
Definition of_float (x : float) : double :=
  match x with
  | S754_finite s m e => binary_normalize prec emax (cond_Zopp s (Zpos m)) e s
  | _ => x
  end.

End F64.

(** A [float] object as the program sees it: a value, or the indeterminate
    content of storage that was never written (an element of
    [new float3[lines]], or what [vcoords[i]] yields past the vector's
    size). *)
Inductive fval : Type :=
| Val (f : float)
| Indet.

Record float3 : Type := make_float3 { fx : fval; fy : fval; fz : fval }.

Definition uninit : float3 := make_float3 Indet Indet Indet.

Definition flift2 (op : float -> float -> float) (a b : fval) : fval :=
  match a, b with
  | Val x, Val y => Val (op x y)
  | _, _ => Indet
  end.

(** ** std::string *)

Module Str.

(** [s.find(del, pos)] converted to [int]: the index of the first
    occurrence at or after [pos], [-1] for [npos]. *)
Definition find (s del : string) (pos : Z) : Z :=
  match String.index (Z.to_nat pos) del s with
  | Some n => Z.of_nat n
  | None => -1
  end.

(** [s.substr(pos, n)] where [n] is an [int] expression converted to
    [size_t]: a negative [n] becomes a huge count, that is, the rest of the
    string.  ([substr] throws only for [pos > s.size()]; [tokenize] calls it
    with [pos = 0] or [pos] just past a match of [del].) *)
Definition substr (s : string) (pos n : Z) : string :=
  String.substring (Z.to_nat pos)
    (if n <? 0 then String.length s else Z.to_nat n) s.

Definition size (s : string) : Z := Z.of_nat (String.length s).

End Str.

(** ** Point ingestion *)

Definition ndarray : Type := list (list float3).

Section Ingestion.

(** [std::stof]: the parsed value, or the exception it throws. *)
Variable stof : string -> exn + float.

(** Whether the translation unit is compiled with [NDEBUG] (then [assert]
    expands to nothing). *)
Variable NDEBUG : bool.

Definition assert (c : bool) : res unit :=
  if NDEBUG then Ret tt else if c then Ret tt else Stop Abort.

Definition call_stof (s : string) : res float :=
  match stof s with
  | inr f => Ret f
  | inl e => Stop (Throw e)
  end.

(** The [while (end != -1)] loop of [tokenize].  [keep] is
    [ndpoints != nullptr].  Each iteration moves [end_] to a later match,
    so [fuel] above the length of [s] is never exhausted. *)
Fixpoint tokenize_scan (fuel : nat) (s del : string) (keep : bool)
         (start end_ dim : Z) (vcoords : list float)
  : res (Z * Z * Z * list float) :=
  if end_ =? -1 then Ret (start, end_, dim, vcoords)
  else
    match fuel with
    | O => Stop OutOfFuel
    | S fuel' =>
        (coord <- call_stof (Str.substr s start (end_ - start)) ;;
         let vcoords := if keep then vcoords ++ [coord] else vcoords in
         let start := end_ + Str.size del in
         let end_ := Str.find s del start in
         tokenize_scan fuel' s del keep start end_ (dim + 1) vcoords)%res
    end.

(** [vcoords[i]] *)
Definition vget (vcoords : list float) (i : Z) : fval :=
  if i <? 0 then Indet
  else match nth_error vcoords (Z.to_nat i) with
       | Some f => Val f
       | None => Indet
       end.

Definition list_set {A : Type} (l : list A) (i : nat) (a : A) : list A :=
  firstn i l ++ a :: skipn (S i) l.

(** [ndpoints[batch][lineId] = point] *)
Definition nd_store (ndpoints : ndarray) (batch lineId : Z) (point : float3)
  : res ndarray :=
  if (batch <? 0) || (lineId <? 0) then Stop Undefined
  else
    match nth_error ndpoints (Z.to_nat batch) with
    | None => Stop Undefined
    | Some row =>
        if Z.to_nat lineId <? List.length row then
          Ret (list_set ndpoints (Z.to_nat batch)
                        (list_set row (Z.to_nat lineId) point))
        else Stop Undefined
    end%nat.

(** The [for (batch = 0; batch < dim/3; batch++)] loop; [n] counts the
    iterations that remain. *)
Fixpoint store_batches (n : nat) (batch : Z) (vcoords : list float)
         (ndpoints : ndarray) (lineId : Z) : res ndarray :=
  match n with
  | O => Ret ndpoints
  | S n' =>
      let point := make_float3 (vget vcoords (batch * 3))
                               (vget vcoords (batch * 3 + 1))
                               (vget vcoords (batch * 3 + 2)) in
      (nd <- nd_store ndpoints batch lineId point ;;
       store_batches n' (batch + 1) vcoords nd lineId)%res
  end.

(** [if ((dim % 3) != 0) dim = (dim/3+1)*3;] *)
Definition round3 (dim : Z) : Z :=
  if negb (Z.rem dim 3 =? 0) then (Z.quot dim 3 + 1) * 3 else dim.

Definition tokenize (s del : string) (ndpoints : option ndarray) (lineId : Z)
  : res (Z * option ndarray) :=
  let keep := match ndpoints with Some _ => true | None => false end in
  let start := 0 in
  let end_ := Str.find s del 0 in
  let dim := 0 in
  ('(start, end_, dim, vcoords) <-
      tokenize_scan (S (String.length s)) s del keep start end_ dim [] ;;
   coord <- call_stof (Str.substr s start (end_ - start)) ;;
   let vcoords := if keep then vcoords ++ [coord] else vcoords in
   let dim := dim + 1 in
   _ <- assert (0 <? dim) ;;
   let dim := round3 dim in
   match ndpoints with
   | None => Ret (dim, None)
   | Some nd =>
       nd' <- store_batches (Z.to_nat (Z.quot dim 3)) 0 vcoords nd lineId ;;
       Ret (dim, Some nd')
   end)%res.

(** [file.getline(line, 1024)] succeeds on a line of at most 1023
    characters; a longer one sets failbit and ends the loop. *)
Definition getline_ok (l : string) : bool :=
  (String.length l <=? 1023)%nat.

(** First [while (file.getline(line, 1024))] loop of [read_pc_data]. *)
Fixpoint count_lines (stream : list string) (lines : Z) (dim : Z)
  : res (Z * Z) :=
  match stream with
  | [] => Ret (lines, dim)
  | line :: stream' =>
      if getline_ok line then
        (dim <- (if lines =? 0
                 then '(d, _) <- tokenize line "," None 0 ;; Ret d
                 else Ret dim) ;;
         count_lines stream' (U32.incr lines) dim)%res
      else Ret (lines, dim)
  end.

(** Second loop: every line is tokenized into [ndpoints]. *)
Fixpoint fill_lines (stream : list string) (lines : Z) (ndpoints : ndarray)
  : res ndarray :=
  match stream with
  | [] => Ret ndpoints
  | line :: stream' =>
      if getline_ok line then
        ('(_, nd) <- tokenize line "," (Some ndpoints) lines ;;
         fill_lines stream' (U32.incr lines)
                    (match nd with Some nd' => nd' | None => ndpoints end))%res
      else Ret ndpoints
  end.

(** [read_pc_data] after [file.open]: [file] is the sequence of lines of
    the opened file, [None] when the file could not be opened (then
    [file.good()] is false and every [getline] fails).  Returns
    [(ndpoints, *N, *d)].  The diagnostic on [std::cerr] is emitted by the
    caller's trace, see [Host.read_points]. *)
Definition read_pc_data (file : option (list string))
  : res (ndarray * Z * Z) :=
  (_ <- (match file with
         | None => assert false
         | Some _ => Ret tt
         end) ;;
   let stream := match file with Some ls => ls | None => [] end in
   '(lines, dim) <- count_lines stream 0 0 ;;
   let N := lines in
   let d := dim in
   let ndpoints : ndarray :=
     repeat (repeat uninit (Z.to_nat lines)) (Z.to_nat (Z.quot dim 3)) in
   nd <- fill_lines stream 0 ndpoints ;;
   Ret (nd, N, d))%res.

End Ingestion.

(** A [std::stof] for the examples: optional minus sign and decimal digits;
    anything else throws [std::invalid_argument]. *)
Module StofDec.

Definition digit (c : ascii) : option Z :=
  let n := Z.of_nat (nat_of_ascii c) in
  if (48 <=? n) && (n <=? 57) then Some (n - 48) else None.

Fixpoint digits (s : string) (acc : Z) : option Z :=
  match s with
  | EmptyString => Some acc
  | String c s' =>
      match digit c with
      | Some d => digits s' (10 * acc + d)
      | None => None
      end
  end.

Definition stof (s : string) : exn + float :=
  match s with
  | EmptyString => inl std_invalid_argument
  | String "-" (String c s') =>
      match digits (String c s') 0 with
      | Some z => inr (SFopp (F32.of_Z z))
      | None => inl std_invalid_argument
      end
  | _ =>
      match digits s 0 with
      | Some z => inr (F32.of_Z z)
      | None => inl std_invalid_argument
      end
  end.

End StofDec.

(** ** Rows as lists of fields *)

(** The comma-separated fields of a row, left to right. *)
Fixpoint fields (s : string) : list string :=
  match s with
  | EmptyString => [EmptyString]
  | String c s' =>
      if Ascii.eqb c ","
      then EmptyString :: fields s'
      else match fields s' with
           | f :: fs => String c f :: fs
           | [] => [String c EmptyString]
           end
  end.

(** The number of fields of a row: D for the first row. *)
Definition num_fields (s : string) : Z := Z.of_nat (List.length (fields s)).

(** ceil(D/3) *)
Definition ceil3 (D : Z) : Z := (D + 2) / 3.

Section ParsedRows.

Variable stof : string -> exn + float.

(** [std::stof] applied to the fields in order; the first failure throws. *)
Fixpoint parse_all (fs : list string) : res (list float) :=
  match fs with
  | [] => Ret []
  | f :: fs' =>
      (v <- call_stof stof f ;; vs <- parse_all fs' ;; Ret (v :: vs))%res
  end.

(** The parsed coordinates of a row (empty when a field does not parse). *)
Definition coords (r : string) : list float :=
  match parse_all (fields r) with
  | Ret vs => vs
  | Stop _ => []
  end.

(** A row that fits the line buffer, has [D] fields, all of them numbers. *)
Definition row_ok (D : Z) (r : string) : Prop :=
  getline_ok r = true /\ num_fields r = D /\
  exists vs, parse_all (fields r) = Ret vs.

(** A row that fits the line buffer, parses, and needs no more batches than
    [B]. *)
Definition row_fits (B : Z) (r : string) : Prop :=
  getline_ok r = true /\ ceil3 (num_fields r) <= B /\
  exists vs, parse_all (fields r) = Ret vs.

End ParsedRows.

(** ** What ingestion stores *)

(** The 3-tuple that [tokenize] builds for batch [b] from the parsed
    coordinates [vs] of a row. *)
Definition triple (vs : list float) (b : Z) : float3 :=
  make_float3 (vget vs (b * 3)) (vget vs (b * 3 + 1)) (vget vs (b * 3 + 2)).

(** Component [k] of a tuple: 0 for [x], 1 for [y], 2 for [z]. *)
Definition component (p : float3) (k : Z) : fval :=
  if k =? 0 then fx p else if k =? 1 then fy p else fz p.

(** [B] batch arrays: the tuples of the rows already read ([done], their
    parsed coordinates) followed by [rest] elements not yet written. *)
Definition table (B : nat) (done : list (list float)) (rest : nat) : ndarray :=
  map (fun b => map (fun vs => triple vs (Z.of_nat b)) done ++ repeat uninit rest)
      (seq 0 B).

(** One column of the table before and after the row [vs] is stored. *)
Definition column (done : list (list float)) (rest : nat) (b : nat)
  : list float3 :=
  map (fun vs => triple vs (Z.of_nat b)) done ++ repeat uninit rest.

(** Shape of the batch arrays: [B] arrays of [N] elements. *)
Definition shape (B N : nat) (nd : ndarray) : Prop :=
  List.length nd = B /\ Forall (fun col => List.length col = N) nd.

(** The lines both loops of [read_pc_data] read: those before the first line
    that [getline] rejects. *)
Fixpoint readable (stream : list string) : list string :=
  match stream with
  | [] => []
  | line :: stream' =>
      if getline_ok line then line :: readable stream' else []
  end.

(** The field count of the first of [rows] rounded up to the next multiple
    of 3; 0 when there is no row. *)
Definition padded_dim (rows : list string) : Z :=
  match rows with
  | [] => 0
  | r0 :: _ => 3 * ceil3 (num_fields r0)
  end.

(** ** Readings of the ingestion contract *)

(** The reading "ingestion returns the true dimensionality": [*d] is the
    field count of the first row and [*N] the number of rows. *)
Definition returns_true_dimension (stof : string -> exn + float) (NDEBUG : bool)
           (rows : list string) : Prop :=
  exists nd, read_pc_data stof NDEBUG (Some rows)
             = Ret (nd, Z.of_nat (List.length rows), num_fields (hd "" rows)).

(** The reading "every point contributes one 3-tuple to every batch": there
    are ceil(D/3) batch arrays, and in each of them the element of every row
    holds a coordinate of that row. *)
Definition every_point_in_every_batch (stof : string -> exn + float)
           (NDEBUG : bool) (rows : list string) : Prop :=
  exists nd N d,
    read_pc_data stof NDEBUG (Some rows) = Ret (nd, N, d) /\
    Z.of_nat (List.length nd) = ceil3 (num_fields (hd "" rows)) /\
    forall (b i : nat) (col : list float3),
      nth_error nd b = Some col -> (i < List.length rows)%nat ->
      exists x y z, nth_error col i = Some (make_float3 (Val x) y z).

(** ** Device memory and the result buffer *)

Module Dev.

(** The bytes of one allocation. *)
Definition memory : Type := list Z.

(** Content of a fresh allocation of [count] [unsigned int]s: whatever bytes
    [garbage] supplies ([cudaMalloc] does not initialise). *)
Definition fresh (garbage : nat -> Z) (count : Z) : memory :=
  map (fun k => garbage k mod 256) (seq 0 (Z.to_nat (4 * count))).

(** [cudaMemsetAsync(ptr, value, count)]: the first [count] bytes become
    [(unsigned char) value]. *)
Definition cudaMemset (m : memory) (value count : Z) : res memory :=
  if (count <? 0) || (Z.of_nat (List.length m) <? count) then Stop Undefined
  else Ret (repeat (value mod 256) (Z.to_nat count) ++ skipn (Z.to_nat count) m).

Definition byte_at (m : memory) (k : Z) : option Z :=
  if k <? 0 then None else nth_error m (Z.to_nat k).

(** Element [i] of [m] read through an [unsigned int] pointer
    (little-endian). *)
Definition load_u32 (m : memory) (i : Z) : option Z :=
  match byte_at m (4 * i), byte_at m (4 * i + 1),
        byte_at m (4 * i + 2), byte_at m (4 * i + 3) with
  | Some b0, Some b1, Some b2, Some b3 =>
      Some (b0 + 256 * b1 + 65536 * b2 + 16777216 * b3)
  | _, _, _, _ => None
  end.

Definition bytes_of_u32 (v : Z) : list Z :=
  [v mod 256; (v / 256) mod 256; (v / 65536) mod 256; (v / 16777216) mod 256].

(** Element [i] of [m] written through an [unsigned int] pointer. *)
Definition store_u32 (m : memory) (i v : Z) : res memory :=
  if (i <? 0) || (Z.of_nat (List.length m) <? 4 * i + 4) then Stop Undefined
  else Ret (firstn (Z.to_nat (4 * i)) m ++ bytes_of_u32 v
            ++ skipn (Z.to_nat (4 * i + 4)) m).

(** The stores of the device program into [frame_buffer], in some order. *)
Fixpoint apply_stores (m : memory) (stores : list (Z * Z)) : res memory :=
  match stores with
  | [] => Ret m
  | (i, v) :: rest => (m' <- store_u32 m i v ;; apply_stores m' rest)%res
  end.

(** The result buffer of one launch, as [launchSubframe] and the device
    program leave it: allocated for [numPrims * knn] elements by [main],
    filled with 0xFF bytes by [cudaMemsetAsync], then written by the device
    program. *)
Definition launch_memory (garbage : nat -> Z) (numPrims knn : Z)
           (stores : list (Z * Z)) : res memory :=
  let result_buffer_data := fresh garbage (U32.mul numPrims knn) in
  (m <- cudaMemset result_buffer_data 255 (U32.mul numPrims knn * 4) ;;
   apply_stores m stores)%res.

(** Row [q] as the host reads it back: the elements [q * knn + j]. *)
Definition row (data : memory) (knn q : Z) : list (option Z) :=
  map (fun j => load_u32 data (U32.add (U32.mul q knn) (Z.of_nat j)))
      (seq 0 (Z.to_nat knn)).

End Dev.


(** ** The host program *)

(** [OptixAabb] *)
Record OptixAabb : Type := make_aabb {
  minX : fval; minY : fval; minZ : fval;
  maxX : fval; maxY : fval; maxZ : fval
}.

(** What a run writes to the terminal and asks of the acceleration backend. *)
Inductive event : Type :=
| Usage (argv0 : string)        (* the usage text of printUsageAndExit *)
| UnknownOption (arg : string)  (* Unknown option '<arg>' *)
| CouldNotRead                  (* Could not read the frame data... *)
| Settings (dim batch numPrims : Z) (radius : float) (K : Z)
| GasBuild (b : Z) (aabbs : list OptixAabb)  (* buildGas done for batch b *)
| Launch (batchId : Z) (width : Z)           (* optixLaunch *)
| Printed (p : Z)               (* std::cout << p << " " *)
| EndOfRow                      (* std::cout << "\n" *)
| SanityDone                    (* Sanity check done. *)
| AvgNeighbors (n : Z)          (* Avg neighbor/query: *)
| AvgWrongNeighbors (n : Z)     (* Avg wrong neighbor/query: *)
| AvgWrongDist (d : double)     (* Avg wrong dist: *)
| Caught.                       (* Caught exception: ... *)

(** The places where a CUDA or OptiX call is wrapped in [CUDA_CHECK],
    [OPTIX_CHECK] or [CUDA_SYNC_CHECK] and may throw. *)
Inductive call : Type :=
| DeviceSetup            (* cudaGetDeviceCount ... cudaStreamCreate *)
| CreateContext          (* createContext *)
| UploadPoints (b : Z)   (* cudaMalloc, cudaMemcpy of batch b *)
| UploadAabbs (b : Z)    (* cudaMalloc, cudaMemcpyAsync of the boxes of batch b *)
| BuildGas (b : Z)       (* buildGas of batch b, cudaFree *)
| CreatePipeline         (* createPipeline *)
| CreateSBT              (* createSBT *)
| AllocOutput            (* the CUDAOutputBuffer *)
| Memset                 (* cudaMemsetAsync *)
| LaunchParams           (* cudaMalloc, cudaMemcpyAsync of the launch parameters *)
| OptixLaunch            (* optixLaunch *)
| Sync                   (* CUDA_SYNC_CHECK *)
| ReadBack               (* getHostPointer *)
| Cleanup.               (* cleanupState *)

(** [Params], the launch parameters (the fields the host sets). *)
Record Params : Type := make_params {
  radius : float;
  knn : Z;
  numPrims : Z;
  points : ndarray;
  queries : list float3;
  handle : Z;
  batchId : Z
}.

(** [WhittedState] (the fields the host program computes with). *)
Record WhittedState : Type := make_state {
  params : Params;
  gas_handle : list Z;
  ndpoints : ndarray;
  dim : Z;
  batch : Z
}.

(** Everything outside the translation unit. *)
Record world : Type := make_world {
  w_stof : string -> exn + float;         (* std::stof *)
  w_atoi : string -> Z;                   (* atoi *)
  w_open : string -> option (list string);(* the lines of a file, if it opens *)
  w_ndebug : bool;                        (* compiled with NDEBUG *)
  w_max_dim : Z;                          (* MAX_DIM of optixNDRangeSearch.h *)
  w_ok : call -> bool;                    (* whether a backend call succeeds *)
  w_garbage : nat -> Z;                   (* content of fresh device memory *)
  w_raygen : Params -> list (Z * Z)       (* stores of the device program *)
}.

(** Computations that write a trace. *)
Definition M (A : Type) : Type := (list event * res A)%type.

Definition ret {A : Type} (a : A) : M A := ([], Ret a).

Definition bind {A B : Type} (m : M A) (f : A -> M B) : M B :=
  match m with
  | (t, Ret a) => let (t', r) := f a in (t ++ t', r)
  | (t, Stop s) => (t, Stop s)
  end.

Definition emit (e : event) : M unit := ([e], Ret tt).

Definition lift {A : Type} (r : res A) : M A := ([], r).

Definition halt {A : Type} (s : stop) : M A := ([], Stop s).

(** [try { m } catch (std::exception& e) { h }] *)
Definition try_catch {A : Type} (m : M A) (h : M A) : M A :=
  match m with
  | (t, Stop (Throw _)) => let (t', r) := h in (t ++ t', r)
  | _ => m
  end.

(** An exception that leaves [main] ends in [std::terminate]. *)
Definition terminate {A : Type} (m : M A) : M A :=
  match m with
  | (t, Stop (Throw _)) => (t, Stop Abort)
  | _ => m
  end.

Declare Scope host_scope.

Delimit Scope host_scope with host.

Notation "x <- m ;; k" := (bind m (fun x => k))
  (at level 61, m at next level, right associativity) : host_scope.

Notation "' p <- m ;; k" := (bind m (fun p => k))
  (at level 61, p pattern, m at next level, right associativity) : host_scope.

Notation "m ;;; k" := (bind m (fun _ => k))
  (at level 61, right associativity) : host_scope.

Module Host.

Section WithWorld.

Variable w : world.

Definition check (c : call) : M unit :=
  if w_ok w c then ret tt else halt (Throw sutil_Exception).

Definition printUsageAndExit {A : Type} (argv0 : string) : M A :=
  ([Usage argv0], Stop (Exit 0)).

(** The argument loop of [main]; [args] is [argv[i..argc-1]]. *)
Fixpoint parse_args (argv0 : string) (args : list string)
         (radius : float) (knn : Z) (outfile : string)
  : M (float * Z * string) :=
  match args with
  | [] => ret (radius, knn, outfile)
  | arg :: rest =>
      if (arg =? "--help")%string || (arg =? "-h")%string then
        printUsageAndExit argv0
      else if (arg =? "--file")%string || (arg =? "-f")%string then
        match rest with
        | [] => printUsageAndExit argv0
        | v :: rest' => parse_args argv0 rest' radius knn v
        end
      else if (arg =? "--knn")%string || (arg =? "-k")%string then
        match rest with
        | [] => printUsageAndExit argv0
        | v :: rest' => parse_args argv0 rest' radius (U32.u32 (w_atoi w v)) outfile
        end
      else if (arg =? "--radius")%string || (arg =? "-r")%string then
        match rest with
        | [] => printUsageAndExit argv0
        | v :: rest' =>
            match w_stof w v with
            | inr f => parse_args argv0 rest' f knn outfile
            | inl e => halt (Throw e)
            end
        end
      else
        (emit (UnknownOption arg) ;;; printUsageAndExit argv0)%host
  end.

(** [read_pc_data] with its diagnostic. *)
Definition read_points (data_file : string) : M (ndarray * Z * Z) :=
  let file := w_open w data_file in
  ((match file with
    | None => emit CouldNotRead
    | Some _ => ret tt
    end) ;;;
   lift (read_pc_data (w_stof w) (w_ndebug w) file))%host.

Definition fadd_scalar (a : fval) (r : float) : fval := flift2 F32.add a (Val r).

Definition fsub_scalar (a : fval) (r : float) : fval := flift2 F32.sub a (Val r).

Definition sphere_bound (center : float3) (radius : float) : OptixAabb :=
  make_aabb (fsub_scalar (fx center) radius) (fsub_scalar (fy center) radius)
            (fsub_scalar (fz center) radius)
            (fadd_scalar (fx center) radius) (fadd_scalar (fy center) radius)
            (fadd_scalar (fz center) radius).

(** First loop of [createGeometry]: the points of every batch go to the
    device. *)
Fixpoint upload_batches (n : nat) (b : Z) : M unit :=
  match n with
  | O => ret tt
  | S n' => (check (UploadPoints b) ;;; upload_batches n' (b + 1))%host
  end.

(** Second loop of [createGeometry]: one bounding box per point, one
    acceleration structure per batch; returns the handles. *)
Fixpoint build_batches (n : nat) (b : Z) (state : WhittedState)
         (handles : list Z) : M (list Z) :=
  match n with
  | O => ret handles
  | S n' =>
      let aabb := map (fun c => sphere_bound c (radius (params state)))
                      (firstn (Z.to_nat (numPrims (params state)))
                              (nth (Z.to_nat b) (ndpoints state) [])) in
      (check (UploadAabbs b) ;;;
       check (BuildGas b) ;;;
       emit (GasBuild b aabb) ;;;
       build_batches n' (b + 1) state (handles ++ [b]))%host
  end.

Definition set_points (p : Params) (pts : ndarray) : Params :=
  make_params (radius p) (knn p) (numPrims p) pts (queries p) (handle p)
              (batchId p).

Definition createGeometry (state : WhittedState) : M WhittedState :=
  (upload_batches (Z.to_nat (batch state)) 0 ;;;
   handles <- build_batches (Z.to_nat (batch state)) 0 state [] ;;
   ret (make_state (set_points (params state) (ndpoints state)) handles
                   (ndpoints state) (dim state) (batch state)))%host.

Definition launchSubframe (output_buffer : Dev.memory) (state : WhittedState)
           (batch : Z) : M (Dev.memory * WhittedState) :=
  let '(make_state p handles nd d nbatch) := state in
  let result_buffer_data := output_buffer in
  (check Memset ;;;
   m <- lift (Dev.cudaMemset result_buffer_data 255
                (U32.mul (numPrims p) (knn p) * 4)) ;;
   let p' := make_params (radius p) (knn p) (numPrims p) (points p)
               (nth (Z.to_nat batch) (points p) [])
               (nth (Z.to_nat batch) handles 0)
               batch in
   check LaunchParams ;;;
   check OptixLaunch ;;;
   emit (Launch (batchId p') (numPrims p')) ;;;
   m' <- lift (Dev.apply_stores m (w_raygen w p')) ;;
   check Sync ;;;
   ret (m', make_state p' handles nd d nbatch))%host.

(** The host-side check of the result rows. *)

Record stats : Type := make_stats {
  totalNeighbors : Z;
  totalWrongNeighbors : Z;
  totalWrongDist : double
}.

(** [state.ndpoints[b][i]] *)
Definition nd_load (nd : ndarray) (b i : Z) : res float3 :=
  if (b <? 0) || (i <? 0) then Stop Undefined
  else match nth_error nd (Z.to_nat b) with
       | None => Stop Undefined
       | Some col => match nth_error col (Z.to_nat i) with
                     | None => Stop Undefined
                     | Some v => Ret v
                     end
       end.

(** [a - b] on [float3] *)
Definition float3_sub (a b : float3) : float3 :=
  make_float3 (flift2 F32.sub (fx a) (fx b)) (flift2 F32.sub (fy a) (fy b))
              (flift2 F32.sub (fz a) (fz b)).

(** [dot(a, b)] *)
Definition dot (a b : float3) : fval :=
  flift2 F32.add
    (flift2 F32.add (flift2 F32.mul (fx a) (fx b)) (flift2 F32.mul (fy a) (fy b)))
    (flift2 F32.mul (fz a) (fz b)).

(** [diff = ndpoints[0][p] - ndpoints[0][q]; dists = dot(diff, diff)], as
    the comparison that follows needs it: a determinate value. *)
Definition sq_dist (nd : ndarray) (p q : Z) : res float :=
  (a <- nd_load nd 0 p ;;
   b <- nd_load nd 0 q ;;
   let diff := float3_sub a b in
   match dot diff diff with
   | Val dists => Ret dists
   | Indet => Stop Undefined
   end)%res.

(** The [else] branch of the inner loop for a reported index [p].  In
    [totalWrongDist += sqrt(dists)] the call is the [double] function of
    <math.h>: [dists] is widened first and the root is taken in binary64. *)
Definition account (nd : ndarray) (radius : float) (q : Z) (st : stats) (p : Z)
  : res stats :=
  let totalNeighbors := U32.incr (totalNeighbors st) in
  (dists <- sq_dist nd p q ;;
   if F32.gt dists (F32.mul radius radius) then
     Ret (make_stats totalNeighbors
                     (U32.incr (totalWrongNeighbors st))
                     (F64.add (totalWrongDist st)
                              (F64.sqrt (F64.of_float dists))))
   else
     Ret (make_stats totalNeighbors (totalWrongNeighbors st)
                     (totalWrongDist st)))%res.

(** [data[i]] on the host copy of the result buffer. *)
Definition host_load (data : Dev.memory) (i : Z) : res Z :=
  match Dev.load_u32 data i with
  | Some v => Ret v
  | None => Stop Undefined
  end.

(** The loop [for (j = 0; j < knn; j++)] for query [q]; [n] counts the
    iterations that remain. *)
Fixpoint check_row (n : nat) (j : Z) (data : Dev.memory) (nd : ndarray)
         (radius : float) (knn q : Z) (st : stats) : M stats :=
  match n with
  | O => ret st
  | S n' =>
      (p <- lift (host_load data (U32.add (U32.mul q knn) j)) ;;
       if p =? U32.UINT_MAX then ret st
       else
         st' <- lift (account nd radius q st p) ;;
         emit (Printed p) ;;;
         check_row n' (U32.incr j) data nd radius knn q st')%host
  end.

(** The loop [for (q = 0; q < numPrims; q++)]. *)
Fixpoint check_rows (n : nat) (q : Z) (data : Dev.memory) (nd : ndarray)
         (radius : float) (knn : Z) (st : stats) : M stats :=
  match n with
  | O => ret st
  | S n' =>
      (st' <- check_row (Z.to_nat knn) 0 data nd radius knn q st ;;
       emit EndOfRow ;;;
       check_rows n' (U32.incr q) data nd radius knn st')%host
  end.

(** Unsigned division. *)
Definition udiv (a b : Z) : res Z :=
  if b =? 0 then Stop Undefined else Ret (a / b).

(** The report after the loops. *)
Definition report (numPrims : Z) (st : stats) : M unit :=
  (emit SanityDone ;;;
   a <- lift (udiv (totalNeighbors st) numPrims) ;;
   emit (AvgNeighbors a) ;;;
   b <- lift (udiv (totalWrongNeighbors st) numPrims) ;;
   emit (AvgWrongNeighbors b) ;;;
   if negb (totalWrongNeighbors st =? 0) then
     emit (AvgWrongDist (F64.div (totalWrongDist st)
                                 (F64.of_Z (totalWrongNeighbors st))))
   else ret tt)%host.

Definition sanity_check (data : Dev.memory) (state : WhittedState) : M unit :=
  let p := params state in
  (st <- check_rows (Z.to_nat (numPrims p)) 0 data (ndpoints state)
                    (radius p) (knn p) (make_stats 0 0 (S754_zero false)) ;;
   report (numPrims p) st)%host.

(** "Set up CUDA device and stream" and "Set up OptiX state". *)
Definition setup (state : WhittedState) : M WhittedState :=
  (check DeviceSetup ;;;
   check CreateContext ;;;
   state <- createGeometry state ;;
   check CreatePipeline ;;;
   check CreateSBT ;;;
   ret state)%host.

(** "Do the work": the output buffer and the one call of [launchSubframe]. *)
Definition do_the_work (state : WhittedState) : M (Dev.memory * WhittedState) :=
  (check AllocOutput ;;;
   let output_buffer :=
     Dev.fresh (w_garbage w)
               (U32.mul (numPrims (params state)) (knn (params state))) in
   launchSubframe output_buffer state 0)%host.

(** "Check the work". *)
Definition check_the_work (output_buffer : Dev.memory) (state : WhittedState)
  : M unit :=
  (check ReadBack ;;;
   let data := output_buffer in
   sanity_check data state)%host.

(** The [try] block of [main]. *)
Definition try_block (state : WhittedState) : M Z :=
  (state <- setup state ;;
   '(output_buffer, state) <- do_the_work state ;;
   check_the_work output_buffer state ;;;
   check Cleanup ;;;
   ret 0)%host.

(** The state after [read_pc_data]: radius [r], capacity [k], the batches
    [nd] of [N] points, padded dimension [d]. *)
Definition loaded (r : float) (k : Z) (nd : ndarray) (N d : Z) : WhittedState :=
  make_state (make_params r k N [] [] 0 0) [] nd d (Z.quot d 3).

(** [main]: the value it returns, or how it stops. *)
Definition main (argv0 : string) (args : list string) : M Z :=
  ('(r, k, outfile) <- parse_args argv0 args (F32.of_Z 2) 50 "" ;;
   '(nd, N, d) <- read_points outfile ;;
   let state := loaded r k nd N d in
   (if (dim state <=? 0) || (w_max_dim w <? dim state)
    then printUsageAndExit argv0 else ret tt) ;;;
   emit (Settings (dim state) (batch state) (numPrims (params state))
                  (radius (params state)) (knn (params state))) ;;;
   try_catch (try_block state) (emit Caught ;;; ret 1))%host.

(** The process: an exception that escapes [main] aborts it. *)
Definition program (argv0 : string) (args : list string) : M Z :=
  terminate (main argv0 args).

End WithWorld.

End Host.

(** ** Example worlds *)

Module Examples.

(** Every backend call succeeds, one file [pts], the device program reports
    the given stores. *)
Definition world_of (file : option (list string)) (ndebug : bool)
           (stores : list (Z * Z)) : world :=
  make_world StofDec.stof (fun _ => 3)
             (fun name => if (name =? "pts")%string then file else None)
             ndebug 12 (fun _ => true) (fun k => Z.of_nat k)
             (fun _ => stores).

Definition square : list string := ["0,0,0"; "1,0,0"; "5,0,0"; "0,1,0"].

End Examples.

Import Host.

(** ** Result rows as the check reads them *)

(** Element [j] of row [q] as the check reads it. *)
Definition slot (data : Dev.memory) (knn q j : Z) : option Z :=
  Dev.load_u32 data (U32.add (U32.mul q knn) j).

(** No sentinel in row [q] before position [j]. *)
Definition live (data : Dev.memory) (knn q j : Z) : Prop :=
  forall i, 0 <= i < j -> slot data knn q i <> Some U32.UINT_MAX.

(** Two buffers whose rows [q] coincide up to and including the first
    sentinel (everywhere, when there is none). *)
Definition agree_to_sentinel (data data' : Dev.memory) (knn q : Z) : Prop :=
  forall j, 0 <= j < knn -> live data knn q j ->
            slot data knn q j = slot data' knn q j.

(** ** The sanity check: what is counted and summed *)

(** The indices a row reports: its elements before the first sentinel. *)
Fixpoint reported (slots : list (option Z)) : list Z :=
  match slots with
  | Some p :: rest => if p =? U32.UINT_MAX then [] else p :: reported rest
  | _ => []
  end.

(** All reported pairs (query, neighbour), row by row. *)
Definition entries (data : Dev.memory) (knn numPrims : Z) : list (Z * Z) :=
  flat_map (fun q => map (pair (Z.of_nat q))
                         (reported (Dev.row data knn (Z.of_nat q))))
           (seq 0 (Z.to_nat numPrims)).

(** The pair's squared distance can be computed: both indices are points
    and their batch-0 coordinates are determinate. *)
Definition checkable (nd : ndarray) (e : Z * Z) : Prop :=
  exists d, sq_dist nd (snd e) (fst e) = Ret d.

(** Classified as wrong: the squared distance exceeds the squared radius. *)
Definition is_wrong (nd : ndarray) (radius : float) (e : Z * Z) : bool :=
  match sq_dist nd (snd e) (fst e) with
  | Ret d => F32.gt d (F32.mul radius radius)
  | Stop _ => false
  end.

(** The recomputed distance of a pair: the binary64 root of the squared
    distance, as [account] adds it. *)
Definition distance (nd : ndarray) (e : Z * Z) : double :=
  match sq_dist nd (snd e) (fst e) with
  | Ret d => F64.sqrt (F64.of_float d)
  | Stop _ => S754_nan
  end.

Definition sum_distances (nd : ndarray) (l : list (Z * Z)) (acc : double)
  : double :=
  fold_left (fun acc e => F64.add acc (distance nd e)) l acc.

(** The reading "sum of excess distances": distance beyond the radius. *)
Definition excess (nd : ndarray) (radius : float) (e : Z * Z) : double :=
  F64.sub (distance nd e) (F64.of_float radius).

Definition sum_excess (nd : ndarray) (radius : float) (l : list (Z * Z))
  : double :=
  fold_left (fun acc e => F64.add acc (excess nd radius e)) l (S754_zero false).

(** The reading "reports the average excess distance among incorrect
    reports". *)
Definition reports_average_excess (data : Dev.memory) (state : WhittedState)
  : Prop :=
  let p := params state in
  let wrong := filter (is_wrong (ndpoints state) (radius p))
                      (entries data (knn p) (numPrims p)) in
  exists t,
    sanity_check data state = (t, Ret tt) /\
    (wrong <> [] ->
     In (AvgWrongDist
           (F64.div (sum_excess (ndpoints state) (radius p) wrong)
                    (F64.of_Z (Z.of_nat (List.length wrong))))) t).

(** One accounted pair, as a pure step on the counters. *)
Definition step (nd : ndarray) (radius : float) (st : stats) (e : Z * Z)
  : stats :=
  if is_wrong nd radius e then
    make_stats (U32.incr (totalNeighbors st))
               (U32.incr (totalWrongNeighbors st))
               (F64.add (totalWrongDist st) (distance nd e))
  else
    make_stats (U32.incr (totalNeighbors st)) (totalWrongNeighbors st)
               (totalWrongDist st).

Section RowSegments.

Variables (data : Dev.memory) (knn : Z).

(** The elements [j, j+n) of row [q]. *)
Definition segment (q j : Z) (n : nat) : list (option Z) :=
  map (fun i => slot data knn q (j + Z.of_nat i)) (seq 0 n).

(** What the outer loop prints for the rows [q, q+n). *)
Fixpoint printed_rows (q : Z) (n : nat) : list event :=
  match n with
  | O => []
  | S n' => map Printed (reported (Dev.row data knn q)) ++ EndOfRow
            :: printed_rows (q + 1) n'
  end.

(** The reported pairs of the rows [q, q+n). *)
Fixpoint entries_from (q : Z) (n : nat) : list (Z * Z) :=
  match n with
  | O => []
  | S n' => map (pair q) (reported (Dev.row data knn q))
            ++ entries_from (q + 1) n'
  end.

End RowSegments.

(** ** Sample data *)

Module Samples.

Definition pt (a b c : Z) : float3 :=
  make_float3 (Val (F32.of_Z a)) (Val (F32.of_Z b)) (Val (F32.of_Z c)).

(** The result buffer of [numPrims] rows of [knn] elements after the given
    device stores. *)
Definition buffer_of (numPrims knn : Z) (stores : list (Z * Z)) : Dev.memory :=
  match Dev.launch_memory (fun k => Z.of_nat k) numPrims knn stores with
  | Ret m => m
  | Stop _ => []
  end.

(** Two points at distance 3, radius 2, one result per query. *)
Definition far_pair : WhittedState :=
  loaded (F32.of_Z 2) 1 [[pt 0 0 0; pt 3 0 0]] 2 3.

(** Two points at distance sqrt 2, radius 1, one result per query. *)
Definition diag_pair : WhittedState :=
  loaded (F32.of_Z 1) 1 [[pt 0 0 0; pt 1 1 0]] 2 3.

(** Two points at distance 1, radius 2, three results per query. *)
Definition near_pair : WhittedState :=
  loaded (F32.of_Z 2) 3 [[pt 0 0 0; pt 1 0 0]] 2 3.

End Samples.

(** ** Traces of the host program *)

(** The batch ids of the launches in a trace. *)
Definition launches (t : list event) : list Z :=
  flat_map (fun e => match e with Launch b _ => [b] | _ => [] end) t.

(** The batch ids of the acceleration structures built in a trace. *)
Definition builds (t : list event) : list Z :=
  flat_map (fun e => match e with GasBuild b _ => [b] | _ => [] end) t.

(** The batch ids [b, b+1, ..., b+n-1]. *)
Fixpoint zrange (b : Z) (n : nat) : list Z :=
  match n with
  | O => []
  | S n' => b :: zrange (b + 1) n'
  end.

(** A computation that neither builds nor launches. *)
Definition silent {A : Type} (m : M A) : Prop :=
  launches (fst m) = [] /\ builds (fst m) = [].

(** ** Outcomes of index construction *)

Section PhaseOutcomes.

Variable w : world.

(** Every upload of the first loop succeeds. *)
Definition uploads_ok (b : Z) (n : nat) : bool :=
  forallb (fun b => w_ok w (UploadPoints b)) (zrange b n).

(** Every call of the second loop succeeds. *)
Definition gas_ok (b : Z) (n : nat) : bool :=
  forallb (fun b => w_ok w (UploadAabbs b) && w_ok w (BuildGas b)) (zrange b n).

(** All backend calls of [createGeometry] succeed. *)
Definition geometry_ok (state : WhittedState) : bool :=
  uploads_ok 0 (Z.to_nat (batch state)) && gas_ok 0 (Z.to_nat (batch state)).

End PhaseOutcomes.




(** The world [w] with other content in fresh device memory. *)
Definition with_garbage (w : world) (garbage : nat -> Z) : world :=
  make_world (w_stof w) (w_atoi w) (w_open w) (w_ndebug w) (w_max_dim w)
             (w_ok w) garbage (w_raygen w).

(** The state [createGeometry] returns. *)
Definition with_geometry (state : WhittedState) : WhittedState :=
  make_state (set_points (params state) (ndpoints state))
             (zrange 0 (Z.to_nat (batch state)))
             (ndpoints state) (dim state) (batch state).

(** ** The run of [main] *)

(** A trace in which batch 0 is launched once, after the acceleration
    structures of all [nb] batches were built. *)
Definition queried_after_builds (nb : nat) (t : list event) : Prop :=
  exists t1 N t2,
    t = t1 ++ Launch 0 N :: t2 /\
    launches t1 = [] /\ builds t1 = zrange 0 nb /\
    launches t2 = [] /\ builds t2 = [].

(** The [catch] block of [main]. *)
Definition handler : M Z := (emit Caught ;;; ret 1)%host.

(** The file name the argument scan ends with. *)
Definition chosen_file (w : world) (argv0 : string) (args : list string)
  : string :=
  match snd (parse_args w argv0 args (F32.of_Z 2) 50 "") with
  | Ret (_, _, outfile) => outfile
  | Stop _ => ""
  end.

(** What follows the launch in the [try] block. *)
Definition after_launch (w : world) (data : Dev.memory) (state : WhittedState) : M Z :=
  (check_the_work w data state ;;; check w Cleanup ;;; ret 0)%host.

(** The state [main] enters its [try] block with. *)
Definition entry_state (r : float) (k : Z) (nd : ndarray) (N d : Z)
  : WhittedState := loaded r k nd N d.

(** ** The command line *)

Definition is_help (a : string) : bool := (a =? "--help")%string || (a =? "-h")%string.

Definition is_file (a : string) : bool := (a =? "--file")%string || (a =? "-f")%string.

Definition is_knn (a : string) : bool := (a =? "--knn")%string || (a =? "-k")%string.

Definition is_radius (a : string) : bool :=
  (a =? "--radius")%string || (a =? "-r")%string.

(** An argument that is none of the eight option spellings. *)
Definition is_unknown (a : string) : bool :=
  negb (is_help a || is_file a || is_knn a || is_radius a).

(** A sequence of complete option/value pairs ([--file], [--knn], [--radius]
    and their short forms); [radius_ok] constrains the values of
    [--radius]. *)
Fixpoint option_pairs (radius_ok : string -> bool) (pre : list string) : bool :=
  match pre with
  | [] => true
  | a :: rest =>
      match rest with
      | [] => false
      | v :: rest' =>
          (is_file a || is_knn a || (is_radius a && radius_ok v))
          && option_pairs radius_ok rest'
      end
  end.

(** [std::stof] converts the string. *)
Definition parses (w : world) (v : string) : bool :=
  match w_stof w v with inr _ => true | inl _ => false end.

(** The reading "every command line containing an unknown flag, or --help/-h,
    prints the usage message and exits with code 0": the flag may follow any
    sequence of option/value pairs. *)
Definition usage_exit_claim (w : world) (argv0 : string) (args : list string)
  : Prop :=
  forall pre a post,
    args = pre ++ a :: post ->
    option_pairs (fun _ => true) pre = true ->
    is_help a || is_unknown a = true ->
    exists t, program w argv0 args = (t, Stop (Exit 0)) /\ In (Usage argv0) t.

(** ** Degenerate inputs *)

(** The reading "construction aborts when the primitive count is zero or the
    radius is not positive, before any query runs". *)
Definition rejects_degenerate (w : world) (state : WhittedState) : Prop :=
  numPrims (params state) = 0
  \/ SFleb (radius (params state)) (S754_zero false) = true ->
  (exists t s, createGeometry w state = (t, Stop s)) /\
  launches (fst (try_block w state)) = [].

(** ** Further sample worlds and outcome classes *)

Module Faults.

(** Every backend call succeeds except the build of batch [j]. *)
Definition build_fails (j : Z) (file : option (list string)) : world :=
  make_world StofDec.stof (fun _ => 3)
             (fun name => if (name =? "pts")%string then file else None)
             false 12
             (fun c => match c with BuildGas b => negb (b =? j) | _ => true end)
             (fun k => Z.of_nat k) (fun _ => []).

(** Two batches of two points. *)
Definition two_batches : WhittedState :=
  loaded (F32.of_Z 2) 3
         [[Samples.pt 0 0 0; Samples.pt 1 0 0];
          [Samples.pt 1 1 1; Samples.pt 2 2 2]] 2 6.

End Faults.

(** The ways a computation of the host program may stop, and the values it
    may return. *)
Definition outcome_in {A : Type} (P : stop -> Prop) (Q : A -> Prop) (m : M A)
  : Prop :=
  match snd m with
  | Ret a => Q a
  | Stop s => P s
  end.

(** Stops of the code inside the [try] block: an exception of the backend,
    or an access outside an array. *)
Definition backend_or_bounds (s : stop) : Prop :=
  s = Throw sutil_Exception \/ s = Undefined.

(** Stops of ingestion: an exception of [std::stof], a store outside
    [ndpoints], or the failed [assert(0)]. *)
Definition ingestion_stop (s : stop) : Prop :=
  (exists e, s = Throw e) \/ s = Undefined \/ s = Abort.

(** The bounding boxes [createGeometry] computes for batch [b]: one per
    point, around the batch's 3-tuple of that point. *)
Definition boxes (state : WhittedState) (b : Z) : list OptixAabb :=
  map (fun c => sphere_bound c (radius (params state)))
      (firstn (Z.to_nat (numPrims (params state)))
              (nth (Z.to_nat b) (ndpoints state) [])).

(** * Part II: properties *)

Example tokenize_3 :
  tokenize StofDec.stof false "1,2,3" "," None 0 = Ret (3, None).
Proof. reflexivity. Qed.

Example tokenize_4 :
  tokenize StofDec.stof false "1,2,3,4" "," None 0 = Ret (6, None).
Proof. reflexivity. Qed.

Lemma Ret_inj {A : Type} (a b : A) : Ret a = Ret b -> a = b.
Proof. intros H. now injection H. Qed.

(** ** Tokenizing a row *)

Section IngestionFacts.

Variable stof : string -> exn + float.

Variable NDEBUG : bool.

Lemma fields_nonempty (s : string) : fields s <> [].
Proof.
  destruct s as [|c s]; simpl; [discriminate|].
  destruct (Ascii.eqb c ","); [discriminate|].
  destruct (fields s); discriminate.
Qed.

Lemma index0_comma_cons (c : ascii) (t : string) :
  String.index 0 "," (String c t) =
  if Ascii.eqb c "," then Some 0%nat
  else option_map S (String.index 0 "," t).
Proof.
  cbn [String.index prefix]. destruct (ascii_dec "," c) as [e|ne].
  - subst c. cbn [Ascii.eqb Bool.eqb]. destruct t; reflexivity.
  - destruct (Ascii.eqb c ",") eqn:E.
    + apply Ascii.eqb_eq in E. congruence.
    + destruct (String.index 0 "," t); reflexivity.
Qed.

Lemma index_skip_prefix (pre t : string) :
  String.index (String.length pre) "," (pre ++ t)%string =
  option_map (Nat.add (String.length pre)) (String.index 0 "," t).
Proof.
  induction pre as [|c pre IH]; simpl.
  - destruct (String.index 0 "," t); reflexivity.
  - rewrite IH. destruct (String.index 0 "," t); reflexivity.
Qed.

Lemma substring_skip_prefix (pre t : string) (n : nat) :
  String.substring (String.length pre) n (pre ++ t)%string = String.substring 0 n t.
Proof.
  induction pre as [|c pre IH]; simpl; [reflexivity|].
  destruct n; apply IH.
Qed.

Lemma substring_take_prefix (f rest : string) :
  String.substring 0 (String.length f) (f ++ rest)%string = f.
Proof.
  induction f as [|c f IH]; simpl.
  - destruct rest; reflexivity.
  - now rewrite IH.
Qed.

Lemma substring_all (t : string) (n : nat) :
  (String.length t <= n)%nat -> String.substring 0 n t = t.
Proof.
  revert n. induction t as [|c t IH]; intros n Hn; simpl in *.
  - destruct n; reflexivity.
  - destruct n as [|n]; [lia|]. rewrite IH by lia. reflexivity.
Qed.

Lemma string_app_length (a b : string) :
  String.length (a ++ b)%string = (String.length a + String.length b)%nat.
Proof. induction a; simpl; congruence. Qed.

Lemma string_app_assoc (a b c : string) : ((a ++ b) ++ c)%string = (a ++ (b ++ c))%string.
Proof. induction a; simpl; congruence. Qed.

(** Without a comma the row is a single field. *)
Lemma fields_no_comma (t : string) :
  String.index 0 "," t = None -> fields t = [t].
Proof.
  induction t as [|c t IH]; intros H; [reflexivity|].
  rewrite index0_comma_cons in H. simpl.
  destruct (Ascii.eqb c ","); [discriminate|].
  destruct (String.index 0 "," t); [discriminate|].
  rewrite IH by reflexivity. reflexivity.
Qed.

(** The first comma splits off the first field. *)
Lemma fields_first_comma (t : string) (k : nat) :
  String.index 0 "," t = Some k ->
  exists f0 t', t = (f0 ++ String "," t')%string /\ String.length f0 = k /\
                fields t = f0 :: fields t'.
Proof.
  revert k. induction t as [|c t IH]; intros k H; [discriminate|].
  rewrite index0_comma_cons in H. simpl.
  destruct (Ascii.eqb c ",") eqn:E.
  - apply Ascii.eqb_eq in E. subst c. injection H as <-.
    exists EmptyString, t. auto.
  - destruct (String.index 0 "," t) as [k'|]; [|discriminate].
    injection H as <-.
    destruct (IH k' eq_refl) as (f0 & t' & -> & Hlen & Hf).
    exists (String c f0), t'. rewrite Hf. simpl. auto.
Qed.

Lemma tokenize_scan_done (fuel : nat) (s del : string) (keep : bool)
      (start dim : Z) (vc : list float) :
  tokenize_scan stof fuel s del keep start (-1) dim vc = Ret (start, -1, dim, vc).
Proof. destruct fuel; reflexivity. Qed.

(** The scanning loop followed by the last [std::stof] parses exactly the
    fields of the unread suffix [t]. *)
Lemma tokenize_scan_fields (B : Type) (keep : bool)
      (k : Z * list float -> res B) :
  forall (fuel : nat) (t pre : string) (dim : Z) (vc : list float),
    (String.length t < fuel)%nat ->
    ('(start, end_, dim', vcoords) <-
        tokenize_scan stof fuel (pre ++ t) "," keep
          (Str.size pre) (Str.find (pre ++ t) "," (Str.size pre)) dim vc ;;
     coord <- call_stof stof (Str.substr (pre ++ t) start (end_ - start)) ;;
     k (dim' + 1, if keep then vcoords ++ [coord] else vcoords))%res
    =
    (vs <- parse_all stof (fields t) ;;
     k (dim + Z.of_nat (List.length (fields t)),
        if keep then vc ++ vs else vc))%res.
Proof.
  induction fuel as [|fuel IH]; intros t pre dim vc Hfuel; [lia|].
  unfold Str.find, Str.size. rewrite Nat2Z.id, index_skip_prefix.
  destruct (String.index 0 "," t) as [j|] eqn:Hidx.
  - (* a comma at offset j *)
    destruct (fields_first_comma _ _ Hidx) as (f0 & t' & -> & Hlen & Hf).
    rewrite Hf. cbn [option_map tokenize_scan].
    replace (Z.of_nat (String.length pre + j) =? -1) with false
      by (symmetry; apply Z.eqb_neq; lia).
    assert (Hsub : Str.substr (pre ++ f0 ++ String "," t')
                     (Z.of_nat (String.length pre))
                     (Z.of_nat (String.length pre + j)
                      - Z.of_nat (String.length pre)) = f0).
    { unfold Str.substr.
      replace (_ - _ <? 0) with false by (symmetry; apply Z.ltb_ge; lia).
      rewrite Nat2Z.id, substring_skip_prefix.
      replace (Z.to_nat _) with (String.length f0) by lia.
      apply substring_take_prefix. }
    rewrite Hsub. cbn [parse_all rbind].
    destruct (call_stof stof f0) as [coord|st]; cbn [rbind]; [|reflexivity].
    specialize (IH t' (pre ++ f0 ++ ",")%string (dim + 1)
                   (if keep then vc ++ [coord] else vc)).
    rewrite !string_app_assoc in IH. cbn [String.append] in IH.
    replace (Z.of_nat (String.length pre + j) + Str.size ",")
      with (Str.size (pre ++ f0 ++ ",")).
    2:{ unfold Str.size. rewrite !string_app_length. cbn [String.length]. lia. }
    rewrite IH.
    2:{ rewrite string_app_length in Hfuel. cbn [String.length] in Hfuel. lia. }
    destruct (parse_all stof (fields t')) as [vs|st]; cbn [rbind]; [|reflexivity].
    f_equal. f_equal.
    + cbn [List.length]. lia.
    + destruct keep; [|reflexivity]. now rewrite <- app_assoc.
  - (* no comma left *)
    rewrite (fields_no_comma _ Hidx).
    cbn [option_map]. rewrite tokenize_scan_done. cbn [rbind].
    assert (Hsub : Str.substr (pre ++ t) (Z.of_nat (String.length pre))
                     (-1 - Z.of_nat (String.length pre)) = t).
    { unfold Str.substr.
      replace (_ - _ <? 0) with true by (symmetry; apply Z.ltb_lt; lia).
      rewrite Nat2Z.id, substring_skip_prefix.
      apply substring_all. rewrite string_app_length. lia. }
    rewrite Hsub. cbn [parse_all rbind List.length].
    destruct (call_stof stof t); cbn [rbind]; [|reflexivity].
    destruct keep; reflexivity.
Qed.

End IngestionFacts.

(** ** [tokenize] in terms of the fields of a row *)

Section ReadFacts.

Variable stof : string -> exn + float.

Variable NDEBUG : bool.

Lemma num_fields_pos (s : string) : 1 <= num_fields s.
Proof.
  unfold num_fields. pose proof (fields_nonempty s).
  destruct (fields s); [congruence|]. cbn [List.length]. lia.
Qed.

Lemma round3_ceil3 (D : Z) : 0 <= D -> round3 D = 3 * ceil3 D.
Proof.
  intros HD. unfold round3, ceil3.
  rewrite Z.rem_mod_nonneg, Z.quot_div_nonneg by lia.
  destruct (D mod 3 =? 0) eqn:E; cbn [negb].
  - apply Z.eqb_eq in E.
    pose proof (Z.div_mod D 3 ltac:(lia)).
    pose proof (Z.div_mod (D + 2) 3 ltac:(lia)).
    pose proof (Z.mod_pos_bound (D + 2) 3 ltac:(lia)). lia.
  - apply Z.eqb_neq in E.
    pose proof (Z.div_mod D 3 ltac:(lia)).
    pose proof (Z.mod_pos_bound D 3 ltac:(lia)).
    pose proof (Z.div_mod (D + 2) 3 ltac:(lia)).
    pose proof (Z.mod_pos_bound (D + 2) 3 ltac:(lia)). lia.
Qed.

Lemma round3_quot (D : Z) : 0 <= D -> Z.quot (round3 D) 3 = ceil3 D.
Proof.
  intros HD. rewrite round3_ceil3 by assumption.
  assert (0 <= ceil3 D) by (unfold ceil3; apply Z.div_pos; lia).
  rewrite Z.quot_div_nonneg by lia.
  rewrite Z.mul_comm. apply Z.div_mul. lia.
Qed.

Lemma ceil3_pos (D : Z) : 1 <= D -> 1 <= ceil3 D.
Proof.
  intros HD. unfold ceil3.
  pose proof (Z.div_mod (D + 2) 3 ltac:(lia)).
  pose proof (Z.mod_pos_bound (D + 2) 3 ltac:(lia)). lia.
Qed.

(** [tokenize] with the comma delimiter, in terms of the row's fields: every
    field goes through [std::stof] in order, the dimension is the field count
    rounded up to a multiple of 3, and one tuple per batch is stored. *)
Lemma tokenize_fields (s : string) (ndpoints : option ndarray) (lineId : Z) :
  tokenize stof NDEBUG s "," ndpoints lineId =
  (vs <- parse_all stof (fields s) ;;
   let dim := 3 * ceil3 (num_fields s) in
   match ndpoints with
   | None => Ret (dim, None)
   | Some nd =>
       nd' <- store_batches (Z.to_nat (ceil3 (num_fields s))) 0 vs nd lineId ;;
       Ret (dim, Some nd')
   end)%res.
Proof.
  unfold tokenize.
  set (keep := match ndpoints with Some _ => true | None => false end).
  pose proof (tokenize_scan_fields stof _ keep
    (fun p : Z * list float =>
       let '(dim, vcoords) := p in
       (_ <- assert NDEBUG (0 <? dim) ;;
        let dim := round3 dim in
        match ndpoints with
        | None => Ret (dim, None)
        | Some nd =>
            nd' <- store_batches (Z.to_nat (Z.quot dim 3)) 0 vcoords nd lineId ;;
            Ret (dim, Some nd')
        end)%res)
    (S (String.length s)) s "" 0 [] ltac:(lia)) as H.
  cbn [String.append Str.size String.length Z.of_nat] in H.
  etransitivity; [exact H|]. clear H.
  destruct (parse_all stof (fields s)) as [vs|st]; cbn [rbind]; [|reflexivity].
  pose proof (num_fields_pos s) as Hpos. fold (num_fields s).
  cbn [Z.add].
  unfold assert. replace (0 <? num_fields s) with true
    by (symmetry; apply Z.ltb_lt; lia).
  assert (Hret : (if NDEBUG then Ret tt else Ret tt) = Ret tt :> res unit)
    by (destruct NDEBUG; reflexivity).
  rewrite Hret. cbn [rbind].
  rewrite round3_quot, round3_ceil3 by lia.
  destruct ndpoints as [nd|]; [|reflexivity].
  subst keep. cbn [app]. reflexivity.
Qed.

End ReadFacts.

(** ** Storing a row into the batches *)

Section StoreFacts.

Lemma list_set_app_mid {A : Type} (l1 l2 : list A) (a a' : A) :
  list_set (l1 ++ a :: l2) (List.length l1) a' = l1 ++ a' :: l2.
Proof.
  unfold list_set.
  rewrite firstn_app, firstn_all, Nat.sub_diag, firstn_O, app_nil_r.
  replace (S (List.length l1)) with (List.length l1 + 1)%nat by lia.
  rewrite skipn_app, skipn_all2 by lia.
  replace (List.length l1 + 1 - List.length l1)%nat with 1%nat by lia.
  reflexivity.
Qed.

Lemma nth_error_app_mid {A : Type} (l1 l2 : list A) (a : A) :
  nth_error (l1 ++ a :: l2) (List.length l1) = Some a.
Proof.
  rewrite nth_error_app2 by lia. now rewrite Nat.sub_diag.
Qed.

Lemma column_store (done : list (list float)) (rest : nat) (b : nat)
      (vs : list float) :
  list_set (column done (S rest) b) (List.length done) (triple vs (Z.of_nat b))
  = column (done ++ [vs]) rest b.
Proof.
  unfold column. cbn [repeat].
  pose proof (list_set_app_mid
                (map (fun vs => triple vs (Z.of_nat b)) done)
                (repeat uninit rest) uninit (triple vs (Z.of_nat b))) as H.
  rewrite length_map in H. rewrite H.
  rewrite map_app, <- app_assoc. reflexivity.
Qed.

(** The batch loop, started at batch [b0] with [n] batches to go, over an
    array whose first [b0] columns already hold the new row. *)
Lemma store_batches_columns (done : list (list float)) (rest : nat)
      (vs : list float) :
  forall (n b0 : nat),
    store_batches n (Z.of_nat b0) vs
      (map (column (done ++ [vs]) rest) (seq 0 b0)
       ++ map (column done (S rest)) (seq b0 n))
      (Z.of_nat (List.length done))
    = Ret (map (column (done ++ [vs]) rest) (seq 0 (b0 + n))).
Proof.
  induction n as [|n IH]; intros b0.
  - cbn [store_batches seq map]. now rewrite app_nil_r, Nat.add_0_r.
  - cbn [store_batches seq map]. unfold nd_store.
    replace (Z.of_nat b0 <? 0) with false by (symmetry; apply Z.ltb_ge; lia).
    replace (Z.of_nat (List.length done) <? 0) with false
      by (symmetry; apply Z.ltb_ge; lia).
    cbn [orb]. rewrite !Nat2Z.id.
    pose proof (nth_error_app_mid
                  (map (column (done ++ [vs]) rest) (seq 0 b0))
                  (map (column done (S rest)) (seq (S b0) n))
                  (column done (S rest) b0)) as Hnth.
    pose proof (list_set_app_mid
                  (map (column (done ++ [vs]) rest) (seq 0 b0))
                  (map (column done (S rest)) (seq (S b0) n))
                  (column done (S rest) b0)
                  (column (done ++ [vs]) rest b0)) as Hset.
    rewrite length_map, length_seq in Hnth, Hset.
    rewrite Hnth.
    replace (List.length done <? List.length (column done (S rest) b0))%nat
      with true.
    2:{ symmetry. apply Nat.ltb_lt. unfold column.
        rewrite length_app, length_map, repeat_length. lia. }
    fold (triple vs (Z.of_nat b0)).
    rewrite column_store, Hset. cbn [rbind].
    replace (Z.of_nat b0 + 1) with (Z.of_nat (S b0)) by lia.
    specialize (IH (S b0)).
    rewrite seq_S, map_app in IH. cbn [map Nat.add] in IH.
    rewrite <- app_assoc in IH. cbn [app] in IH.
    rewrite IH. f_equal. f_equal. f_equal. lia.
Qed.

Lemma table_columns (B : nat) (done : list (list float)) (rest : nat) :
  table B done rest = map (column done rest) (seq 0 B).
Proof. reflexivity. Qed.

(** Storing one more row into the table. *)
Lemma store_batches_table (B : nat) (done : list (list float)) (rest : nat)
      (vs : list float) :
  store_batches B 0 vs (table B done (S rest)) (Z.of_nat (List.length done))
  = Ret (table B (done ++ [vs]) rest).
Proof.
  pose proof (store_batches_columns done rest vs B 0) as H.
  cbn [seq map app Z.of_nat Nat.add] in H. rewrite !table_columns. exact H.
Qed.

End StoreFacts.

(** ** The two reading loops *)

Section ReadLoops.

Variable stof : string -> exn + float.

Variable NDEBUG : bool.

Lemma incr_small (n : Z) : 0 <= n -> n + 1 < U32.modulus -> U32.incr n = n + 1.
Proof.
  intros H0 H1. unfold U32.incr, U32.add, U32.u32. apply Z.mod_small. lia.
Qed.

Lemma row_ok_fits (D : Z) (r : string) : row_ok stof D r -> row_fits stof (ceil3 D) r.
Proof. intros (Hg & <- & Hp). repeat split; auto. lia. Qed.

(** The counting loop past the first line only counts. *)
Lemma count_lines_rest (rows : list string) :
  forall (lines dim : Z),
    1 <= lines -> lines + Z.of_nat (List.length rows) < U32.modulus ->
    Forall (fun r => getline_ok r = true) rows ->
    count_lines stof NDEBUG rows lines dim
    = Ret (lines + Z.of_nat (List.length rows), dim).
Proof.
  induction rows as [|r rows IH]; intros lines dim Hl Hb Hok.
  - cbn [count_lines List.length Z.of_nat]. now rewrite Z.add_0_r.
  - inversion Hok as [|? ? Hr Hrest]; subst.
    cbn [count_lines List.length] in *. rewrite Hr.
    replace (lines =? 0) with false by (symmetry; apply Z.eqb_neq; lia).
    cbn [rbind]. rewrite incr_small by lia.
    rewrite IH by (auto; lia). f_equal. f_equal. lia.
Qed.

(** The counting loop on a file whose first line parses. *)
Lemma count_lines_first (r0 : string) (rows : list string) (vs : list float) :
  Z.of_nat (List.length (r0 :: rows)) < U32.modulus ->
  Forall (fun r => getline_ok r = true) (r0 :: rows) ->
  parse_all stof (fields r0) = Ret vs ->
  count_lines stof NDEBUG (r0 :: rows) 0 0
  = Ret (Z.of_nat (List.length (r0 :: rows)), 3 * ceil3 (num_fields r0)).
Proof.
  intros Hb Hok Hp. inversion Hok as [|? ? Hr Hrest]; subst.
  cbn [count_lines]. rewrite Hr. cbn [Z.eqb].
  rewrite tokenize_fields, Hp. cbn [rbind].
  cbn [List.length] in Hb.
  change (U32.incr 0) with 1.
  rewrite count_lines_rest by (auto; lia).
  f_equal. f_equal. cbn [List.length]. lia.
Qed.

(** The filling loop on rows that all have [D] fields. *)
Lemma fill_lines_table (D : Z) (rows : list string) :
  forall (done : list (list float)),
    Z.of_nat (List.length done + List.length rows) < U32.modulus ->
    Forall (row_ok stof D) rows ->
    fill_lines stof NDEBUG rows (Z.of_nat (List.length done))
               (table (Z.to_nat (ceil3 D)) done (List.length rows))
    = Ret (table (Z.to_nat (ceil3 D)) (done ++ map (coords stof) rows) 0).
Proof.
  induction rows as [|r rows IH]; intros done Hb Hok.
  - cbn [fill_lines map List.length]. now rewrite app_nil_r.
  - inversion Hok as [|? ? (Hg & HD & vs & Hp) Hrest]; subst.
    cbn [fill_lines List.length map] in *. rewrite Hg.
    rewrite tokenize_fields, Hp. cbn [rbind].
    rewrite store_batches_table. cbn [rbind].
    rewrite incr_small by lia.
    specialize (IH (done ++ [vs])).
    rewrite length_app in IH. cbn [List.length] in IH.
    replace (Z.of_nat (List.length done) + 1)
      with (Z.of_nat (List.length done + 1)) by lia.
    rewrite IH by (auto; lia).
    unfold coords at 2. rewrite Hp. now rewrite <- app_assoc.
Qed.

Lemma table_fresh (B N : nat) : table B [] N = repeat (repeat uninit N) B.
Proof.
  unfold table. cbn [map app].
  generalize 0%nat. induction B as [|B IH]; intros s; cbn [seq map repeat].
  - reflexivity.
  - now rewrite IH.
Qed.

Lemma list_set_length {A : Type} (l : list A) (i : nat) (a : A) :
  (i < List.length l)%nat -> List.length (list_set l i a) = List.length l.
Proof.
  intros H. unfold list_set.
  rewrite length_app, length_firstn. cbn [List.length].
  rewrite length_skipn. lia.
Qed.

Lemma Forall_list_set {A : Type} (P : A -> Prop) (l : list A) (i : nat) (a : A) :
  Forall P l -> P a -> Forall P (list_set l i a).
Proof.
  intros Hl Ha. unfold list_set. apply Forall_app. split.
  - rewrite <- (firstn_skipn i l) in Hl. now apply Forall_app in Hl.
  - constructor; [assumption|].
    rewrite <- (firstn_skipn (S i) l) in Hl. now apply Forall_app in Hl.
Qed.

Lemma nd_store_shape (B N : nat) (nd : ndarray) (b i : nat) (p : float3) :
  shape B N nd -> (b < B)%nat -> (i < N)%nat ->
  exists nd', nd_store nd (Z.of_nat b) (Z.of_nat i) p = Ret nd' /\ shape B N nd'.
Proof.
  intros [HB HN] Hb Hi. unfold nd_store.
  replace (Z.of_nat b <? 0) with false by (symmetry; apply Z.ltb_ge; lia).
  replace (Z.of_nat i <? 0) with false by (symmetry; apply Z.ltb_ge; lia).
  cbn [orb]. rewrite !Nat2Z.id.
  destruct (nth_error nd b) as [row|] eqn:Hrow.
  2:{ apply nth_error_None in Hrow. lia. }
  assert (Hlen : List.length row = N).
  { apply nth_error_In in Hrow. rewrite Forall_forall in HN. now apply HN. }
  replace (i <? List.length row)%nat with true
    by (symmetry; apply Nat.ltb_lt; lia).
  eexists. split; [reflexivity|]. split.
  - rewrite list_set_length; lia.
  - apply Forall_list_set; [assumption|]. rewrite list_set_length; lia.
Qed.

Lemma store_batches_shape (B N : nat) (vs : list float) (i : nat) :
  forall (n b0 : nat) (nd : ndarray),
    shape B N nd -> (b0 + n <= B)%nat -> (i < N)%nat ->
    exists nd', store_batches n (Z.of_nat b0) vs nd (Z.of_nat i) = Ret nd'
                /\ shape B N nd'.
Proof.
  induction n as [|n IH]; intros b0 nd Hs Hb Hi.
  - exists nd. split; [reflexivity|assumption].
  - cbn [store_batches].
    destruct (nd_store_shape B N nd b0 i
                (make_float3 (vget vs (Z.of_nat b0 * 3))
                             (vget vs (Z.of_nat b0 * 3 + 1))
                             (vget vs (Z.of_nat b0 * 3 + 2))) Hs)
      as (nd1 & -> & Hs1); [lia|lia|].
    cbn [rbind]. replace (Z.of_nat b0 + 1) with (Z.of_nat (S b0)) by lia.
    apply IH; [assumption|lia|lia].
Qed.

(** The filling loop succeeds on rows that need at most [B] batches. *)
Lemma fill_lines_shape (B N : nat) (rows : list string) :
  forall (i : nat) (nd : ndarray),
    shape B N nd -> (i + List.length rows <= N)%nat ->
    Z.of_nat N < U32.modulus ->
    Forall (row_fits stof (Z.of_nat B)) rows ->
    exists nd', fill_lines stof NDEBUG rows (Z.of_nat i) nd = Ret nd'
                /\ shape B N nd'.
Proof.
  induction rows as [|r rows IH]; intros i nd Hs Hi HN Hok.
  - exists nd. split; [reflexivity|assumption].
  - inversion Hok as [|? ? (Hg & HB & vs & Hp) Hrest]; subst.
    cbn [fill_lines List.length] in *. rewrite Hg.
    rewrite tokenize_fields, Hp. cbn [rbind].
    pose proof (num_fields_pos r) as Hpos.
    pose proof (ceil3_pos _ Hpos) as Hc.
    destruct (store_batches_shape B N vs i
                (Z.to_nat (ceil3 (num_fields r))) 0 nd Hs)
      as (nd1 & Hst & Hs1); [lia|lia|].
    cbn [Z.of_nat] in Hst. rewrite Hst. cbn [rbind].
    rewrite incr_small by lia.
    replace (Z.of_nat i + 1) with (Z.of_nat (S i)) by lia.
    apply IH; [assumption|lia|assumption|assumption].
Qed.

Lemma shape_fresh (B N : nat) : shape B N (repeat (repeat uninit N) B).
Proof.
  split.
  - apply repeat_length.
  - apply Forall_forall. intros col Hin. apply repeat_spec in Hin. subst.
    apply repeat_length.
Qed.

End ReadLoops.

(** ** Ingestion *)

Section IngestionTheorems.

Variable stof : string -> exn + float.

Variable NDEBUG : bool.

Lemma ceil3_bounds (D : Z) : D <= 3 * ceil3 D < D + 3.
Proof.
  unfold ceil3.
  pose proof (Z.div_mod (D + 2) 3 ltac:(lia)).
  pose proof (Z.mod_pos_bound (D + 2) 3 ltac:(lia)). lia.
Qed.

Lemma parse_all_length (fs : list string) :
  forall vs, parse_all stof fs = Ret vs -> List.length vs = List.length fs.
Proof.
  induction fs as [|f fs IH]; intros vs H; cbn [parse_all] in H.
  - injection H as <-. reflexivity.
  - destruct (call_stof stof f); cbn [rbind] in H; [|discriminate].
    destruct (parse_all stof fs) as [vs'|]; cbn [rbind] in H; [|discriminate].
    injection H as <-. cbn [List.length]. now rewrite (IH vs').
Qed.

Lemma vget_inside (vs : list float) (i : Z) :
  0 <= i < Z.of_nat (List.length vs) -> exists x, vget vs i = Val x.
Proof.
  intros Hi. unfold vget.
  replace (i <? 0) with false by (symmetry; apply Z.ltb_ge; lia).
  destruct (nth_error vs (Z.to_nat i)) as [x|] eqn:E; [now exists x|].
  apply nth_error_None in E. lia.
Qed.

Lemma vget_outside (vs : list float) (i : Z) :
  Z.of_nat (List.length vs) <= i -> vget vs i = Indet.
Proof.
  intros Hi. unfold vget.
  replace (i <? 0) with false by (symmetry; apply Z.ltb_ge; lia).
  destruct (nth_error vs (Z.to_nat i)) as [x|] eqn:E; [|reflexivity].
  assert (nth_error vs (Z.to_nat i) <> None) as Hn by congruence.
  apply nth_error_Some in Hn. lia.
Qed.

(** No field is lost: coordinate [i] of a row is component [i mod 3] of the
    tuple of batch [i / 3]. *)
Lemma triple_component (vs : list float) (i : Z) :
  0 <= i -> component (triple vs (i / 3)) (i mod 3) = vget vs i.
Proof.
  intros Hi. pose proof (Z.div_mod i 3 ltac:(lia)) as Hdm.
  pose proof (Z.mod_pos_bound i 3 ltac:(lia)) as Hm.
  unfold component, triple. cbn [fx fy fz].
  destruct (i mod 3 =? 0) eqn:E0.
  - apply Z.eqb_eq in E0. f_equal. lia.
  - destruct (i mod 3 =? 1) eqn:E1.
    + apply Z.eqb_eq in E1. f_equal. lia.
    + apply Z.eqb_neq in E0, E1. f_equal. lia.
Qed.

(** The tuple of the last batch of a row whose field count is not a multiple
    of 3 ends with a coordinate read past the end of [vcoords]. *)
Lemma last_triple_padded (vs : list float) :
  let d := Z.of_nat (List.length vs) in
  d mod 3 <> 0 -> fz (triple vs (ceil3 d - 1)) = Indet.
Proof.
  intros d Hd. unfold triple. cbn [fz]. apply vget_outside. fold d.
  unfold ceil3.
  pose proof (Z.div_mod d 3 ltac:(lia)).
  pose proof (Z.mod_pos_bound d 3 ltac:(lia)).
  pose proof (Z.div_mod (d + 2) 3 ltac:(lia)).
  pose proof (Z.mod_pos_bound (d + 2) 3 ltac:(lia)). lia.
Qed.

Lemma nth_error_table (B : nat) (done : list (list float)) (b : nat) :
  (b < B)%nat ->
  nth_error (table B done 0) b = Some (map (fun vs => triple vs (Z.of_nat b)) done).
Proof.
  intros Hb. unfold table.
  rewrite nth_error_map, nth_error_seq.
  replace (b <? B)%nat with true by (symmetry; apply Nat.ltb_lt; lia).
  cbn [option_map Nat.add repeat]. now rewrite app_nil_r.
Qed.

Lemma table_length (B : nat) (done : list (list float)) (rest : nat) :
  List.length (table B done rest) = B.
Proof. unfold table. now rewrite length_map, length_seq. Qed.

(** [read_pc_data] on a file whose rows all have [D] numeric fields. *)
Lemma read_pc_data_table (D : Z) (r0 : string) (rows : list string) :
  Z.of_nat (List.length (r0 :: rows)) < U32.modulus ->
  Forall (row_ok stof D) (r0 :: rows) ->
  read_pc_data stof NDEBUG (Some (r0 :: rows))
  = Ret (table (Z.to_nat (ceil3 D)) (map (coords stof) (r0 :: rows)) 0,
         Z.of_nat (List.length (r0 :: rows)), 3 * ceil3 D).
Proof.
  intros Hb Hok. unfold read_pc_data. cbn [rbind].
  assert (Hg : Forall (fun r => getline_ok r = true) (r0 :: rows)).
  { eapply Forall_impl; [|exact Hok]. now intros r (Hg & _). }
  inversion Hok as [|? ? (_ & HD & vs & Hp) _]; subst.
  rewrite (count_lines_first stof NDEBUG r0 rows vs Hb Hg Hp). cbn [rbind].
  pose proof (num_fields_pos r0) as Hpos.
  pose proof (ceil3_pos _ Hpos) as Hc.
  rewrite Z.quot_div_nonneg by lia.
  rewrite Z.mul_comm, Z.div_mul by lia. rewrite Nat2Z.id.
  rewrite <- table_fresh.
  pose proof (fill_lines_table stof NDEBUG (num_fields r0) (r0 :: rows) []) as Hf.
  cbn [List.length Nat.add Z.of_nat app] in Hf.
  change (Z.of_nat 0) with 0 in Hf.
  cbn [List.length] in *. rewrite Hf by (auto; lia).
  cbn [rbind]. f_equal.
Qed.

(** C3 (as amended): on an input whose rows all have the [D] fields of the
    first row, [read_pc_data] builds ceil(D/3) batch arrays, and in batch [b]
    the element of every row is the one 3-tuple made of that row's
    coordinates 3b, 3b+1, 3b+2, the first of which is a field of the row. *)
Theorem read_pc_data_batches (D : Z) (r0 : string) (rows : list string) :
  Z.of_nat (List.length (r0 :: rows)) < U32.modulus ->
  Forall (row_ok stof D) (r0 :: rows) ->
  exists nd,
    read_pc_data stof NDEBUG (Some (r0 :: rows))
    = Ret (nd, Z.of_nat (List.length (r0 :: rows)), 3 * ceil3 D) /\
    Z.of_nat (List.length nd) = ceil3 D /\
    forall b, 0 <= b < ceil3 D ->
      exists col,
        nth_error nd (Z.to_nat b) = Some col /\
        col = map (fun r => triple (coords stof r) b) (r0 :: rows) /\
        Forall (fun p => exists x, fx p = Val x) col.
Proof.
  intros Hb Hok. eexists. split; [now apply read_pc_data_table|].
  assert (HD : 1 <= D).
  { inversion Hok as [|? ? (_ & <- & _) _]. apply num_fields_pos. }
  pose proof (ceil3_pos _ HD) as Hc.
  split; [rewrite table_length; lia|].
  intros b Hb3. eexists. split.
  - rewrite nth_error_table by lia. rewrite Z2Nat.id by lia. reflexivity.
  - rewrite map_map. split; [reflexivity|].
    apply Forall_forall. intros p Hin. apply in_map_iff in Hin.
    destruct Hin as (r & <- & Hr).
    rewrite Forall_forall in Hok. destruct (Hok r Hr) as (_ & Hn & vs & Hp).
    unfold coords. rewrite Hp. cbn [triple fx].
    apply vget_inside. rewrite (parse_all_length _ _ Hp).
    unfold num_fields in Hn. pose proof (ceil3_bounds D). lia.
Qed.

(** On an input whose rows fit the line buffer, parse, and need no more
    batches than the first row, [read_pc_data] returns. *)
Lemma read_pc_data_fits (r0 : string) (rows : list string) :
  Z.of_nat (List.length (r0 :: rows)) < U32.modulus ->
  Forall (row_fits stof (ceil3 (num_fields r0))) (r0 :: rows) ->
  exists nd,
    read_pc_data stof NDEBUG (Some (r0 :: rows))
    = Ret (nd, Z.of_nat (List.length (r0 :: rows)), 3 * ceil3 (num_fields r0)) /\
    num_fields r0 <= 3 * ceil3 (num_fields r0) < num_fields r0 + 3.
Proof.
  intros Hb Hok. unfold read_pc_data. cbn [rbind].
  assert (Hg : Forall (fun r => getline_ok r = true) (r0 :: rows)).
  { eapply Forall_impl; [|exact Hok]. now intros r (Hg & _). }
  inversion Hok as [|? ? (_ & _ & vs & Hp) _]; subst.
  rewrite (count_lines_first stof NDEBUG r0 rows vs Hb Hg Hp). cbn [rbind].
  pose proof (num_fields_pos r0) as Hpos.
  pose proof (ceil3_pos _ Hpos) as Hc.
  rewrite Z.quot_div_nonneg by lia.
  rewrite Z.mul_comm, Z.div_mul by lia. rewrite Nat2Z.id.
  destruct (fill_lines_shape stof NDEBUG
              (Z.to_nat (ceil3 (num_fields r0))) (List.length (r0 :: rows))
              (r0 :: rows) 0 _ (shape_fresh _ _)) as (nd & Hfill & _).
  - cbn [Nat.add]. lia.
  - assumption.
  - rewrite Z2Nat.id by lia. assumption.
  - cbn [Z.of_nat] in Hfill. rewrite Hfill. cbn [rbind].
    rewrite (Z.mul_comm (ceil3 (num_fields r0)) 3).
    exists nd. split; [reflexivity|apply ceil3_bounds].
Qed.

Lemma readable_fit (rows : list string) :
  Forall (fun r => getline_ok r = true) (readable rows).
Proof.
  induction rows as [|r rows IH]; cbn [readable]; [constructor|].
  destruct (getline_ok r) eqn:Hg; constructor; assumption.
Qed.

Lemma readable_length (rows : list string) :
  (List.length (readable rows) <= List.length rows)%nat.
Proof.
  induction rows as [|r rows IH]; cbn [readable List.length]; [lia|].
  destruct (getline_ok r); cbn [List.length]; lia.
Qed.

Lemma count_lines_readable (rows : list string) :
  forall (lines dim : Z),
    count_lines stof NDEBUG rows lines dim
    = count_lines stof NDEBUG (readable rows) lines dim.
Proof.
  induction rows as [|r rows IH]; intros lines dim; [reflexivity|].
  cbn [readable count_lines].
  destruct (getline_ok r) eqn:Hg; [|reflexivity].
  cbn [count_lines]. rewrite Hg.
  destruct (if lines =? 0
            then ('(d, _) <- tokenize stof NDEBUG r "," None 0 ;; Ret d)%res
            else Ret dim) as [d|s]; cbn [rbind]; [apply IH|reflexivity].
Qed.

Lemma fill_lines_readable (rows : list string) :
  forall (lines : Z) (nd : ndarray),
    fill_lines stof NDEBUG rows lines nd
    = fill_lines stof NDEBUG (readable rows) lines nd.
Proof.
  induction rows as [|r rows IH]; intros lines nd; [reflexivity|].
  cbn [readable fill_lines].
  destruct (getline_ok r) eqn:Hg; [|reflexivity].
  cbn [fill_lines]. rewrite Hg.
  destruct (tokenize stof NDEBUG r "," (Some nd) lines) as [[d o]|s];
    cbn [rbind]; [apply IH|reflexivity].
Qed.

Lemma read_pc_data_readable (rows : list string) :
  read_pc_data stof NDEBUG (Some rows)
  = read_pc_data stof NDEBUG (Some (readable rows)).
Proof.
  unfold read_pc_data. cbn [rbind].
  rewrite count_lines_readable.
  destruct (count_lines stof NDEBUG (readable rows) 0 0) as [[lines dim]|s];
    cbn [rbind]; [|reflexivity].
  now rewrite fill_lines_readable.
Qed.

(** C4 (as amended): for every opened file of fewer than 2^32 lines,
    whenever [read_pc_data] returns, [*N] is the number of lines before the
    first line that does not fit the line buffer (the number of rows when
    every line fits), and [*d] is 0 when that number is 0 and otherwise the
    field count [D] of the first row rounded up to the next multiple of 3,
    not [D] itself; and it does return when each of those lines parses and
    needs no more than [*d / 3] batches. *)
Theorem read_pc_data_dim_count (rows : list string) :
  Z.of_nat (List.length rows) < U32.modulus ->
  (forall nd N d,
     read_pc_data stof NDEBUG (Some rows) = Ret (nd, N, d) ->
     N = Z.of_nat (List.length (readable rows)) /\
     d = padded_dim (readable rows)) /\
  (Forall (row_fits stof (Z.quot (padded_dim (readable rows)) 3))
          (readable rows) ->
   exists nd,
     read_pc_data stof NDEBUG (Some rows)
     = Ret (nd, Z.of_nat (List.length (readable rows)),
            padded_dim (readable rows))) /\
  (forall r0 rest,
     readable rows = r0 :: rest ->
     num_fields r0 <= padded_dim (readable rows) < num_fields r0 + 3 /\
     padded_dim (readable rows) mod 3 = 0).
Proof.
  intros Hb.
  pose proof (readable_length rows) as Hlen.
  pose proof (readable_fit rows) as Hg.
  rewrite read_pc_data_readable.
  destruct (readable rows) as [|r0 rest] eqn:Hpre.
  - split; [|split].
    + intros nd N d H. unfold read_pc_data in H.
      cbn [rbind count_lines fill_lines] in H. apply Ret_inj in H.
      cbn [List.length padded_dim Z.of_nat]. split; congruence.
    + intros _. eexists. reflexivity.
    + intros r1 rest1 H. discriminate H.
  - assert (Hb' : Z.of_nat (List.length (r0 :: rest)) < U32.modulus) by lia.
    pose proof (num_fields_pos r0) as Hpos.
    pose proof (ceil3_pos _ Hpos) as Hc.
    cbn [padded_dim].
    split; [|split].
    + intros nd N d H.
      destruct (parse_all stof (fields r0)) as [vs|s] eqn:Hp.
      * unfold read_pc_data in H. cbn [rbind] in H.
        rewrite (count_lines_first stof NDEBUG r0 rest vs Hb' Hg Hp) in H.
        cbn [rbind] in H.
        destruct (fill_lines _ _ _ _ _) as [x|s] in H; cbn [rbind] in H;
          [|discriminate].
        apply Ret_inj in H. split; congruence.
      * exfalso. unfold read_pc_data in H. cbn [rbind count_lines] in H.
        inversion Hg as [|? ? Hg0 _]; subst. rewrite Hg0 in H.
        change (0 =? 0) with true in H. cbv iota in H.
        rewrite tokenize_fields, Hp in H. cbn [rbind] in H. discriminate.
    + intros Hfit.
      rewrite Z.quot_div_nonneg in Hfit by lia.
      rewrite Z.mul_comm, Z.div_mul in Hfit by lia.
      destruct (read_pc_data_fits r0 rest Hb' Hfit) as (nd & Hrun & _).
      exists nd. exact Hrun.
    + intros r1 rest1 H. assert (r1 = r0) as -> by congruence.
      split; [apply ceil3_bounds|].
      rewrite Z.mul_comm. apply Z.mod_mul. lia.
Qed.

End IngestionTheorems.

(** A witness for C3: three 4-D points, two batches. *)
Lemma read_pc_data_batches_witness :
  exists nd,
    read_pc_data StofDec.stof false (Some ["1,2,3,4"; "5,6,7,8"; "9,10,11,12"])
    = Ret (nd, 3, 3 * ceil3 4) /\
    Z.of_nat (List.length nd) = ceil3 4 /\
    forall b, 0 <= b < ceil3 4 ->
      exists col,
        nth_error nd (Z.to_nat b) = Some col /\
        col = map (fun r => triple (coords StofDec.stof r) b)
                  ["1,2,3,4"; "5,6,7,8"; "9,10,11,12"] /\
        Forall (fun p => exists x, fx p = Val x) col.
Proof.
  apply (read_pc_data_batches StofDec.stof false 4 "1,2,3,4"
           ["5,6,7,8"; "9,10,11,12"]).
  - vm_compute. reflexivity.
  - repeat constructor; eexists; vm_compute; reflexivity.
Defined.

(** A witness for C4: the second line is 1024 characters long, so one row
    of four fields is read: [*N] is 1 and [*d] is 6. *)
Lemma read_pc_data_dim_count_witness :
  exists nd,
    read_pc_data StofDec.stof false
      (Some ["1,2,3,4"; String.concat "" (repeat "0123456789abcdef" 64);
             "7,8,9"])
    = Ret (nd, 1, 6).
Proof.
  assert (Hr : readable ["1,2,3,4";
                         String.concat "" (repeat "0123456789abcdef" 64);
                         "7,8,9"] = ["1,2,3,4"])
    by (vm_compute; reflexivity).
  refine (proj1 (proj2 (read_pc_data_dim_count StofDec.stof false
                          ["1,2,3,4";
                           String.concat "" (repeat "0123456789abcdef" 64);
                           "7,8,9"] _)) _).
  - vm_compute. reflexivity.
  - rewrite Hr.
    repeat constructor; try (vm_compute; congruence);
      eexists; vm_compute; reflexivity.
Defined.

(** C4, counterexample: a file with the single row "1,2" has D = 2 fields,
    but [*d] is 3. *)
Lemma read_pc_data_dim_is_padded :
  ~ returns_true_dimension StofDec.stof false ["1,2"].
Proof.
  intros [nd H]. vm_compute in H. discriminate H.
Qed.

(** C3, counterexample: the second row has fewer fields than the first, and
    its element of batch 1 is never written. *)
Lemma ragged_row_misses_batch :
  ~ every_point_in_every_batch StofDec.stof false ["1,2,3,4,5,6"; "1,2,3"].
Proof.
  intros (nd & N & d & Hrun & _ & Hall).
  vm_compute in Hrun. injection Hrun as <- _ _.
  destruct (Hall 1%nat 1%nat _ eq_refl ltac:(cbn; lia)) as (x & y & z & H).
  discriminate H.
Qed.

(** C5, evaluated: the row "1,2" has two fields; the third coordinate of its
    tuple is read past the end of [vcoords], so it is indeterminate and not
    a field of the row. *)
Lemma tokenize_pads_past_end :
  tokenize StofDec.stof false "1,2" "," (Some [[uninit]]) 0
  = Ret (3, Some [[make_float3 (Val (F32.of_Z 1)) (Val (F32.of_Z 2)) Indet]]).
Proof. vm_compute. reflexivity. Qed.

(** ** The result buffer *)

Section DevFacts.

Import Dev.

Lemma fresh_length (garbage : nat -> Z) (count : Z) :
  List.length (fresh garbage count) = Z.to_nat (4 * count).
Proof. unfold fresh. now rewrite length_map, length_seq. Qed.



Lemma store_u32_length (m m' : memory) (i v : Z) :
  store_u32 m i v = Ret m' -> List.length m' = List.length m.
Proof.
  unfold store_u32.
  destruct ((i <? 0) || (Z.of_nat (List.length m) <? 4 * i + 4)) eqn:E;
    [discriminate|].
  apply orb_false_iff in E. destruct E as [E1 E2].
  apply Z.ltb_ge in E1, E2.
  intros H. apply Ret_inj in H. subst m'.
  rewrite !length_app, length_firstn, length_skipn. cbn [bytes_of_u32 List.length].
  lia.
Qed.

Lemma store_u32_ok (m : memory) (i v : Z) :
  0 <= i -> 4 * i + 4 <= Z.of_nat (List.length m) ->
  exists m', store_u32 m i v = Ret m'.
Proof.
  intros H0 H1. unfold store_u32.
  replace (i <? 0) with false by (symmetry; apply Z.ltb_ge; lia).
  replace (Z.of_nat (List.length m) <? 4 * i + 4) with false
    by (symmetry; apply Z.ltb_ge; lia).
  cbn [orb]. eauto.
Qed.

(** A store changes only the four bytes of its element. *)
Lemma store_u32_byte_other (m m' : memory) (i v k : Z) :
  store_u32 m i v = Ret m' -> k < 4 * i \/ 4 * i + 4 <= k ->
  byte_at m' k = byte_at m k.
Proof.
  unfold store_u32.
  destruct ((i <? 0) || (Z.of_nat (List.length m) <? 4 * i + 4)) eqn:E;
    [discriminate|].
  apply orb_false_iff in E. destruct E as [E1 E2].
  apply Z.ltb_ge in E1, E2.
  intros H Hk. apply Ret_inj in H. subst m'. unfold byte_at.
  destruct (k <? 0) eqn:Ek; [reflexivity|]. apply Z.ltb_ge in Ek.
  destruct Hk as [Hk|Hk].
  - rewrite nth_error_app1 by (rewrite length_firstn; lia).
    rewrite nth_error_firstn.
    now replace (Z.to_nat k <? Z.to_nat (4 * i))%nat with true
      by (symmetry; apply Nat.ltb_lt; lia).
  - rewrite nth_error_app2 by (rewrite length_firstn; lia).
    rewrite length_firstn.
    rewrite nth_error_app2 by (cbn [bytes_of_u32 List.length]; lia).
    rewrite nth_error_skipn. f_equal. cbn [bytes_of_u32 List.length]. lia.
Qed.

Lemma store_u32_load_other (m m' : memory) (i v j : Z) :
  store_u32 m i v = Ret m' -> j <> i -> load_u32 m' j = load_u32 m j.
Proof.
  intros H Hj. unfold load_u32.
  rewrite !(store_u32_byte_other _ _ _ _ _ H) by lia. reflexivity.
Qed.

(** Elements that no store addresses keep their content. *)
Lemma apply_stores_frame (stores : list (Z * Z)) :
  forall (m m' : memory) (j : Z),
    apply_stores m stores = Ret m' -> ~ In j (map fst stores) ->
    load_u32 m' j = load_u32 m j.
Proof.
  induction stores as [|[i v] rest IH]; intros m m' j H Hj.
  - cbn in H. now injection H as <-.
  - cbn [apply_stores] in H.
    destruct (store_u32 m i v) as [m1|] eqn:E; cbn [rbind] in H; [|discriminate].
    cbn [map fst In] in Hj.
    rewrite (IH m1 m' j H) by tauto.
    apply (store_u32_load_other _ _ _ _ _ E). intros ->. tauto.
Qed.

Lemma apply_stores_ok (stores : list (Z * Z)) :
  forall (m : memory),
    Forall (fun s => 0 <= fst s /\ 4 * fst s + 4 <= Z.of_nat (List.length m))
           stores ->
    exists m', apply_stores m stores = Ret m' /\ List.length m' = List.length m.
Proof.
  induction stores as [|[i v] rest IH]; intros m Hall.
  - exists m. split; reflexivity.
  - inversion Hall as [|? ? [H0 H1] Hrest]; subst. cbn [fst] in *.
    destruct (store_u32_ok m i v H0 H1) as [m1 E].
    pose proof (store_u32_length _ _ _ _ E) as Hlen.
    destruct (IH m1) as (m' & Hm' & Hlen').
    { rewrite Hlen. assumption. }
    exists m'. cbn [apply_stores]. rewrite E. cbn [rbind].
    split; [assumption|congruence].
Qed.


End DevFacts.

Section ResultRows.

Import Dev.








Lemma nth_error_row (data : memory) (K q j : Z) :
  0 <= j < K ->
  nth_error (row data K q) (Z.to_nat j)
  = Some (load_u32 data (U32.add (U32.mul q K) j)).
Proof.
  intros Hj. unfold row. rewrite nth_error_map, nth_error_seq.
  replace (Z.to_nat j <? Z.to_nat K)%nat with true
    by (symmetry; apply Nat.ltb_lt; lia).
  cbn [option_map Nat.add]. now rewrite Z2Nat.id by lia.
Qed.

End ResultRows.

Example launch_memory_rows :
  option_map (fun m => (Dev.row m 3 0, Dev.row m 3 1))
    (match Dev.launch_memory (fun k => Z.of_nat k) 2 3 [(0, 1); (3, 0)] with
     | Ret m => Some m
     | Stop _ => None
     end)
  = Some ([Some 1; Some 4294967295; Some 4294967295],
          [Some 0; Some 4294967295; Some 4294967295]).
Proof. vm_compute. reflexivity. Qed.

Example run_square :
  Host.program (Examples.world_of (Some Examples.square) false
                                  [(0, 1); (1, 3); (3, 0); (9, 0)])
               "prog" ["-f"; "pts"; "-k"; "3"]
  = ([Settings 3 1 4 (F32.of_Z 2) 3;
      GasBuild 0 (map (fun c => Host.sphere_bound c (F32.of_Z 2))
                      [make_float3 (Val (F32.of_Z 0)) (Val (F32.of_Z 0)) (Val (F32.of_Z 0));
                       make_float3 (Val (F32.of_Z 1)) (Val (F32.of_Z 0)) (Val (F32.of_Z 0));
                       make_float3 (Val (F32.of_Z 5)) (Val (F32.of_Z 0)) (Val (F32.of_Z 0));
                       make_float3 (Val (F32.of_Z 0)) (Val (F32.of_Z 1)) (Val (F32.of_Z 0))]);
      Launch 0 4;
      Printed 1; Printed 3; EndOfRow;
      Printed 0; EndOfRow;
      EndOfRow;
      Printed 0; EndOfRow;
      SanityDone; AvgNeighbors 1; AvgWrongNeighbors 0],
     Ret 0).
Proof. vm_compute. reflexivity. Qed.

(** ** The sanity check: rows end at the first sentinel *)

Section SentinelFacts.

Variables (data data' : Dev.memory) (nd : ndarray) (radius : float) (knn : Z).

Hypothesis knn_range : U32.in_range knn.

Lemma check_row_agree (q : Z) :
  agree_to_sentinel data data' knn q ->
  forall (n : nat) (j : Z) (st : stats),
    0 <= j -> j + Z.of_nat n <= knn -> live data knn q j ->
    Host.check_row n j data nd radius knn q st
    = Host.check_row n j data' nd radius knn q st.
Proof.
  intros Hag. induction n as [|n IH]; intros j st Hj Hn Hlive; [reflexivity|].
  cbn [Host.check_row]. unfold Host.host_load.
  pose proof (Hag j ltac:(lia) Hlive) as Hslot. unfold slot in Hslot.
  rewrite <- Hslot.
  destruct (Dev.load_u32 data (U32.add (U32.mul q knn) j)) as [p|] eqn:Hp;
    [|reflexivity].
  unfold lift, bind.
  destruct (p =? U32.UINT_MAX) eqn:Hsent; [reflexivity|].
  destruct (Host.account nd radius q st p) as [st'|s]; [|reflexivity].
  unfold emit.
  assert (Hincr : U32.incr j = j + 1).
  { apply incr_small; [lia|]. unfold U32.in_range in knn_range. lia. }
  rewrite Hincr, IH; [reflexivity|lia|lia|].
  intros i Hi. destruct (Z.eq_dec i j) as [->|Hne].
  - unfold slot. rewrite Hp. apply Z.eqb_neq in Hsent. congruence.
  - apply Hlive. lia.
Qed.

Lemma check_rows_agree (numPrims : Z) :
  U32.in_range numPrims ->
  (forall q, 0 <= q < numPrims -> agree_to_sentinel data data' knn q) ->
  forall (n : nat) (q : Z) (st : stats),
    0 <= q -> q + Z.of_nat n <= numPrims ->
    Host.check_rows n q data nd radius knn st
    = Host.check_rows n q data' nd radius knn st.
Proof.
  intros HN Hag. induction n as [|n IH]; intros q st Hq Hn; [reflexivity|].
  cbn [Host.check_rows].
  rewrite (check_row_agree q (Hag q ltac:(lia)) (Z.to_nat knn) 0 st).
  2: lia.
  2:{ unfold U32.in_range in knn_range. lia. }
  2:{ intros i Hi. lia. }
  destruct (Host.check_row (Z.to_nat knn) 0 data' nd radius knn q st)
    as [t [st'|s]]; [|reflexivity].
  unfold bind, emit.
  assert (Hincr : U32.incr q = q + 1).
  { apply incr_small; [lia|]. unfold U32.in_range in HN. lia. }
  rewrite Hincr, IH by lia. reflexivity.
Qed.

End SentinelFacts.

(** C10: the check scans each row left to right and stops at the first
    [UINT_MAX]: whatever a row holds after its first sentinel has no effect on
    the counters, on the distance checks or on what is printed.  Two result
    buffers that agree, row by row, up to and including the first sentinel
    give the same run of the check. *)
Theorem sanity_check_stops_at_sentinel (data data' : Dev.memory)
        (state : WhittedState) :
  U32.in_range (knn (params state)) ->
  U32.in_range (numPrims (params state)) ->
  (forall q, 0 <= q < numPrims (params state) ->
             agree_to_sentinel data data' (knn (params state)) q) ->
  Host.sanity_check data state = Host.sanity_check data' state.
Proof.
  intros HK HN Hag. unfold Host.sanity_check.
  rewrite (check_rows_agree data data' (ndpoints state) (radius (params state))
             (knn (params state)) HK (numPrims (params state)) HN Hag).
  - reflexivity.
  - lia.
  - unfold U32.in_range in HN. lia.
Qed.

(** ** The sanity check: counters and sums *)

Section AccountingFacts.

Variables (data : Dev.memory) (nd : ndarray) (radius : float) (knn : Z).

Hypothesis knn_range : U32.in_range knn.

Lemma account_step (q p : Z) (st : stats) :
  checkable nd (q, p) -> account nd radius q st p = Ret (step nd radius st (q, p)).
Proof.
  intros [d Hd]. cbn [fst snd] in Hd.
  unfold account, step, is_wrong, distance. cbn [fst snd]. rewrite Hd.
  cbn [rbind]. destruct (F32.gt d (F32.mul radius radius)); reflexivity.
Qed.

Lemma segment_S (q j : Z) (n : nat) :
  segment data knn q j (S n) = slot data knn q j :: segment data knn q (j + 1) n.
Proof.
  unfold segment. cbn [seq map]. rewrite Z.add_0_r. f_equal.
  rewrite <- seq_shift, map_map. apply map_ext. intros i. f_equal. lia.
Qed.

Lemma segment_row (q : Z) : segment data knn q 0 (Z.to_nat knn) = Dev.row data knn q.
Proof. reflexivity. Qed.

(** The inner loop prints and accounts exactly the reported indices. *)
Lemma check_row_reported (q : Z) :
  forall (n : nat) (j : Z) (st : stats),
    0 <= j -> j + Z.of_nat n <= knn ->
    Forall (fun s => s <> None) (segment data knn q j n) ->
    Forall (fun p => checkable nd (q, p)) (reported (segment data knn q j n)) ->
    check_row n j data nd radius knn q st
    = (map Printed (reported (segment data knn q j n)),
       Ret (fold_left (step nd radius)
                      (map (pair q) (reported (segment data knn q j n))) st)).
Proof.
  induction n as [|n IH]; intros j st Hj Hn Hsome Hchk; [reflexivity|].
  rewrite segment_S in *. cbn [check_row].
  inversion Hsome as [|? ? Hs Hrest]; subst.
  unfold host_load. fold (slot data knn q j).
  destruct (slot data knn q j) as [p|]; [|congruence].
  unfold lift, bind. cbn [reported] in *.
  destruct (p =? U32.UINT_MAX); [reflexivity|].
  inversion Hchk as [|? ? Hp Hchk']; subst.
  rewrite (account_step q p st Hp). unfold emit.
  assert (Hincr : U32.incr j = j + 1).
  { apply incr_small; [lia|]. unfold U32.in_range in knn_range. lia. }
  rewrite Hincr, IH by (auto; lia). reflexivity.
Qed.

Lemma entries_from_0 (numPrims : Z) :
  entries_from data knn 0 (Z.to_nat numPrims) = entries data knn numPrims.
Proof.
  unfold entries. generalize (Z.to_nat numPrims). intros n.
  change 0 with (Z.of_nat 0) at 1. generalize 0%nat.
  induction n as [|n IH]; intros s; [reflexivity|].
  cbn [entries_from seq flat_map]. f_equal.
  replace (Z.of_nat s + 1) with (Z.of_nat (S s)) by lia. apply IH.
Qed.

Lemma check_rows_entries (numPrims : Z) :
  U32.in_range numPrims ->
  forall (n : nat) (q : Z) (st : stats),
    0 <= q -> q + Z.of_nat n <= numPrims ->
    (forall q', q <= q' < q + Z.of_nat n ->
                Forall (fun s => s <> None) (Dev.row data knn q')) ->
    Forall (checkable nd) (entries_from data knn q n) ->
    check_rows n q data nd radius knn st
    = (printed_rows data knn q n,
       Ret (fold_left (step nd radius) (entries_from data knn q n) st)).
Proof.
  intros HN. induction n as [|n IH]; intros q st Hq Hn Hsome Hchk;
    [reflexivity|].
  cbn [check_rows entries_from printed_rows] in *.
  apply Forall_app in Hchk. destruct Hchk as [Hrow Hrest].
  rewrite (check_row_reported q (Z.to_nat knn) 0 st).
  2: lia.
  2:{ unfold U32.in_range in knn_range. lia. }
  2:{ rewrite segment_row. apply Hsome. lia. }
  2:{ rewrite segment_row. rewrite Forall_forall in *. intros p Hp.
      apply Hrow. now apply in_map. }
  rewrite segment_row. unfold bind, emit.
  assert (Hincr : U32.incr q = q + 1).
  { apply incr_small; [lia|]. unfold U32.in_range in HN. lia. }
  rewrite Hincr, IH; [|lia|lia| |assumption].
  - rewrite fold_left_app. cbn [app]. reflexivity.
  - intros q' Hq'. apply Hsome. lia.
Qed.

Lemma u32_incr_add (a n : Z) :
  U32.u32 (U32.incr a + n) = U32.u32 (a + (1 + n)).
Proof.
  unfold U32.incr, U32.add, U32.u32.
  rewrite Z.add_mod_idemp_l by (unfold U32.modulus; lia).
  f_equal. lia.
Qed.

Lemma incr_range (a : Z) : U32.in_range (U32.incr a).
Proof.
  unfold U32.incr, U32.add, U32.u32, U32.in_range.
  apply Z.mod_pos_bound. unfold U32.modulus. lia.
Qed.

(** The counters after a list of accounted pairs. *)
Lemma fold_step_totals (es : list (Z * Z)) :
  forall (st : stats),
    U32.in_range (totalNeighbors st) ->
    U32.in_range (totalWrongNeighbors st) ->
    let st' := fold_left (step nd radius) es st in
    totalNeighbors st'
    = U32.u32 (totalNeighbors st + Z.of_nat (List.length es)) /\
    totalWrongNeighbors st'
    = U32.u32 (totalWrongNeighbors st
               + Z.of_nat (List.length (filter (is_wrong nd radius) es))) /\
    totalWrongDist st'
    = sum_distances nd (filter (is_wrong nd radius) es) (totalWrongDist st).
Proof.
  induction es as [|e es IH]; intros st H1 H2 st'; subst st'.
  - cbn [fold_left filter List.length Z.of_nat sum_distances].
    rewrite !Z.add_0_r. unfold U32.u32.
    rewrite !Z.mod_small by assumption. auto.
  - cbn [fold_left filter List.length].
    destruct (IH (step nd radius st e)) as (Ha & Hb & Hc).
    { unfold step. destruct (is_wrong nd radius e); apply incr_range. }
    { unfold step. destruct (is_wrong nd radius e);
        [apply incr_range|assumption]. }
    rewrite Ha, Hb, Hc. unfold step.
    destruct (is_wrong nd radius e);
      cbn [totalNeighbors totalWrongNeighbors totalWrongDist List.length
           sum_distances fold_left];
      rewrite ?u32_incr_add; repeat split; f_equal; lia.
Qed.

End AccountingFacts.

(** C6 (as amended): for every result entry before the first sentinel of its
    row the check recomputes the squared distance to the query and counts the
    entry as wrong iff it exceeds the squared radius; for the wrong entries it
    accumulates the sum of their distances (the square roots, taken in
    binary64 of the widened squared distance, not the excess over the
    radius); and it reports that sum divided by the number of wrong entries,
    only when that number is not zero. *)
Theorem sanity_check_accounting (data : Dev.memory) (state : WhittedState) :
  let p := params state in
  let nd := ndpoints state in
  let es := entries data (knn p) (numPrims p) in
  let wrong := filter (is_wrong nd (radius p)) es in
  U32.in_range (knn p) -> U32.in_range (numPrims p) -> 1 <= numPrims p ->
  (forall q, 0 <= q < numPrims p ->
             Forall (fun s => s <> None) (Dev.row data (knn p) q)) ->
  Forall (checkable nd) es ->
  exists t st,
    check_rows (Z.to_nat (numPrims p)) 0 data nd (radius p) (knn p)
               (make_stats 0 0 (S754_zero false)) = (t, Ret st) /\
    totalNeighbors st = U32.u32 (Z.of_nat (List.length es)) /\
    totalWrongNeighbors st = U32.u32 (Z.of_nat (List.length wrong)) /\
    totalWrongDist st = sum_distances nd wrong (S754_zero false) /\
    (wrong = [] -> totalWrongNeighbors st = 0) /\
    sanity_check data state
    = (t ++ [SanityDone;
             AvgNeighbors (totalNeighbors st / numPrims p);
             AvgWrongNeighbors (totalWrongNeighbors st / numPrims p)]
         ++ (if totalWrongNeighbors st =? 0 then []
             else [AvgWrongDist (F64.div (totalWrongDist st)
                                         (F64.of_Z (totalWrongNeighbors st)))]),
       Ret tt).
Proof.
  intros p nd es wrong HK HN H1 Hsome Hchk.
  pose proof (check_rows_entries data nd (radius p) (knn p) HK (numPrims p) HN
                (Z.to_nat (numPrims p)) 0 (make_stats 0 0 (S754_zero false))
                ltac:(lia)) as Hrows.
  rewrite entries_from_0 in Hrows.
  specialize (Hrows ltac:(unfold U32.in_range in HN; lia)
                    ltac:(intros q' Hq'; apply Hsome; lia) Hchk).
  destruct (fold_step_totals nd (radius p) es (make_stats 0 0 (S754_zero false)))
    as (Ha & Hb & Hc).
  { cbn. unfold U32.in_range, U32.modulus. lia. }
  { cbn. unfold U32.in_range, U32.modulus. lia. }
  cbn [totalNeighbors totalWrongNeighbors totalWrongDist Z.add] in Ha, Hb, Hc.
  fold es in Hrows. fold wrong in Hb, Hc.
  set (st := fold_left (step nd (radius p)) es
                       (make_stats 0 0 (S754_zero false))) in *.
  exists (printed_rows data (knn p) 0 (Z.to_nat (numPrims p))), st.
  split; [exact Hrows|]. split; [exact Ha|]. split; [exact Hb|].
  split; [exact Hc|]. split.
  { intros Hw. rewrite Hb, Hw. reflexivity. }
  unfold sanity_check. fold p nd. rewrite Hrows.
  unfold report, bind, emit, lift, udiv, ret.
  replace (numPrims p =? 0) with false by (symmetry; apply Z.eqb_neq; lia).
  destruct (totalWrongNeighbors st =? 0); cbn [negb app];
    rewrite ?app_nil_r; reflexivity.
Qed.

(** A witness for C6: each of the two points (0,0,0) and (1,1,0) is reported
    for the other with radius 1.  The squared distance 2 exceeds 1; the sum
    is twice the binary64 root of 2, and the average printed is that root,
    6369051672525773 * 2^-52 = 1.4142135623730951. *)
Lemma sanity_check_accounting_witness :
  exists t st,
    check_rows 2 0 (Samples.buffer_of 2 1 [(0, 1); (1, 0)])
               [[Samples.pt 0 0 0; Samples.pt 1 1 0]] (F32.of_Z 1) 1
               (make_stats 0 0 (S754_zero false)) = (t, Ret st) /\
    totalNeighbors st = 2 /\ totalWrongNeighbors st = 2 /\
    totalWrongDist st = S754_finite false 6369051672525773 (-51) /\
    In (AvgWrongDist (S754_finite false 6369051672525773 (-52)))
       (fst (sanity_check (Samples.buffer_of 2 1 [(0, 1); (1, 0)])
                          Samples.diag_pair)).
Proof.
  assert (He : entries (Samples.buffer_of 2 1 [(0, 1); (1, 0)])
                       (knn (params Samples.diag_pair))
                       (numPrims (params Samples.diag_pair))
               = [(0, 1); (1, 0)]) by (vm_compute; reflexivity).
  destruct (sanity_check_accounting (Samples.buffer_of 2 1 [(0, 1); (1, 0)])
                                    Samples.diag_pair)
    as (t & st & Hrows & Ha & Hb & Hc & _ & Hrun).
  - vm_compute. split; [discriminate|reflexivity].
  - vm_compute. split; [discriminate|reflexivity].
  - vm_compute. discriminate.
  - intros q Hq. assert (q = 0 \/ q = 1) as [-> | ->] by (cbn in Hq; lia);
      vm_compute; repeat constructor; discriminate.
  - rewrite He.
    repeat apply Forall_cons; try apply Forall_nil;
      exists (F32.of_Z 2); vm_compute; reflexivity.
  - rewrite He in Ha, Hb, Hc.
    exists t, st. split; [exact Hrows|].
    assert (Ha' : totalNeighbors st = 2) by (rewrite Ha; vm_compute; reflexivity).
    assert (Hb' : totalWrongNeighbors st = 2)
      by (rewrite Hb; vm_compute; reflexivity).
    assert (Hc' : totalWrongDist st
                  = S754_finite false 6369051672525773 (-51))
      by (rewrite Hc; vm_compute; reflexivity).
    rewrite Hrun, Ha', Hb', Hc'.
    repeat split; try reflexivity.
    cbn [fst]. apply in_or_app. right. vm_compute. right. right. right. left.
    reflexivity.
Defined.

(** C6, counterexample: on that input the reported average is 3 (the mean
    distance of the two wrong entries), while the mean excess over the radius
    2 is 1. *)
Lemma average_is_distance_not_excess :
  ~ reports_average_excess (Samples.buffer_of 2 1 [(0, 1); (1, 0)])
                           Samples.far_pair.
Proof.
  intros (t & Hrun & Hin).
  vm_compute in Hrun. apply (f_equal fst) in Hrun. cbn [fst] in Hrun.
  subst t. vm_compute in Hin.
  destruct (Hin ltac:(discriminate)) as [H|[H|[H|[H|[H|[H|[H|[H|H]]]]]]]];
    try discriminate H; try contradiction.
Qed.

(** A witness for C10: the second buffer holds an index after the sentinel of
    row 0; the check runs the same. *)
Lemma sanity_check_stops_at_sentinel_witness :
  sanity_check (Samples.buffer_of 2 3 [(0, 1); (3, 0)]) Samples.near_pair
  = sanity_check (Samples.buffer_of 2 3 [(0, 1); (2, 1); (3, 0)])
                 Samples.near_pair.
Proof.
  apply (sanity_check_stops_at_sentinel
           (Samples.buffer_of 2 3 [(0, 1); (3, 0)])
           (Samples.buffer_of 2 3 [(0, 1); (2, 1); (3, 0)])
           Samples.near_pair).
  - vm_compute. split; [discriminate|reflexivity].
  - vm_compute. split; [discriminate|reflexivity].
  - intros q Hq j Hj Hlive.
    assert (q = 0 \/ q = 1) as [-> | ->] by (cbn in Hq; lia);
      assert (j = 0 \/ j = 1 \/ j = 2) as [-> | [-> | ->]] by (cbn in Hj; lia);
      try (vm_compute; reflexivity);
      exfalso; apply (Hlive 1); [lia | vm_compute; reflexivity].
Defined.

Example stale_index_ignored :
  sanity_check (Samples.buffer_of 2 3 [(0, 1); (2, 1); (3, 0)]) Samples.near_pair
  = ([Printed 1; EndOfRow; Printed 0; EndOfRow;
      SanityDone; AvgNeighbors 1; AvgWrongNeighbors 0], Ret tt).
Proof. vm_compute. reflexivity. Qed.

(** ** Traces *)

Section TraceFacts.

Variable w : world.

Lemma launches_app (t1 t2 : list event) :
  launches (t1 ++ t2) = launches t1 ++ launches t2.
Proof. apply flat_map_app. Qed.

Lemma builds_app (t1 t2 : list event) :
  builds (t1 ++ t2) = builds t1 ++ builds t2.
Proof. apply flat_map_app. Qed.

Lemma bind_fst {A B : Type} (m : M A) (f : A -> M B) :
  fst (bind m f)
  = fst m ++ match snd m with Ret a => fst (f a) | Stop _ => [] end.
Proof.
  destruct m as [t [a|s]]; cbn [bind fst snd].
  - destruct (f a); reflexivity.
  - now rewrite app_nil_r.
Qed.

Lemma bind_snd {A B : Type} (m : M A) (f : A -> M B) :
  snd (bind m f)
  = match snd m with Ret a => snd (f a) | Stop s => Stop s end.
Proof.
  destruct m as [t [a|s]]; cbn [bind fst snd]; [|reflexivity].
  destruct (f a); reflexivity.
Qed.

Lemma bind_ret_l {A B : Type} (a : A) (f : A -> M B) : bind (ret a) f = f a.
Proof. unfold bind, ret. destruct (f a). reflexivity. Qed.

Lemma bind_halt {A B : Type} (s : stop) (f : A -> M B) :
  bind (halt s) f = halt s.
Proof. reflexivity. Qed.

Lemma bind_stop {A B : Type} (t : list event) (s : stop) (f : A -> M B) :
  bind (t, Stop s) f = (t, Stop s).
Proof. reflexivity. Qed.

Lemma bind_trace {A B : Type} (t : list event) (a : A) (f : A -> M B) :
  bind (t, Ret a) f = (t ++ fst (f a), snd (f a)).
Proof. unfold bind. destruct (f a). reflexivity. Qed.

Lemma silent_bind {A B : Type} (m : M A) (f : A -> M B) :
  silent m -> (forall a, silent (f a)) -> silent (bind m f).
Proof.
  intros [Hl Hb] Hf. unfold silent. rewrite bind_fst, launches_app, builds_app.
  rewrite Hl, Hb. destruct (snd m) as [a|s]; [apply Hf|split; reflexivity].
Qed.

Lemma silent_ret {A : Type} (a : A) : silent (ret a).
Proof. split; reflexivity. Qed.

Lemma silent_lift {A : Type} (r : res A) : silent (lift r).
Proof. split; reflexivity. Qed.

Lemma silent_halt {A : Type} (s : stop) : silent (@halt A s).
Proof. split; reflexivity. Qed.

Lemma silent_check (c : call) : silent (check w c).
Proof. unfold check. destruct (w_ok w c); split; reflexivity. Qed.

Lemma silent_usage {A : Type} (argv0 : string) :
  silent (@printUsageAndExit A argv0).
Proof. split; reflexivity. Qed.

Lemma silent_parse_args (argv0 : string) (args : list string) :
  forall (r : float) (k : Z) (o : string),
    silent (parse_args w argv0 args r k o).
Proof.
  assert (H : forall n (args : list string), (List.length args < n)%nat ->
            forall r k o, silent (parse_args w argv0 args r k o)).
  { induction n as [|n IH]; intros l Hl r k o; [lia|].
    destruct l as [|a rest]; [apply silent_ret|].
    cbn [parse_args List.length] in *.
    destruct ((a =? "--help")%string || (a =? "-h")%string);
      [apply silent_usage|].
    destruct ((a =? "--file")%string || (a =? "-f")%string).
    { destruct rest as [|v rest']; [apply silent_usage|].
      apply IH. cbn [List.length] in Hl. lia. }
    destruct ((a =? "--knn")%string || (a =? "-k")%string).
    { destruct rest as [|v rest']; [apply silent_usage|].
      apply IH. cbn [List.length] in Hl. lia. }
    destruct ((a =? "--radius")%string || (a =? "-r")%string).
    { destruct rest as [|v rest']; [apply silent_usage|].
      destruct (w_stof w v); [apply silent_halt|].
      apply IH. cbn [List.length] in Hl. lia. }
    split; reflexivity. }
  apply (H (S (List.length args))). lia.
Qed.

Lemma silent_read_points (data_file : string) : silent (read_points w data_file).
Proof.
  unfold read_points. apply silent_bind.
  - destruct (w_open w data_file); split; reflexivity.
  - intros _. apply silent_lift.
Qed.

Lemma silent_upload_batches (n : nat) :
  forall b, silent (upload_batches w n b).
Proof.
  induction n as [|n IH]; intros b; [apply silent_ret|].
  cbn [upload_batches]. apply silent_bind; [apply silent_check|].
  intros _. apply IH.
Qed.

Lemma silent_check_row (data : Dev.memory) (nd : ndarray) (radius : float)
      (knn q : Z) (n : nat) :
  forall j st, silent (check_row n j data nd radius knn q st).
Proof.
  induction n as [|n IH]; intros j st; [apply silent_ret|].
  cbn [check_row]. apply silent_bind; [apply silent_lift|].
  intros p. destruct (p =? U32.UINT_MAX); [apply silent_ret|].
  apply silent_bind; [apply silent_lift|]. intros st'.
  apply silent_bind; [split; reflexivity|]. intros _. apply IH.
Qed.

Lemma silent_check_rows (data : Dev.memory) (nd : ndarray) (radius : float)
      (knn : Z) (n : nat) :
  forall q st, silent (check_rows n q data nd radius knn st).
Proof.
  induction n as [|n IH]; intros q st; [apply silent_ret|].
  cbn [check_rows]. apply silent_bind; [apply silent_check_row|].
  intros st'. apply silent_bind; [split; reflexivity|]. intros _. apply IH.
Qed.

Lemma silent_report (numPrims : Z) (st : stats) : silent (report numPrims st).
Proof.
  unfold report.
  repeat (apply silent_bind;
          [first [apply silent_lift | split; reflexivity]|intros ?]).
  destruct (negb (totalWrongNeighbors st =? 0)); split; reflexivity.
Qed.

Lemma silent_sanity_check (data : Dev.memory) (state : WhittedState) :
  silent (sanity_check data state).
Proof.
  unfold sanity_check. apply silent_bind; [apply silent_check_rows|].
  intros st. apply silent_report.
Qed.

End TraceFacts.

(** ** Index construction and the launch *)

Section PhaseFacts.

Variable w : world.

Lemma upload_batches_run (n : nat) :
  forall b,
    upload_batches w n b
    = ([], if uploads_ok w b n then Ret tt else Stop (Throw sutil_Exception)).
Proof.
  induction n as [|n IH]; intros b; [reflexivity|].
  cbn [upload_batches]. unfold uploads_ok. cbn [zrange forallb]. unfold check.
  destruct (w_ok w (UploadPoints b)); cbn [andb]; [|reflexivity].
  unfold ret, bind. rewrite IH. reflexivity.
Qed.

Lemma zrange_snoc (n : nat) :
  forall b, zrange b (S n) = zrange b n ++ [b + Z.of_nat n].
Proof.
  induction n as [|n IH]; intros b.
  - cbn. now rewrite Z.add_0_r.
  - change (zrange b (S (S n))) with (b :: zrange (b + 1) (S n)).
    rewrite IH. cbn [zrange app]. do 3 f_equal. lia.
Qed.

Lemma zrange_length (n : nat) : forall b, List.length (zrange b n) = n.
Proof. induction n as [|n IH]; intros b; cbn; [reflexivity|now rewrite IH]. Qed.

(** The second loop: the builds it completes are an initial segment of the
    batches, all of them iff every call succeeds, and it fails only by an
    exception of the backend. *)
Lemma build_batches_run (state : WhittedState) (n : nat) :
  forall (b : Z) (handles : list Z),
  exists t k,
    (k <= n)%nat /\ builds t = zrange b k /\ launches t = [] /\
    (gas_ok w b n = true -> k = n) /\
    build_batches w n b state handles
    = (t, if gas_ok w b n then Ret (handles ++ zrange b n)
          else Stop (Throw sutil_Exception)).
Proof.
  induction n as [|n IH]; intros b handles.
  - exists [], 0%nat. cbn. rewrite app_nil_r. repeat split; auto.
  - cbn [build_batches]. unfold gas_ok. cbn [zrange forallb]. unfold check.
    destruct (w_ok w (UploadAabbs b)); cbn [andb].
    2:{ exists [], 0%nat. repeat split; try reflexivity; try lia;
          try discriminate. }
    destruct (w_ok w (BuildGas b)); cbn [andb].
    2:{ exists [], 0%nat. repeat split; try reflexivity; try lia;
          try discriminate. }
    destruct (IH (b + 1) (handles ++ [b])) as (t & k & Hk & Hb & Hl & Hall & Hrun).
    unfold ret, bind, emit. rewrite Hrun.
    eexists. exists (S k). split; [lia|]. split; [|split; [|split]].
    4:{ cbn [app]. f_equal. fold (gas_ok w (b + 1) n).
        destruct (gas_ok w (b + 1) n); [|reflexivity].
        now rewrite <- app_assoc. }
    + cbn [app builds flat_map]. fold (builds t). now rewrite Hb.
    + cbn [app launches flat_map]. exact Hl.
    + intros H. f_equal. apply Hall. exact H.
Qed.

Lemma createGeometry_run (state : WhittedState) :
  exists t k,
    (k <= Z.to_nat (batch state))%nat /\ builds t = zrange 0 k /\
    launches t = [] /\
    (geometry_ok w state = true -> k = Z.to_nat (batch state)) /\
    createGeometry w state
    = (t, if geometry_ok w state then Ret (with_geometry state)
          else Stop (Throw sutil_Exception)).
Proof.
  unfold createGeometry, geometry_ok. rewrite upload_batches_run.
  destruct (uploads_ok w 0 (Z.to_nat (batch state))); cbn [andb bind].
  2:{ exists [], 0%nat. repeat split; try reflexivity; try lia;
      try discriminate. }
  destruct (build_batches_run state (Z.to_nat (batch state)) 0 [])
    as (t & k & Hk & Hb & Hl & Hall & Hrun).
  rewrite Hrun. exists t, k.
  destruct (gas_ok w 0 (Z.to_nat (batch state))); cbn [bind ret app];
    rewrite ?app_nil_r; repeat split; auto.
Qed.

(** [setup] either returns the state with its geometry, having built every
    batch, or throws. *)
Lemma setup_run (state : WhittedState) :
  exists t k,
    (k <= Z.to_nat (batch state))%nat /\ builds t = zrange 0 k /\
    launches t = [] /\
    ((setup w state = (t, Ret (with_geometry state)) /\
      k = Z.to_nat (batch state))
     \/ setup w state = (t, Stop (Throw sutil_Exception))).
Proof.
  unfold setup, check.
  destruct (w_ok w DeviceSetup); rewrite ?bind_ret_l, ?bind_halt.
  2:{ exists [], 0%nat. repeat split; try lia. right. reflexivity. }
  destruct (w_ok w CreateContext); rewrite ?bind_ret_l, ?bind_halt.
  2:{ exists [], 0%nat. repeat split; try lia. right. reflexivity. }
  destruct (createGeometry_run state) as (t & k & Hk & Hb & Hl & Hall & Hrun).
  rewrite Hrun.
  exists t, k. split; [exact Hk|]. split; [exact Hb|]. split; [exact Hl|].
  destruct (geometry_ok w state).
  2:{ right. reflexivity. }
  rewrite bind_trace.
  destruct (w_ok w CreatePipeline); rewrite ?bind_ret_l, ?bind_halt.
  2:{ right. cbn [halt fst snd]. now rewrite app_nil_r. }
  destruct (w_ok w CreateSBT); rewrite ?bind_ret_l, ?bind_halt.
  2:{ right. cbn [halt fst snd]. now rewrite app_nil_r. }
  left. cbn [ret fst snd]. rewrite app_nil_r. auto.
Qed.

(** [launchSubframe] issues at most one launch, with the batch id it was
    called with, and exactly one when it returns. *)
Lemma launchSubframe_run (output_buffer : Dev.memory) (state : WhittedState)
      (b : Z) :
  (exists s, launchSubframe w output_buffer state b = ([], Stop s)) \/
  (exists r, launchSubframe w output_buffer state b
             = ([Launch b (numPrims (params state))], r)).
Proof.
  unfold launchSubframe. destruct state as [p handles nd d nbatch].
  cbn [params]. unfold check.
  destruct (w_ok w Memset); rewrite ?bind_ret_l, ?bind_halt;
    [|left; eexists; reflexivity].
  unfold lift.
  destruct (Dev.cudaMemset output_buffer 255 (U32.mul (numPrims p) (knn p) * 4))
    as [m|s]; [|left; eexists; reflexivity].
  change (@pair (list event) (res Dev.memory) [] (Ret m)) with (ret m).
  rewrite bind_ret_l.
  destruct (w_ok w LaunchParams); rewrite ?bind_ret_l, ?bind_halt;
    [|left; eexists; reflexivity].
  destruct (w_ok w OptixLaunch); rewrite ?bind_ret_l, ?bind_halt;
    [|left; eexists; reflexivity].
  right. unfold emit. rewrite bind_trace. cbn [batchId numPrims].
  match goal with
  | |- context [Dev.apply_stores m ?st] => destruct (Dev.apply_stores m st) as [m'|s]
  end.
  - change (@pair (list event) (res Dev.memory) [] (Ret m')) with (ret m').
    rewrite bind_ret_l.
    destruct (w_ok w Sync); rewrite ?bind_ret_l, ?bind_halt;
      eexists; reflexivity.
  - rewrite bind_stop. eexists. reflexivity.
Qed.

End PhaseFacts.

(** ** The stages of [main] *)

Section MainFacts.

Variable w : world.

Lemma do_the_work_run (state : WhittedState) :
  (exists s, do_the_work w state = ([], Stop s)) \/
  (exists r, do_the_work w state
             = ([Launch 0 (numPrims (params state))], r)).
Proof.
  unfold do_the_work, check.
  destruct (w_ok w AllocOutput); rewrite ?bind_ret_l, ?bind_halt.
  - apply launchSubframe_run.
  - left. eexists. reflexivity.
Qed.



Lemma silent_after_launch (data : Dev.memory) (state : WhittedState) :
  silent (after_launch w data state).
Proof.
  unfold after_launch, check_the_work.
  apply silent_bind.
  - apply silent_bind; [apply silent_check|]. intros _.
    apply silent_sanity_check.
  - intros _. apply silent_bind; [apply silent_check|]. intros _.
    apply silent_ret.
Qed.

(** The [try] block either stops without a launch, having built an initial
    segment of the batches, or launches batch 0 once after all builds. *)
Lemma try_block_run (state : WhittedState) :
  (launches (fst (try_block w state)) = [] /\
   (exists s, snd (try_block w state) = Stop s) /\
   (exists k, builds (fst (try_block w state)) = zrange 0 k))
  \/ queried_after_builds (Z.to_nat (batch state)) (fst (try_block w state)).
Proof.
  unfold try_block.
  destruct (setup_run w state) as (t & k & Hk & Hb & Hl & [[Hrun ->]|Hrun]);
    rewrite Hrun.
  2:{ left. rewrite bind_stop. cbn [fst snd]. eauto. }
  rewrite bind_trace.
  destruct (do_the_work_run (with_geometry state)) as [[s Hw]|[r Hw]];
    rewrite Hw.
  { left. rewrite bind_stop. cbn [fst snd]. rewrite app_nil_r. eauto. }
  destruct r as [[data st]|s].
  - right. rewrite bind_trace. cbn [fst snd].
    fold (after_launch w data st).
    destruct (silent_after_launch data st) as [Hl2 Hb2].
    eexists t, _, (fst (after_launch w data st)). cbn [app].
    repeat split; assumption.
  - right. rewrite bind_stop. cbn [fst snd].
    eexists t, _, []. repeat split; assumption.
Qed.

Lemma try_block_geometry_fails (state : WhittedState) :
  geometry_ok w state = false ->
  exists t, try_catch (try_block w state) handler = (t ++ [Caught], Ret 1)
            /\ launches t = [].
Proof.
  intros Hg. unfold try_block, setup, check.
  destruct (w_ok w DeviceSetup); rewrite ?bind_ret_l, ?bind_halt.
  2:{ exists []. split; reflexivity. }
  destruct (w_ok w CreateContext); rewrite ?bind_ret_l, ?bind_halt.
  2:{ exists []. split; reflexivity. }
  destruct (createGeometry_run w state) as (t & k & _ & _ & Hl & _ & Hrun).
  rewrite Hrun, Hg, !bind_stop. exists t. split; [reflexivity|exact Hl].
Qed.

(** [main], stage by stage. *)
Lemma main_stages (argv0 : string) (args : list string) :
  main w argv0 args =
  match parse_args w argv0 args (F32.of_Z 2) 50 "" with
  | (t0, Stop s) => (t0, Stop s)
  | (t0, Ret (r, k, outfile)) =>
      match read_points w outfile with
      | (t1, Stop s) => (t0 ++ t1, Stop s)
      | (t1, Ret (nd, N, d)) =>
          if (d <=? 0) || (w_max_dim w <? d)
          then (t0 ++ t1 ++ [Usage argv0], Stop (Exit 0))
          else
            let state := entry_state r k nd N d in
            (t0 ++ t1 ++ Settings d (Z.quot d 3) N r k
                :: fst (try_catch (try_block w state) handler),
             snd (try_catch (try_block w state) handler))
      end
  end.
Proof.
  unfold main.
  destruct (parse_args w argv0 args (F32.of_Z 2) 50 "") as [t0 [[[r k] o]|s]];
    [|reflexivity].
  rewrite bind_trace.
  destruct (read_points w o) as [t1 [[[nd N] d]|s]]; [|reflexivity].
  rewrite bind_trace. cbn [loaded dim batch params numPrims radius knn].
  destruct ((d <=? 0) || (w_max_dim w <? d)).
  - unfold printUsageAndExit. rewrite bind_stop. reflexivity.
  - rewrite bind_ret_l. unfold emit. rewrite bind_trace.
    cbn [fst snd app]. reflexivity.
Qed.

End MainFacts.


(** ** Scanning the command line *)

Section CommandLine.

Variable w : world.

Lemma is_file_not_help (a : string) : is_file a = true -> is_help a = false.
Proof.
  unfold is_file, is_help. intros H. apply orb_true_iff in H.
  destruct H as [H|H]; apply String.eqb_eq in H; subst; reflexivity.
Qed.

Lemma is_knn_not_others (a : string) :
  is_knn a = true -> is_help a = false /\ is_file a = false.
Proof.
  unfold is_knn, is_file, is_help. intros H. apply orb_true_iff in H.
  destruct H as [H|H]; apply String.eqb_eq in H; subst; split; reflexivity.
Qed.

Lemma is_radius_not_others (a : string) :
  is_radius a = true ->
  is_help a = false /\ is_file a = false /\ is_knn a = false.
Proof.
  unfold is_radius, is_knn, is_file, is_help. intros H. apply orb_true_iff in H.
  destruct H as [H|H]; apply String.eqb_eq in H; subst; repeat split; reflexivity.
Qed.

(** The scan consumes a sequence of well-formed option/value pairs. *)
Lemma parse_args_pairs (argv0 : string) (rest : list string) :
  forall (n : nat) (pre : list string),
    (List.length pre < n)%nat ->
    option_pairs (parses w) pre = true ->
    forall r k o, exists r' k' o',
      parse_args w argv0 (pre ++ rest) r k o = parse_args w argv0 rest r' k' o'.
Proof.
  induction n as [|n IH]; intros pre Hn Hp r k o; [lia|].
  destruct pre as [|a [|v pre']]; [eauto|discriminate|].
  cbn [option_pairs] in Hp. apply andb_true_iff in Hp. destruct Hp as [Ha Hp].
  cbn [List.length] in Hn.
  change ((a :: v :: pre') ++ rest) with (a :: v :: (pre' ++ rest)).
  cbn [parse_args]. fold (is_help a) (is_file a) (is_knn a) (is_radius a).
  apply orb_true_iff in Ha. destruct Ha as [Ha|Ha].
  - apply orb_true_iff in Ha. destruct Ha as [Ha|Ha].
    + rewrite (is_file_not_help a Ha), Ha. apply IH; [lia|assumption].
    + destruct (is_knn_not_others a Ha) as [-> ->]. rewrite Ha.
      apply IH; [lia|assumption].
  - apply andb_true_iff in Ha. destruct Ha as [Ha Hv].
    destruct (is_radius_not_others a Ha) as (-> & -> & ->). rewrite Ha.
    unfold parses in Hv. destruct (w_stof w v) as [e|f]; [discriminate|].
    apply IH; [lia|assumption].
Qed.

(** At [--help], [-h] or an unknown flag the scan prints the usage text and
    exits with code 0. *)
Lemma parse_args_stops (argv0 : string) (a : string) (post : list string)
      (r : float) (k : Z) (o : string) :
  is_help a || is_unknown a = true ->
  parse_args w argv0 (a :: post) r k o
  = ((if is_help a then [] else [UnknownOption a]) ++ [Usage argv0],
     Stop (Exit 0)).
Proof.
  intros H. cbn [parse_args].
  fold (is_help a) (is_file a) (is_knn a) (is_radius a).
  destruct (is_help a) eqn:Hh; [reflexivity|].
  cbn [orb] in H. unfold is_unknown in H. rewrite Hh in H. cbn [orb] in H.
  apply negb_true_iff in H. apply orb_false_iff in H. destruct H as [H Hr].
  apply orb_false_iff in H. destruct H as [Hf Hk].
  rewrite Hf, Hk, Hr. reflexivity.
Qed.

End CommandLine.

(** C9 (as amended): when the scan of the command line reaches [--help],
    [-h] or an unknown flag, every option before it being complete and every
    [--radius] value before it a number that [std::stof] converts, the
    program prints the usage message (after "Unknown option" for an unknown
    flag) and exits with code 0. *)
Theorem usage_exit_on_help_or_unknown (w : world) (argv0 : string)
        (pre : list string) (a : string) (post : list string) :
  option_pairs (parses w) pre = true ->
  is_help a || is_unknown a = true ->
  program w argv0 (pre ++ a :: post)
  = ((if is_help a then [] else [UnknownOption a]) ++ [Usage argv0],
     Stop (Exit 0)).
Proof.
  intros Hp Ha. unfold program. rewrite main_stages.
  destruct (parse_args_pairs w argv0 (a :: post) (S (List.length pre)) pre
              ltac:(lia) Hp (F32.of_Z 2) 50 "") as (r' & k' & o' & ->).
  rewrite (parse_args_stops w argv0 a post r' k' o' Ha). reflexivity.
Qed.

(** A witness for C9: an unknown flag after a file and a radius. *)
Lemma usage_exit_on_help_or_unknown_witness :
  program (Examples.world_of None false []) "prog"
          (["-f"; "pts"; "-r"; "3"] ++ "--bogus" :: ["-h"])
  = ((if is_help "--bogus" then [] else [UnknownOption "--bogus"])
       ++ [Usage "prog"], Stop (Exit 0)).
Proof.
  apply (usage_exit_on_help_or_unknown (Examples.world_of None false []) "prog"
           ["-f"; "pts"; "-r"; "3"] "--bogus" ["-h"]).
  - vm_compute. reflexivity.
  - vm_compute. reflexivity.
Defined.

(** C9, counterexample: [-r abc --bogus].  [std::stof("abc")] throws before
    the unknown flag is reached, outside the [try] block: the process aborts
    and prints no usage message. *)
Lemma unparsable_radius_aborts_before_usage :
  ~ usage_exit_claim (Examples.world_of None false []) "prog"
                     ["-r"; "abc"; "--bogus"].
Proof.
  intros H.
  destruct (H ["-r"; "abc"] "--bogus" [] eq_refl eq_refl eq_refl)
    as (t & Hrun & _).
  vm_compute in Hrun. discriminate Hrun.
Qed.

Example radius_abc_run :
  program (Examples.world_of None false []) "prog" ["-r"; "abc"; "--bogus"]
  = ([], Stop Abort).
Proof. vm_compute. reflexivity. Qed.

(** ** A file that cannot be opened *)

(** With the file missing, [read_pc_data] prints its diagnostic and asserts;
    compiled with NDEBUG the assertion is gone, the empty read leaves
    [dim = 0], and [main] takes the usage exit. *)
Lemma missing_file_run (w : world) (argv0 : string) (args : list string)
      (t0 : list event) (r : float) (k : Z) (outfile : string) :
  parse_args w argv0 args (F32.of_Z 2) 50 "" = (t0, Ret (r, k, outfile)) ->
  w_open w outfile = None ->
  program w argv0 args
  = if w_ndebug w
    then (t0 ++ [CouldNotRead; Usage argv0], Stop (Exit 0))
    else (t0 ++ [CouldNotRead], Stop Abort).
Proof.
  intros Hparse Hopen. unfold program. rewrite main_stages, Hparse.
  unfold read_points. rewrite Hopen. unfold emit. rewrite bind_trace.
  unfold read_pc_data, assert.
  destruct (w_ndebug w); reflexivity.
Qed.

(** C7, evaluated: compiled with NDEBUG, the program run on a file that
    cannot be opened prints the diagnostic and the usage text and exits with
    code 0. *)
Lemma missing_file_exits_zero :
  program (Examples.world_of None true []) "prog" ["-f"; "pts"]
  = ([CouldNotRead; Usage "prog"], Stop (Exit 0)).
Proof. vm_compute. reflexivity. Qed.

(** With assertions enabled the same run is aborted by [assert(0)]. *)
Example missing_file_aborts :
  program (Examples.world_of None false []) "prog" ["-f"; "pts"]
  = ([CouldNotRead], Stop Abort).
Proof. vm_compute. reflexivity. Qed.

(** ** Degenerate inputs and index construction *)

Section DegenerateFacts.

Variable w : world.

(** An empty file never reaches index construction: [dim] stays 0 and
    [main] takes the usage exit. *)
Lemma empty_file_run (argv0 : string) (args : list string) (t0 : list event)
      (r : float) (k : Z) (outfile : string) :
  parse_args w argv0 args (F32.of_Z 2) 50 "" = (t0, Ret (r, k, outfile)) ->
  w_open w outfile = Some [] ->
  program w argv0 args = (t0 ++ [Usage argv0], Stop (Exit 0)).
Proof.
  intros Hparse Hopen. unfold program. rewrite main_stages, Hparse.
  unfold read_points. rewrite Hopen. rewrite bind_ret_l. reflexivity.
Qed.

End DegenerateFacts.

(** C8 (as amended): index construction checks neither the primitive count
    nor the radius.  For a state with any radius [r], capacity [k] and
    primitive count [N], [createGeometry] returns with every batch built
    when all its backend calls succeed, and otherwise fails by the backend's
    exception, which [main] catches, reports and turns into exit code 1
    before any launch.  An input with no rows never reaches construction:
    [main] prints the usage text and exits with code 0. *)
Theorem createGeometry_fails_only_in_backend (w : world) (r : float)
        (k N d : Z) (nd : ndarray) :
  let state := entry_state r k nd N d in
  let nb := Z.to_nat (Z.quot d 3) in
  let all_ok := uploads_ok w 0 nb && gas_ok w 0 nb in
  (exists t, createGeometry w state
             = (t, if all_ok then Ret (with_geometry state)
                   else Stop (Throw sutil_Exception))
             /\ launches t = []
             /\ (if all_ok then builds t = zrange 0 nb
                 else exists j, (j <= nb)%nat /\ builds t = zrange 0 j)) /\
  (if all_ok then True
   else exists t, try_catch (try_block w state) handler = (t ++ [Caught], Ret 1)
                  /\ launches t = []) /\
  (forall argv0 args t0 outfile,
      parse_args w argv0 args (F32.of_Z 2) 50 "" = (t0, Ret (r, k, outfile)) ->
      w_open w outfile = Some [] ->
      program w argv0 args = (t0 ++ [Usage argv0], Stop (Exit 0))).
Proof.
  intros state nb all_ok.
  destruct (createGeometry_run w state) as (t & j & Hj & Hb & Hl & Hall & Hrun).
  change (geometry_ok w state) with all_ok in *.
  change (Z.to_nat (batch state)) with nb in *.
  split; [|split].
  - exists t. split; [exact Hrun|]. split; [exact Hl|].
    destruct all_ok.
    + now rewrite Hb, (Hall eq_refl).
    + eauto.
  - destruct all_ok eqn:E; [exact I|].
    apply try_block_geometry_fails. exact E.
  - intros argv0 args t0 outfile Hp Ho. eapply empty_file_run; eassumption.
Qed.

(** C8, counterexample: two points, radius 0, every backend call succeeding:
    both acceleration structures' inputs are accepted, [createGeometry]
    returns, and the launch follows. *)
Lemma zero_radius_is_not_rejected :
  ~ rejects_degenerate (Examples.world_of None false [])
      (entry_state (F32.of_Z 0) 3 [[Samples.pt 0 0 0; Samples.pt 1 0 0]] 2 3).
Proof.
  intros H. destruct (H (or_intror eq_refl)) as [_ Hl].
  vm_compute in Hl. discriminate Hl.
Qed.

Example zero_radius_run :
  program (Examples.world_of (Some ["0,0,0"; "1,0,0"]) false [])
          "prog" ["-f"; "pts"; "-r"; "0"; "-k"; "3"]
  = ([Settings 3 1 2 (F32.of_Z 0) 3;
      GasBuild 0 (map (fun c => sphere_bound c (F32.of_Z 0))
                      [Samples.pt 0 0 0; Samples.pt 1 0 0]);
      Launch 0 2; EndOfRow; EndOfRow;
      SanityDone; AvgNeighbors 0; AvgWrongNeighbors 0], Ret 0).
Proof. vm_compute. reflexivity. Qed.

Example empty_file_usage :
  program (Examples.world_of (Some []) false []) "prog" ["-f"; "pts"]
  = ([Usage "prog"], Stop (Exit 0)).
Proof. vm_compute. reflexivity. Qed.

(** ** Only batch 0 is queried *)

Section BatchZeroFacts.

Variable w : world.

Lemma count_lines_dim (stof : string -> exn + float) (NDEBUG : bool)
      (rows : list string) :
  forall (lines dim l' d' : Z),
    1 <= lines -> lines + Z.of_nat (List.length rows) < U32.modulus ->
    count_lines stof NDEBUG rows lines dim = Ret (l', d') -> d' = dim.
Proof.
  induction rows as [|r rows IH]; intros lines dim l' d' Hl Hb H.
  - cbn in H. apply Ret_inj in H. congruence.
  - cbn [count_lines List.length] in *.
    destruct (getline_ok r); [|apply Ret_inj in H; congruence].
    replace (lines =? 0) with false in H by (symmetry; apply Z.eqb_neq; lia).
    cbn [rbind] in H. rewrite incr_small in H by lia.
    eapply IH; [| |exact H]; lia.
Qed.

(** The dimension [read_pc_data] returns comes from the first row. *)
Lemma read_pc_data_dim (stof : string -> exn + float) (NDEBUG : bool)
      (r0 : string) (rows : list string) (nd : ndarray) (N d : Z) :
  Z.of_nat (List.length (r0 :: rows)) < U32.modulus ->
  read_pc_data stof NDEBUG (Some (r0 :: rows)) = Ret (nd, N, d) ->
  d = 0 \/ d = 3 * ceil3 (num_fields r0).
Proof.
  intros Hb H. unfold read_pc_data in H. cbn [rbind] in H.
  destruct (count_lines stof NDEBUG (r0 :: rows) 0 0) as [[lines dim]|s] eqn:Hc;
    cbn [rbind] in H; [|discriminate].
  destruct (fill_lines stof NDEBUG (r0 :: rows) 0 _) as [nd'|s];
    cbn [rbind] in H; [|discriminate].
  apply Ret_inj in H. assert (d = dim) by congruence. subst d. clear H.
  cbn [count_lines] in Hc.
  destruct (getline_ok r0).
  2:{ apply Ret_inj in Hc. left. congruence. }
  cbn [Z.eqb] in Hc. rewrite tokenize_fields in Hc.
  destruct (parse_all stof (fields r0)) as [vs|s]; cbn [rbind] in Hc;
    [|discriminate].
  change (U32.incr 0) with 1 in Hc. cbn [List.length] in Hb.
  right. eapply count_lines_dim; [| |exact Hc]; lia.
Qed.

Lemma read_points_dim (outfile : string) (t1 : list event) (nd : ndarray)
      (N d : Z) :
  read_points w outfile = (t1, Ret (nd, N, d)) -> 0 < d ->
  exists r0 rows,
    w_open w outfile = Some (r0 :: rows) /\
    (Z.of_nat (List.length (r0 :: rows)) < U32.modulus ->
     d = 3 * ceil3 (num_fields r0)).
Proof.
  unfold read_points. intros H Hd.
  destruct (w_open w outfile) as [[|r0 rows]|] eqn:Hopen.
  - rewrite bind_ret_l in H. cbn in H. exfalso.
    injection H as _ _ _ Hd0. lia.
  - exists r0, rows. split; [reflexivity|]. intros Hb.
    rewrite bind_ret_l in H. unfold lift in H.
    assert (Hr : read_pc_data (w_stof w) (w_ndebug w) (Some (r0 :: rows))
                 = Ret (nd, N, d)) by congruence.
    destruct (read_pc_data_dim _ _ _ _ _ _ _ Hb Hr); [lia|assumption].
  - exfalso. unfold emit in H. rewrite bind_trace in H.
    unfold read_pc_data, assert in H.
    destruct (w_ndebug w); cbn in H; [|discriminate].
    injection H as _ _ _ Hd0. lia.
Qed.

Lemma try_catch_fst (m : M Z) :
  exists tail, fst (try_catch m handler) = fst m ++ tail /\
               launches tail = [] /\ builds tail = [].
Proof.
  destruct m as [t [c|s]].
  - exists []. cbn. now rewrite app_nil_r.
  - destruct s; try (exists []; cbn; now rewrite app_nil_r).
    exists [Caught]. cbn. auto.
Qed.

Lemma try_catch_Ret0 (m : M Z) :
  snd (try_catch m handler) = Ret 0 -> exists s0, snd m = Ret s0.
Proof.
  destruct m as [t [c|s]]; [eauto|].
  destruct s; cbn; discriminate.
Qed.

Lemma queried_after_builds_extend (nb : nat) (pre t post : list event) :
  launches pre = [] -> builds pre = [] ->
  launches post = [] -> builds post = [] ->
  queried_after_builds nb t -> queried_after_builds nb (pre ++ t ++ post).
Proof.
  intros Hl1 Hb1 Hl2 Hb2 (t1 & N & t2 & -> & Hl & Hb & Hl' & Hb').
  exists (pre ++ t1), N, (t2 ++ post).
  rewrite !launches_app, !builds_app, Hl1, Hb1, Hl, Hb, Hl', Hb', Hl2, Hb2.
  repeat split; try reflexivity.
  rewrite <- !app_assoc. reflexivity.
Qed.

Lemma queried_launches (nb : nat) (t : list event) :
  queried_after_builds nb t -> launches t = [0].
Proof.
  intros (t1 & N & t2 & -> & Hl & _ & Hl' & _).
  rewrite launches_app. cbn [launches flat_map]. fold (launches t2).
  rewrite Hl, Hl'. reflexivity.
Qed.

(** Every run of the program: no launch at all and no normal completion, or
    batch 0 launched once after the builds of all [dim/3] batches. *)
Lemma program_run (argv0 : string) (args : list string) :
  (launches (fst (program w argv0 args)) = []
   /\ snd (program w argv0 args) <> Ret 0)
  \/ exists t0 r k outfile t1 nd N d,
      parse_args w argv0 args (F32.of_Z 2) 50 "" = (t0, Ret (r, k, outfile)) /\
      read_points w outfile = (t1, Ret (nd, N, d)) /\ 0 < d /\
      queried_after_builds (Z.to_nat (Z.quot d 3)) (fst (program w argv0 args)).
Proof.
  unfold program. rewrite main_stages.
  pose proof (silent_parse_args w argv0 args (F32.of_Z 2) 50 "") as [Hl0 Hb0].
  destruct (parse_args w argv0 args (F32.of_Z 2) 50 "")
    as [t0 [[[r k] o]|s]] eqn:Hparse; cbn [fst] in Hl0, Hb0.
  2:{ left. destruct s; cbn [terminate fst snd]; split; auto; discriminate. }
  pose proof (silent_read_points w o) as [Hl1 Hb1].
  destruct (read_points w o) as [t1 [[[nd N] d]|s]] eqn:Hread;
    cbn [fst] in Hl1, Hb1.
  2:{ left. destruct s; cbn [terminate fst snd];
        rewrite launches_app, Hl0, Hl1; split; auto; discriminate. }
  destruct ((d <=? 0) || (w_max_dim w <? d)) eqn:Hguard.
  { left. cbn [terminate fst snd]. rewrite !launches_app, Hl0, Hl1.
    split; [reflexivity|discriminate]. }
  apply orb_false_iff in Hguard. destruct Hguard as [Hd _].
  apply Z.leb_gt in Hd.
  set (state := entry_state r k nd N d).
  destruct (try_catch_fst (try_block w state)) as (tail & Htail & Hlt & Hbt).
  assert (Hfst : forall m : M Z, fst (terminate m) = fst m).
  { intros [t [c|s]]; [reflexivity|]. destruct s; reflexivity. }
  assert (Hsnd : forall m : M Z, snd (terminate m) = Ret 0 -> snd m = Ret 0).
  { intros [t [c|s]]; [auto|]. destruct s; cbn; discriminate. }
  destruct (try_block_run w state) as [(Hl & [s Hs] & _)|Hq].
  - left. split.
    + rewrite Hfst. cbn [fst]. rewrite Htail.
      rewrite !launches_app. cbn [launches flat_map].
      change (flat_map _ (fst (try_block w state) ++ tail))
        with (launches (fst (try_block w state) ++ tail)).
      rewrite launches_app, Hl0, Hl1, Hl, Hlt. reflexivity.
    + intros H. apply Hsnd in H. cbn [snd] in H.
      apply try_catch_Ret0 in H. destruct H as [c Hc]. congruence.
  - right. exists t0, r, k, o, t1, nd, N, d.
    split; [reflexivity|]. split; [exact Hread|]. split; [assumption|].
    rewrite Hfst. cbn [fst]. rewrite Htail.
    change (t0 ++ t1 ++ Settings d (Z.quot d 3) N r k
               :: fst (try_block w state) ++ tail)
      with (t0 ++ t1 ++ [Settings d (Z.quot d 3) N r k]
               ++ fst (try_block w state) ++ tail).
    rewrite !app_assoc. rewrite <- (app_assoc _ (fst (try_block w state)) tail).
    apply queried_after_builds_extend; try assumption.
    + rewrite !launches_app, Hl0, Hl1. reflexivity.
    + rewrite !builds_app, Hb0, Hb1. reflexivity.
Qed.

(** The check reads coordinates of batch 0 only. *)
Lemma nd_load_batch0 (nd nd' : ndarray) (i : Z) :
  nth_error nd 0 = nth_error nd' 0 -> nd_load nd 0 i = nd_load nd' 0 i.
Proof.
  intros H. unfold nd_load. cbn [Z.ltb Z.compare orb Z.to_nat].
  change (Z.to_nat 0) with 0%nat. now rewrite H.
Qed.

Lemma account_batch0 (nd nd' : ndarray) (radius : float) (q p : Z) (st : stats) :
  nth_error nd 0 = nth_error nd' 0 ->
  account nd radius q st p = account nd' radius q st p.
Proof.
  intros H. unfold account, sq_dist.
  now rewrite !(nd_load_batch0 nd nd' _ H).
Qed.

Lemma check_row_batch0 (data : Dev.memory) (nd nd' : ndarray) (radius : float)
      (knn q : Z) :
  nth_error nd 0 = nth_error nd' 0 ->
  forall n j st,
    check_row n j data nd radius knn q st = check_row n j data nd' radius knn q st.
Proof.
  intros H. induction n as [|n IH]; intros j st; [reflexivity|].
  cbn [check_row].
  destruct (host_load data (U32.add (U32.mul q knn) j)) as [p|s];
    [|reflexivity].
  unfold lift, bind.
  destruct (p =? U32.UINT_MAX); [reflexivity|].
  rewrite (account_batch0 nd nd' radius q p st H).
  destruct (account nd' radius q st p) as [st'|s]; [|reflexivity].
  unfold emit. rewrite IH. reflexivity.
Qed.

Lemma check_rows_batch0 (data : Dev.memory) (nd nd' : ndarray) (radius : float)
      (knn : Z) :
  nth_error nd 0 = nth_error nd' 0 ->
  forall n q st,
    check_rows n q data nd radius knn st = check_rows n q data nd' radius knn st.
Proof.
  intros H. induction n as [|n IH]; intros q st; [reflexivity|].
  cbn [check_rows]. rewrite (check_row_batch0 data nd nd' radius knn q H).
  destruct (check_row (Z.to_nat knn) 0 data nd' radius knn q st)
    as [t [st'|s]]; [|reflexivity].
  unfold bind, emit. rewrite IH. reflexivity.
Qed.

End BatchZeroFacts.

(** C2: [createGeometry] builds one acceleration structure per batch, for
    all ceil(D/3) batches, but only batch 0 is queried.  In every run the
    launches are none or exactly one with batch id 0; in a run that completes
    (returns 0) on a file whose first row has D fields, that one launch comes
    after the builds of the batches 0 .. ceil(D/3)-1 and nothing is built or
    launched after it; and the check that follows reads the coordinates of
    batch 0 only (it runs the same on any other content of the batches
    1 .. ceil(D/3)-1). *)
Theorem only_batch_zero_is_queried (w : world) (argv0 : string)
        (args : list string) :
  let t := fst (program w argv0 args) in
  (launches t = [] \/ launches t = [0]) /\
  (snd (program w argv0 args) = Ret 0 ->
   exists r0 rows,
     w_open w (chosen_file w argv0 args) = Some (r0 :: rows) /\
     (Z.of_nat (List.length (r0 :: rows)) < U32.modulus ->
      queried_after_builds (Z.to_nat (ceil3 (num_fields r0))) t)) /\
  (forall data state state',
      params state = params state' ->
      nth_error (ndpoints state) 0 = nth_error (ndpoints state') 0 ->
      sanity_check data state = sanity_check data state').
Proof.
  intros t. subst t. split; [|split].
  - destruct (program_run w argv0 args)
      as [[Hl _]|(t0 & r & k & o & t1 & nd & N & d & _ & _ & _ & Hq)].
    + left. exact Hl.
    + right. eapply queried_launches. exact Hq.
  - intros Hret.
    destruct (program_run w argv0 args)
      as [[_ Hn]|(t0 & r & k & o & t1 & nd & N & d & Hp & Hr & Hd & Hq)];
      [contradiction|].
    destruct (read_points_dim w o t1 nd N d Hr Hd) as (r0 & rows & Hopen & Hdim).
    exists r0, rows. unfold chosen_file. rewrite Hp. cbn [snd].
    split; [exact Hopen|]. intros Hb. rewrite (Hdim Hb) in Hq.
    pose proof (num_fields_pos r0) as Hpos.
    pose proof (ceil3_pos _ Hpos) as Hc.
    rewrite Z.quot_div_nonneg in Hq by lia.
    rewrite Z.mul_comm, Z.div_mul in Hq by lia. exact Hq.
  - intros data state state' Hp Hnd. unfold sanity_check.
    rewrite <- Hp.
    rewrite (check_rows_batch0 data (ndpoints state) (ndpoints state')
               (radius (params state)) (knn (params state)) Hnd).
    reflexivity.
Qed.

(** A witness for C2: four 6-D points, two batches, a run that completes. *)
Lemma only_batch_zero_is_queried_witness :
  exists r0 rows,
    w_open (Examples.world_of (Some ["0,0,0,1,1,1"; "1,0,0,2,2,2"]) false
                              [(0, 1); (3, 0)])
           (chosen_file (Examples.world_of
                           (Some ["0,0,0,1,1,1"; "1,0,0,2,2,2"]) false
                           [(0, 1); (3, 0)])
                        "prog" ["-f"; "pts"; "-k"; "3"])
    = Some (r0 :: rows) /\
    (Z.of_nat (List.length (r0 :: rows)) < U32.modulus ->
     queried_after_builds (Z.to_nat (ceil3 (num_fields r0)))
       (fst (program (Examples.world_of
                        (Some ["0,0,0,1,1,1"; "1,0,0,2,2,2"]) false
                        [(0, 1); (3, 0)])
                     "prog" ["-f"; "pts"; "-k"; "3"]))).
Proof.
  apply (proj1 (proj2 (only_batch_zero_is_queried
                         (Examples.world_of
                            (Some ["0,0,0,1,1,1"; "1,0,0,2,2,2"]) false
                            [(0, 1); (3, 0)])
                         "prog" ["-f"; "pts"; "-k"; "3"]))).
  vm_compute. reflexivity.
Defined.

Example two_batches_run :
  let t := fst (program (Examples.world_of
                           (Some ["0,0,0,1,1,1"; "1,0,0,2,2,2"]) false
                           [(0, 1); (3, 0)])
                        "prog" ["-f"; "pts"; "-k"; "3"]) in
  builds t = [0; 1] /\ launches t = [0].
Proof. vm_compute. split; reflexivity. Qed.

(** * Part III: further properties of the code *)

(** ** [tokenize] *)

Section TokenizeMore.

Variable stof : string -> exn + float.
Variable NDEBUG : bool.

Lemma parse_all_stop (fs : list string) (st : stop) :
  parse_all stof fs = Stop st -> exists e, st = Throw e.
Proof.
  induction fs as [|f fs IH]; cbn [parse_all]; [discriminate|].
  unfold call_stof. destruct (stof f) as [e|v]; cbn [rbind].
  - intros H. exists e. congruence.
  - destruct (parse_all stof fs) as [vs|s]; cbn [rbind]; [discriminate|].
    intros H. apply IH. congruence.
Qed.

Lemma nd_store_stop (nd : ndarray) (b i : Z) (p : float3) (st : stop) :
  nd_store nd b i p = Stop st -> st = Undefined.
Proof.
  unfold nd_store. destruct ((b <? 0) || (i <? 0)); [congruence|].
  destruct (nth_error nd (Z.to_nat b)) as [row|]; [|congruence].
  destruct (Z.to_nat i <? List.length row)%nat; [discriminate|congruence].
Qed.

Lemma store_batches_stop (vs : list float) (lineId : Z) (st : stop) :
  forall (n : nat) (b : Z) (nd : ndarray),
    store_batches n b vs nd lineId = Stop st -> st = Undefined.
Proof.
  induction n as [|n IH]; intros b nd; cbn [store_batches]; [discriminate|].
  destruct (nd_store nd b lineId _) as [nd'|s] eqn:E; cbn [rbind].
  - apply IH.
  - intros H. apply nd_store_stop in E. congruence.
Qed.

(** X1: The dimension [tokenize] returns is a multiple of 3, at least 3, and the
    least one not below the row's field count; [assert(dim > 0)] never fails
    and the scanning loop always ends: the only ways out are an exception of
    [std::stof] and a store outside [ndpoints]. *)
Theorem tokenize_dimension (s : string) (ndpoints : option ndarray)
        (lineId : Z) :
  match tokenize stof NDEBUG s "," ndpoints lineId with
  | Ret (d, _) =>
      3 <= d /\ d mod 3 = 0 /\ num_fields s <= d < num_fields s + 3
  | Stop st => (exists e, st = Throw e) \/ st = Undefined
  end.
Proof.
  rewrite tokenize_fields.
  destruct (parse_all stof (fields s)) as [vs|st] eqn:Hp; cbn [rbind].
  2:{ left. eapply parse_all_stop. exact Hp. }
  pose proof (num_fields_pos s) as Hpos.
  pose proof (ceil3_pos _ Hpos) as Hc.
  pose proof (ceil3_bounds (num_fields s)) as Hb.
  assert (Hd : 3 <= 3 * ceil3 (num_fields s) /\
               (3 * ceil3 (num_fields s)) mod 3 = 0 /\
               num_fields s <= 3 * ceil3 (num_fields s) < num_fields s + 3).
  { split; [lia|]. split; [|exact Hb].
    rewrite Z.mul_comm. apply Z.mod_mul. lia. }
  destruct ndpoints as [nd|]; [|exact Hd].
  destruct (store_batches _ 0 vs nd lineId) as [nd'|st] eqn:Hs; cbn [rbind].
  - exact Hd.
  - right. eapply store_batches_stop. exact Hs.
Qed.

Lemma parse_all_first_failure (fs1 : list string) (f : string)
      (fs2 : list string) (e : exn) :
  (exists vs, parse_all stof fs1 = Ret vs) -> stof f = inl e ->
  parse_all stof (fs1 ++ f :: fs2) = Stop (Throw e).
Proof.
  intros [vs Hvs] Hf. revert vs Hvs.
  induction fs1 as [|g fs1 IH]; intros vs Hvs.
  - cbn [app parse_all]. unfold call_stof. rewrite Hf. reflexivity.
  - cbn [app parse_all] in *.
    destruct (call_stof stof g) as [v|s]; cbn [rbind] in *; [|discriminate].
    destruct (parse_all stof fs1) as [vs1|s] eqn:E; cbn [rbind] in Hvs;
      [|discriminate].
    rewrite (IH vs1 eq_refl). reflexivity.
Qed.

(** X2: [tokenize] throws the exception of the first field that [std::stof]
    rejects, whatever follows it and before anything is stored: an empty
    field (a blank line, two commas in a row, a trailing comma) is enough
    when [std::stof] rejects the empty string. *)
Theorem tokenize_throws_at_first_bad_field (s : string)
        (ndpoints : option ndarray) (lineId : Z)
        (fs1 : list string) (f : string) (fs2 : list string) (e : exn) :
  fields s = fs1 ++ f :: fs2 ->
  (exists vs, parse_all stof fs1 = Ret vs) ->
  stof f = inl e ->
  tokenize stof NDEBUG s "," ndpoints lineId = Stop (Throw e).
Proof.
  intros Hs Hvs Hf. rewrite tokenize_fields, Hs.
  rewrite (parse_all_first_failure fs1 f fs2 e Hvs Hf). reflexivity.
Qed.

End TokenizeMore.

Lemma tokenize_throws_at_first_bad_field_witness :
  tokenize StofDec.stof false "1,,3" "," (Some [[uninit]]) 0
  = Stop (Throw std_invalid_argument).
Proof.
  apply (tokenize_throws_at_first_bad_field StofDec.stof false "1,,3"
           (Some [[uninit]]) 0 ["1"] "" ["3"] std_invalid_argument).
  - vm_compute. reflexivity.
  - eexists. vm_compute. reflexivity.
  - vm_compute. reflexivity.
Defined.

(** ** [read_pc_data] *)

Section ReadMore.

Variable stof : string -> exn + float.
Variable NDEBUG : bool.

Lemma count_lines_cut (long : string) (post : list string) :
  getline_ok long = false ->
  forall (pre : list string) (lines dim : Z),
    Forall (fun r => getline_ok r = true) pre ->
    count_lines stof NDEBUG (pre ++ long :: post) lines dim
    = count_lines stof NDEBUG pre lines dim.
Proof.
  intros Hlong. induction pre as [|r pre IH]; intros lines dim Hok.
  - cbn [app count_lines]. now rewrite Hlong.
  - inversion Hok as [|? ? Hr Hrest]; subst.
    cbn [app count_lines]. rewrite Hr.
    destruct (if lines =? 0
              then rbind (tokenize stof NDEBUG r "," None 0)
                         (fun pat => let '(d, _) := pat in Ret d)
              else Ret dim) as [dim'|s]; cbn [rbind]; [|reflexivity].
    now apply IH.
Qed.

Lemma fill_lines_cut (long : string) (post : list string) :
  getline_ok long = false ->
  forall (pre : list string) (lines : Z) (nd : ndarray),
    Forall (fun r => getline_ok r = true) pre ->
    fill_lines stof NDEBUG (pre ++ long :: post) lines nd
    = fill_lines stof NDEBUG pre lines nd.
Proof.
  intros Hlong. induction pre as [|r pre IH]; intros lines nd Hok.
  - cbn [app fill_lines]. now rewrite Hlong.
  - inversion Hok as [|? ? Hr Hrest]; subst.
    cbn [app fill_lines]. rewrite Hr.
    destruct (tokenize stof NDEBUG r "," (Some nd) lines) as [[d nd']|s];
      cbn [rbind]; [|reflexivity].
    now apply IH.
Qed.

(** X3: A line longer than the 1023 characters the line buffer holds ends both
    reading loops: the file is read as if it ended just before that line,
    and the points after it are silently dropped. *)
Theorem read_pc_data_stops_at_long_line (pre : list string) (long : string)
        (post : list string) :
  getline_ok long = false ->
  Forall (fun r => getline_ok r = true) pre ->
  read_pc_data stof NDEBUG (Some (pre ++ long :: post))
  = read_pc_data stof NDEBUG (Some pre).
Proof.
  intros Hlong Hok. unfold read_pc_data. cbn [rbind].
  rewrite (count_lines_cut long post Hlong pre 0 0 Hok).
  destruct (count_lines stof NDEBUG pre 0 0) as [[lines dim]|s];
    cbn [rbind]; [|reflexivity].
  rewrite (fill_lines_cut long post Hlong pre 0 _ Hok). reflexivity.
Qed.

Lemma nd_store_keeps_shape (B N : nat) (nd nd' : ndarray) (b i : Z)
      (p : float3) :
  nd_store nd b i p = Ret nd' -> shape B N nd -> shape B N nd'.
Proof.
  unfold nd_store. intros H [HB HN].
  destruct ((b <? 0) || (i <? 0)); [discriminate|].
  destruct (nth_error nd (Z.to_nat b)) as [row|] eqn:Hrow; [|discriminate].
  destruct (Z.to_nat i <? List.length row)%nat eqn:Hi; [|discriminate].
  apply Nat.ltb_lt in Hi. apply Ret_inj in H. subst nd'.
  assert (Hb : (Z.to_nat b < List.length nd)%nat).
  { apply nth_error_Some. congruence. }
  assert (Hlen : List.length row = N).
  { apply nth_error_In in Hrow. rewrite Forall_forall in HN. now apply HN. }
  split.
  - rewrite list_set_length; lia.
  - apply Forall_list_set; [assumption|]. rewrite list_set_length; lia.
Qed.

Lemma store_batches_keeps_shape (B N : nat) (vs : list float) (lineId : Z) :
  forall (n : nat) (b : Z) (nd nd' : ndarray),
    store_batches n b vs nd lineId = Ret nd' -> shape B N nd -> shape B N nd'.
Proof.
  induction n as [|n IH]; intros b nd nd' H Hs; cbn [store_batches] in H.
  - apply Ret_inj in H. now subst.
  - destruct (nd_store nd b lineId _) as [nd1|s] eqn:E; cbn [rbind] in H;
      [|discriminate].
    eapply IH; [exact H|]. eapply nd_store_keeps_shape; eassumption.
Qed.

Lemma fill_lines_keeps_shape (B N : nat) (rows : list string) :
  forall (lines : Z) (nd nd' : ndarray),
    fill_lines stof NDEBUG rows lines nd = Ret nd' ->
    shape B N nd -> shape B N nd'.
Proof.
  induction rows as [|r rows IH]; intros lines nd nd' H Hs; cbn [fill_lines] in H.
  - apply Ret_inj in H. now subst.
  - destruct (getline_ok r); [|apply Ret_inj in H; now subst].
    rewrite tokenize_fields in H.
    destruct (parse_all stof (fields r)) as [vs|s]; cbn [rbind] in H;
      [|discriminate].
    destruct (store_batches _ 0 vs nd lines) as [nd1|s] eqn:E;
      cbn [rbind] in H; [|discriminate].
    eapply IH; [exact H|]. eapply store_batches_keeps_shape; eassumption.
Qed.

Lemma count_lines_invariant (rows : list string) :
  forall (lines dim l' d' : Z),
    count_lines stof NDEBUG rows lines dim = Ret (l', d') ->
    U32.in_range lines -> 0 <= dim /\ dim mod 3 = 0 ->
    U32.in_range l' /\ 0 <= d' /\ d' mod 3 = 0.
Proof.
  induction rows as [|r rows IH]; intros lines dim l' d' H Hl Hd;
    cbn [count_lines] in H.
  - apply Ret_inj in H. assert (l' = lines /\ d' = dim) as [-> ->]
      by (split; congruence). tauto.
  - destruct (getline_ok r).
    2:{ apply Ret_inj in H. assert (l' = lines /\ d' = dim) as [-> ->]
          by (split; congruence). tauto. }
    destruct (lines =? 0).
    + rewrite tokenize_fields in H.
      destruct (parse_all stof (fields r)) as [vs|s]; cbn [rbind] in H;
        [|discriminate].
      eapply IH; [exact H|apply incr_range|].
      pose proof (num_fields_pos r) as Hpos.
      pose proof (ceil3_pos _ Hpos). split; [lia|].
      rewrite Z.mul_comm. apply Z.mod_mul. lia.
    + cbn [rbind] in H. eapply IH; [exact H|apply incr_range|exact Hd].
Qed.

(** X4: Whatever the file holds, when [read_pc_data] returns, [*N] is an
    [unsigned int], [*d] is a non-negative multiple of 3, and [ndpoints] is
    made of exactly [d/3] arrays of [N] elements each: rows of other lengths
    never change the shape of the arrays. *)
Theorem read_pc_data_shape (file : option (list string)) (nd : ndarray)
        (N d : Z) :
  read_pc_data stof NDEBUG file = Ret (nd, N, d) ->
  U32.in_range N /\ 0 <= d /\ d mod 3 = 0 /\
  shape (Z.to_nat (Z.quot d 3)) (Z.to_nat N) nd.
Proof.
  unfold read_pc_data. intros H.
  destruct (match file with None => assert NDEBUG false | Some _ => Ret tt end);
    cbn [rbind] in H; [|discriminate].
  destruct (count_lines stof NDEBUG _ 0 0) as [[lines dim]|s] eqn:Hc;
    cbn [rbind] in H; [|discriminate].
  destruct (fill_lines stof NDEBUG _ 0 _) as [nd'|s] eqn:Hf;
    cbn [rbind] in H; [|discriminate].
  apply Ret_inj in H.
  assert (nd' = nd /\ lines = N /\ dim = d) as (-> & -> & ->)
    by (repeat split; congruence).
  destruct (count_lines_invariant _ _ _ _ _ Hc) as (HN & Hd0 & Hd3).
  { unfold U32.in_range, U32.modulus. lia. }
  { split; [lia|reflexivity]. }
  repeat split; try assumption; try apply HN.
  - eapply fill_lines_keeps_shape; [exact Hf|]. apply shape_fresh.
  - eapply fill_lines_keeps_shape; [exact Hf|]. apply shape_fresh.
Qed.

End ReadMore.

Lemma read_pc_data_stops_at_long_line_witness :
  read_pc_data StofDec.stof false
    (Some (["1,2,3"; "4,5,6"]
             ++ String.concat "" (repeat "0123456789abcdef" 64) :: ["7,8,9"]))
  = read_pc_data StofDec.stof false (Some ["1,2,3"; "4,5,6"]).
Proof.
  apply (read_pc_data_stops_at_long_line StofDec.stof false
           ["1,2,3"; "4,5,6"]
           (String.concat "" (repeat "0123456789abcdef" 64)) ["7,8,9"]).
  - vm_compute. reflexivity.
  - repeat constructor.
Defined.

Lemma read_pc_data_shape_witness :
  U32.in_range 2 /\ 0 <= 6 /\ 6 mod 3 = 0 /\
  shape (Z.to_nat (Z.quot 6 3)) (Z.to_nat 2)
        [[Samples.pt 1 2 3; Samples.pt 5 6 0];
         [make_float3 (Val (F32.of_Z 4)) Indet Indet; uninit]].
Proof.
  apply (read_pc_data_shape StofDec.stof false (Some ["1,2,3,4"; "5,6,0"])).
  vm_compute. reflexivity.
Defined.

(** ** The result buffer: what the device stores is what the host reads *)

Section BufferMore.

Import Dev.

Lemma byte_at_middle (l1 l2 l3 : list Z) (k : nat) (b : Z) :
  nth_error l2 k = Some b ->
  byte_at (l1 ++ l2 ++ l3) (Z.of_nat (List.length l1 + k)) = Some b.
Proof.
  intros H. unfold byte_at.
  replace (Z.of_nat (List.length l1 + k) <? 0) with false
    by (symmetry; apply Z.ltb_ge; lia).
  rewrite Nat2Z.id, nth_error_app2 by lia.
  replace (List.length l1 + k - List.length l1)%nat with k by lia.
  rewrite nth_error_app1; [exact H|].
  apply nth_error_Some. congruence.
Qed.

Lemma bytes_of_u32_value (v : Z) :
  U32.in_range v ->
  v mod 256 + 256 * ((v / 256) mod 256) + 65536 * ((v / 65536) mod 256)
  + 16777216 * ((v / 16777216) mod 256) = v.
Proof.
  unfold U32.in_range, U32.modulus. intros Hv.
  pose proof (Z.div_mod v 256 ltac:(lia)).
  pose proof (Z.div_mod (v / 256) 256 ltac:(lia)).
  pose proof (Z.div_mod (v / 256 / 256) 256 ltac:(lia)).
  rewrite (Z.div_div v 256 256) in * by lia.
  pose proof (Z.div_div v 65536 256 ltac:(lia) ltac:(lia)) as H3.
  change (65536 * 256) with 16777216 in H3. change (256 * 256) with 65536 in *.
  rewrite H3 in *.
  assert (v / 16777216 < 256) by (apply Z.div_lt_upper_bound; lia).
  assert (0 <= v / 16777216) by (apply Z.div_pos; lia).
  rewrite (Z.mod_small (v / 16777216) 256) by lia.
  lia.
Qed.

Lemma store_u32_load_same (m m' : memory) (i v : Z) :
  store_u32 m i v = Ret m' -> U32.in_range v -> load_u32 m' i = Some v.
Proof.
  unfold store_u32.
  destruct ((i <? 0) || (Z.of_nat (List.length m) <? 4 * i + 4)) eqn:E;
    [discriminate|].
  apply orb_false_iff in E. destruct E as [E1 E2].
  apply Z.ltb_ge in E1, E2.
  intros H Hv. apply Ret_inj in H. subst m'. unfold load_u32.
  assert (Hlen : List.length (firstn (Z.to_nat (4 * i)) m) = Z.to_nat (4 * i))
    by (rewrite length_firstn; lia).
  set (l1 := firstn (Z.to_nat (4 * i)) m) in *.
  set (l3 := skipn (Z.to_nat (4 * i + 4)) m).
  assert (Hb : forall (k : nat) (b : Z),
             nth_error (bytes_of_u32 v) k = Some b ->
             byte_at (l1 ++ bytes_of_u32 v ++ l3) (4 * i + Z.of_nat k) = Some b).
  { intros k b Hk.
    replace (4 * i + Z.of_nat k) with (Z.of_nat (List.length l1 + k)) by lia.
    now apply byte_at_middle. }
  pose proof (Hb 0%nat _ eq_refl) as H0. rewrite Z.add_0_r in H0.
  pose proof (Hb 1%nat _ eq_refl) as H1. change (Z.of_nat 1) with 1 in H1.
  pose proof (Hb 2%nat _ eq_refl) as H2. change (Z.of_nat 2) with 2 in H2.
  pose proof (Hb 3%nat _ eq_refl) as H3. change (Z.of_nat 3) with 3 in H3.
  rewrite H0, H1, H2, H3.
  f_equal. apply bytes_of_u32_value. exact Hv.
Qed.

Lemma apply_stores_app (s1 s2 : list (Z * Z)) :
  forall (m : memory),
    apply_stores m (s1 ++ s2)
    = rbind (apply_stores m s1) (fun m1 => apply_stores m1 s2).
Proof.
  induction s1 as [|[i v] s1 IH]; intros m; [reflexivity|].
  cbn [app apply_stores].
  destruct (store_u32 m i v) as [m1|s]; cbn [rbind]; [apply IH|reflexivity].
Qed.

(** X5: The value the device program stored last into an element of the frame
    buffer is the value the host reads from it (every store being inside the
    buffer): nothing is lost between the device's [unsigned int] stores and
    the host's view of the same bytes. *)
Theorem device_store_read_back (m : memory) (pre post : list (Z * Z))
        (i v : Z) :
  Forall (fun s => 0 <= fst s /\ 4 * fst s + 4 <= Z.of_nat (List.length m))
         (pre ++ (i, v) :: post) ->
  U32.in_range v ->
  ~ In i (map fst post) ->
  exists m', apply_stores m (pre ++ (i, v) :: post) = Ret m' /\
             load_u32 m' i = Some v.
Proof.
  intros Hall Hv Hlast.
  destruct (apply_stores_ok _ m Hall) as (m' & Hrun & _).
  exists m'. split; [exact Hrun|].
  rewrite apply_stores_app in Hrun.
  destruct (apply_stores m pre) as [m1|s]; cbn [rbind] in Hrun; [|discriminate].
  cbn [apply_stores] in Hrun.
  destruct (store_u32 m1 i v) as [m2|s] eqn:E; cbn [rbind] in Hrun;
    [|discriminate].
  rewrite (apply_stores_frame post m2 m' i Hrun Hlast).
  eapply store_u32_load_same; eassumption.
Qed.

End BufferMore.

Lemma device_store_read_back_witness :
  exists m',
    Dev.apply_stores (Dev.fresh (fun k => Z.of_nat k) 6)
                     ([(0, 7)] ++ (4, 1) :: [(0, 9)]) = Ret m' /\
    Dev.load_u32 m' 4 = Some 1.
Proof.
  apply (device_store_read_back (Dev.fresh (fun k => Z.of_nat k) 6)
           [(0, 7)] [(0, 9)] 4 1).
  - cbn [app]. repeat apply Forall_cons; try apply Forall_nil;
      cbn [fst]; rewrite fresh_length; lia.
  - vm_compute. split; [discriminate|reflexivity].
  - cbn. intros [H|[]]. discriminate H.
Defined.

(** ** [createGeometry] *)

Section GeometryMore.

Variable w : world.

Lemma build_batches_first_failure (state : WhittedState) :
  forall (j n : nat) (b : Z) (handles : list Z),
    (j < n)%nat -> gas_ok w b j = true ->
    w_ok w (UploadAabbs (b + Z.of_nat j))
    && w_ok w (BuildGas (b + Z.of_nat j)) = false ->
    exists t, build_batches w n b state handles
              = (t, Stop (Throw sutil_Exception))
              /\ builds t = zrange b j /\ launches t = [].
Proof.
  induction j as [|j IH]; intros n b handles Hj Hok Hfail.
  - destruct n as [|n]; [lia|]. cbn [build_batches]. unfold check.
    rewrite Z.add_0_r in Hfail.
    destruct (w_ok w (UploadAabbs b)); rewrite ?bind_ret_l, ?bind_halt.
    2:{ exists []. repeat split. }
    cbn [andb] in Hfail. rewrite Hfail, bind_halt.
    exists []. repeat split.
  - destruct n as [|n]; [lia|]. cbn [build_batches]. unfold check.
    unfold gas_ok in Hok. cbn [zrange forallb] in Hok.
    apply andb_true_iff in Hok. destruct Hok as [Hb Hrest].
    apply andb_true_iff in Hb. destruct Hb as [-> ->].
    rewrite !bind_ret_l. unfold emit. rewrite bind_trace.
    destruct (IH n (b + 1) (handles ++ [b])) as (t & Hrun & Hbt & Hlt).
    + lia.
    + exact Hrest.
    + replace (b + 1 + Z.of_nat j) with (b + Z.of_nat (S j)) by lia.
      exact Hfail.
    + rewrite Hrun. cbn [fst snd app]. eexists. split; [reflexivity|].
      cbn [builds launches flat_map app]. fold (builds t) (launches t).
      rewrite Hbt, Hlt. split; reflexivity.
Qed.

(** X6: [createGeometry] uploads the points of every batch before it builds
    anything, so a failed upload leaves nothing built; and the builds run in
    batch order and stop at the first batch whose box upload or build fails:
    exactly the batches before it have been built when the exception
    leaves. *)
Theorem createGeometry_stops_at_first_failure (state : WhittedState) (j : nat) :
  let nb := Z.to_nat (batch state) in
  (uploads_ok w 0 nb = false ->
   createGeometry w state = ([], Stop (Throw sutil_Exception))) /\
  (uploads_ok w 0 nb = true -> (j < nb)%nat -> gas_ok w 0 j = true ->
   w_ok w (UploadAabbs (Z.of_nat j)) && w_ok w (BuildGas (Z.of_nat j)) = false ->
   exists t, createGeometry w state = (t, Stop (Throw sutil_Exception))
             /\ builds t = zrange 0 j /\ launches t = []).
Proof.
  intros nb. unfold createGeometry. rewrite upload_batches_run. fold nb.
  split.
  - intros ->. reflexivity.
  - intros -> Hj Hok Hfail.
    change (@pair (list event) (res unit) [] (Ret tt)) with (ret tt).
    rewrite bind_ret_l.
    destruct (build_batches_first_failure state j nb 0 [] Hj Hok Hfail)
      as (t & Hrun & Hb & Hl).
    rewrite Hrun, bind_stop. exists t. auto.
Qed.

End GeometryMore.

Lemma createGeometry_stops_at_first_failure_witness :
  exists t,
    createGeometry (Faults.build_fails 1 None) Faults.two_batches
    = (t, Stop (Throw sutil_Exception))
    /\ builds t = zrange 0 1 /\ launches t = [].
Proof.
  apply (proj2 (createGeometry_stops_at_first_failure
                  (Faults.build_fails 1 None) Faults.two_batches 1)).
  - vm_compute. reflexivity.
  - vm_compute. lia.
  - vm_compute. reflexivity.
  - vm_compute. reflexivity.
Defined.

(** ** [main]: guards and exits *)

Section MainMore.

Variable w : world.

(** X7: When the first line of the file is longer than the line buffer, nothing
    is read: [main] takes the usage exit with code 0, as for an empty
    file, without any backend call. *)
Theorem first_line_too_long_exits_with_usage (argv0 : string)
        (args : list string) (t0 : list event) (r : float) (k : Z)
        (outfile : string) (long : string) (rows : list string) :
  parse_args w argv0 args (F32.of_Z 2) 50 "" = (t0, Ret (r, k, outfile)) ->
  w_open w outfile = Some (long :: rows) ->
  getline_ok long = false ->
  program w argv0 args = (t0 ++ [Usage argv0], Stop (Exit 0)).
Proof.
  intros Hparse Hopen Hlong. unfold program. rewrite main_stages, Hparse.
  unfold read_points. rewrite Hopen, bind_ret_l.
  unfold read_pc_data. cbn [rbind count_lines fill_lines]. rewrite Hlong.
  reflexivity.
Qed.

(** X8: The dimension guard: a well-formed file whose padded dimension
    3*ceil(D/3) exceeds [MAX_DIM] is read in full and then rejected with the
    usage text and exit code 0, before any backend call. *)
Theorem dimension_above_max_exits_with_usage (argv0 : string)
        (args : list string) (t0 : list event) (r : float) (k : Z)
        (outfile : string) (D : Z) (r0 : string) (rows : list string) :
  parse_args w argv0 args (F32.of_Z 2) 50 "" = (t0, Ret (r, k, outfile)) ->
  w_open w outfile = Some (r0 :: rows) ->
  Z.of_nat (List.length (r0 :: rows)) < U32.modulus ->
  Forall (row_ok (w_stof w) D) (r0 :: rows) ->
  w_max_dim w < 3 * ceil3 D ->
  program w argv0 args = (t0 ++ [Usage argv0], Stop (Exit 0)).
Proof.
  intros Hparse Hopen Hb Hok Hmax. unfold program.
  rewrite main_stages, Hparse.
  unfold read_points. rewrite Hopen, bind_ret_l. unfold lift.
  rewrite (read_pc_data_table (w_stof w) (w_ndebug w) D r0 rows Hb Hok).
  replace (w_max_dim w <? 3 * ceil3 D) with true
    by (symmetry; apply Z.ltb_lt; lia).
  rewrite orb_true_r. reflexivity.
Qed.

(** X9: An option that takes a value and stands last on the command line, after
    well-formed options, gets the usage text and exit code 0 (and no
    "Unknown option" line). *)
Theorem option_without_value_exits_with_usage (argv0 : string)
        (pre : list string) (a : string) :
  option_pairs (parses w) pre = true ->
  is_file a || is_knn a || is_radius a = true ->
  program w argv0 (pre ++ [a]) = ([Usage argv0], Stop (Exit 0)).
Proof.
  intros Hp Ha. unfold program. rewrite main_stages.
  destruct (parse_args_pairs w argv0 [a] (S (List.length pre)) pre
              ltac:(lia) Hp (F32.of_Z 2) 50 "") as (r' & k' & o' & ->).
  cbn [parse_args]. fold (is_help a) (is_file a) (is_knn a) (is_radius a).
  apply orb_true_iff in Ha. destruct Ha as [Ha|Ha].
  - apply orb_true_iff in Ha. destruct Ha as [Ha|Ha].
    + rewrite (is_file_not_help a Ha), Ha. reflexivity.
    + destruct (is_knn_not_others a Ha) as [-> ->]. rewrite Ha. reflexivity.
  - destruct (is_radius_not_others a Ha) as (-> & -> & ->). rewrite Ha.
    reflexivity.
Qed.

End MainMore.

Lemma first_line_too_long_exits_with_usage_witness :
  program (Examples.world_of
             (Some [String.concat "" (repeat "0123456789abcdef" 64); "1,2,3"])
             false [])
          "prog" ["-f"; "pts"]
  = ([] ++ [Usage "prog"], Stop (Exit 0)).
Proof.
  apply (first_line_too_long_exits_with_usage
           (Examples.world_of
              (Some [String.concat "" (repeat "0123456789abcdef" 64); "1,2,3"])
              false [])
           "prog" ["-f"; "pts"] [] (F32.of_Z 2) 50 "pts"
           (String.concat "" (repeat "0123456789abcdef" 64)) ["1,2,3"]).
  - vm_compute. reflexivity.
  - vm_compute. reflexivity.
  - vm_compute. reflexivity.
Defined.

Lemma dimension_above_max_exits_with_usage_witness :
  program (Examples.world_of
             (Some ["1,2,3,4,5,6,7,8,9,10,11,12,13"]) false [])
          "prog" ["-f"; "pts"]
  = ([] ++ [Usage "prog"], Stop (Exit 0)).
Proof.
  apply (dimension_above_max_exits_with_usage
           (Examples.world_of
              (Some ["1,2,3,4,5,6,7,8,9,10,11,12,13"]) false [])
           "prog" ["-f"; "pts"] [] (F32.of_Z 2) 50 "pts" 13
           "1,2,3,4,5,6,7,8,9,10,11,12,13" []).
  - vm_compute. reflexivity.
  - vm_compute. reflexivity.
  - vm_compute. reflexivity.
  - repeat constructor; eexists; vm_compute; reflexivity.
  - vm_compute. reflexivity.
Defined.

Lemma option_without_value_exits_with_usage_witness :
  program (Examples.world_of None false []) "prog" (["-r"; "3"] ++ ["--knn"])
  = ([Usage "prog"], Stop (Exit 0)).
Proof.
  apply (option_without_value_exits_with_usage
           (Examples.world_of None false []) "prog" ["-r"; "3"] "--knn").
  - vm_compute. reflexivity.
  - vm_compute. reflexivity.
Defined.

(** ** The sanity check: bounds and the empty result *)

Section CheckMore.

Lemma reported_length (slots : list (option Z)) :
  (List.length (reported slots) <= List.length slots)%nat.
Proof.
  induction slots as [|[p|] slots IH]; cbn [reported List.length]; try lia.
  destruct (p =? U32.UINT_MAX); cbn [List.length]; lia.
Qed.

Lemma entries_from_length (data : Dev.memory) (knn : Z) (n : nat) :
  forall q,
    (List.length (entries_from data knn q n) <= n * Z.to_nat knn)%nat.
Proof.
  induction n as [|n IH]; intros q; cbn [entries_from List.length]; [lia|].
  rewrite length_app, length_map.
  pose proof (reported_length (Dev.row data knn q)) as Hr.
  unfold Dev.row in Hr at 2. rewrite length_map, length_seq in Hr.
  specialize (IH (q + 1)). lia.
Qed.

Lemma filter_length_bound {A : Type} (f : A -> bool) (l : list A) :
  (List.length (filter f l) <= List.length l)%nat.
Proof.
  induction l as [|a l IH]; cbn [filter List.length]; [lia|].
  destruct (f a); cbn [List.length]; lia.
Qed.

(** X10: The counters of the check obey the capacity: on a readable buffer with
    valid entries, wrong neighbours <= neighbours <= numPrims * knn, so the
    reported average number of neighbours per query never exceeds [knn]. *)
Theorem check_counters_bounded (data : Dev.memory) (state : WhittedState) :
  let p := params state in
  let nd := ndpoints state in
  U32.in_range (knn p) -> 1 <= numPrims p < U32.modulus ->
  numPrims p * knn p < U32.modulus ->
  (forall q, 0 <= q < numPrims p ->
             Forall (fun s => s <> None) (Dev.row data (knn p) q)) ->
  Forall (checkable nd) (entries data (knn p) (numPrims p)) ->
  exists t st,
    check_rows (Z.to_nat (numPrims p)) 0 data nd (radius p) (knn p)
               (make_stats 0 0 (S754_zero false)) = (t, Ret st) /\
    0 <= totalWrongNeighbors st <= totalNeighbors st /\
    totalNeighbors st <= numPrims p * knn p /\
    totalNeighbors st / numPrims p <= knn p.
Proof.
  intros p nd HK H1 Hb Hsome Hchk.
  assert (HN : U32.in_range (numPrims p)).
  { unfold U32.in_range. lia. }
  pose proof (check_rows_entries data nd (radius p) (knn p) HK (numPrims p) HN
                (Z.to_nat (numPrims p)) 0 (make_stats 0 0 (S754_zero false))
                ltac:(lia)) as Hrows.
  rewrite entries_from_0 in Hrows.
  specialize (Hrows ltac:(unfold U32.in_range in HN; lia)
                    ltac:(intros q' Hq'; apply Hsome; lia) Hchk).
  destruct (fold_step_totals nd (radius p) (entries data (knn p) (numPrims p))
                             (make_stats 0 0 (S754_zero false)))
    as (Ha & Hw & _).
  { cbn. unfold U32.in_range, U32.modulus. lia. }
  { cbn. unfold U32.in_range, U32.modulus. lia. }
  cbn [totalNeighbors totalWrongNeighbors Z.add] in Ha, Hw.
  eexists _, _. split; [exact Hrows|].
  pose proof (entries_from_length data (knn p) (Z.to_nat (numPrims p)) 0) as Hlen.
  rewrite entries_from_0 in Hlen.
  pose proof (filter_length_bound (is_wrong nd (radius p))
                (entries data (knn p) (numPrims p))) as Hf.
  set (es := entries data (knn p) (numPrims p)) in *.
  assert (Hes : Z.of_nat (List.length es) <= numPrims p * knn p).
  { unfold U32.in_range in HK.
    apply Nat2Z.inj_le in Hlen. rewrite Nat2Z.inj_mul, !Z2Nat.id in Hlen by lia.
    exact Hlen. }
  rewrite Ha, Hw. unfold U32.u32.
  rewrite !Z.mod_small by lia.
  repeat split; try lia.
  apply Z.div_le_upper_bound; lia.
Qed.

Variables (data : Dev.memory) (nd : ndarray) (radius : float) (knn : Z).



End CheckMore.


Lemma check_counters_bounded_witness :
  exists t st,
    check_rows 2 0 (Samples.buffer_of 2 1 [(0, 1); (1, 0)])
               [[Samples.pt 0 0 0; Samples.pt 3 0 0]] (F32.of_Z 2) 1
               (make_stats 0 0 (S754_zero false)) = (t, Ret st) /\
    0 <= totalWrongNeighbors st <= totalNeighbors st /\
    totalNeighbors st <= 2 * 1 /\
    totalNeighbors st / 2 <= 1.
Proof.
  apply (check_counters_bounded (Samples.buffer_of 2 1 [(0, 1); (1, 0)])
                                Samples.far_pair).
  - vm_compute. split; [discriminate|reflexivity].
  - vm_compute. split; [discriminate|reflexivity].
  - vm_compute. reflexivity.
  - intros q Hq. assert (q = 0 \/ q = 1) as [-> | ->] by (cbn in Hq; lia);
      vm_compute; repeat constructor; discriminate.
  - assert (He : entries (Samples.buffer_of 2 1 [(0, 1); (1, 0)])
                         (knn (params Samples.far_pair))
                         (numPrims (params Samples.far_pair))
                 = [(0, 1); (1, 0)]) by (vm_compute; reflexivity).
    rewrite He.
    repeat apply Forall_cons; try apply Forall_nil;
      exists (F32.of_Z 9); vm_compute; reflexivity.
Defined.


(** ** How a run can end *)

Section Outcomes.

Variable w : world.

Lemma outcome_in_bind {A B : Type} (P : stop -> Prop) (Q' : A -> Prop)
      (Q : B -> Prop) (m : M A) (f : A -> M B) :
  outcome_in P Q' m -> (forall a, Q' a -> outcome_in P Q (f a)) ->
  outcome_in P Q (bind m f).
Proof.
  unfold outcome_in. destruct m as [t [a|s]]; cbn [snd bind]; intros Hm Hf.
  - specialize (Hf a Hm). destruct (f a) as [t' r]. exact Hf.
  - exact Hm.
Qed.

Lemma outcome_in_any {A : Type} (P : stop -> Prop) (Q : A -> Prop) (m : M A) :
  outcome_in P Q m -> outcome_in P (fun _ => True) m.
Proof. unfold outcome_in. destruct (snd m); auto. Qed.

Lemma outcome_check (c : call) :
  outcome_in backend_or_bounds (fun _ => True) (check w c).
Proof.
  unfold check, outcome_in, backend_or_bounds. destruct (w_ok w c); cbn; auto.
Qed.

Lemma outcome_emit (P : stop -> Prop) (e : event) :
  outcome_in P (fun _ => True) (emit e).
Proof. exact I. Qed.

Lemma outcome_upload_batches (n : nat) :
  forall b, outcome_in backend_or_bounds (fun _ => True) (upload_batches w n b).
Proof.
  induction n as [|n IH]; intros b; cbn [upload_batches]; [exact I|].
  eapply outcome_in_bind; [apply outcome_check|]. intros _ _. apply IH.
Qed.

Lemma outcome_build_batches (state : WhittedState) (n : nat) :
  forall b handles,
    outcome_in backend_or_bounds (fun _ => True)
               (build_batches w n b state handles).
Proof.
  induction n as [|n IH]; intros b handles; cbn [build_batches]; [exact I|].
  eapply outcome_in_bind; [apply outcome_check|]. intros _ _.
  eapply outcome_in_bind; [apply outcome_check|]. intros _ _.
  eapply outcome_in_bind; [apply outcome_emit|]. intros _ _. apply IH.
Qed.

Lemma outcome_createGeometry (state : WhittedState) :
  outcome_in backend_or_bounds (fun _ => True) (createGeometry w state).
Proof.
  unfold createGeometry.
  eapply outcome_in_bind; [apply outcome_upload_batches|]. intros _ _.
  eapply outcome_in_bind; [apply outcome_build_batches|]. intros h _.
  exact I.
Qed.

Lemma outcome_setup (state : WhittedState) :
  outcome_in backend_or_bounds (fun _ => True) (setup w state).
Proof.
  unfold setup.
  eapply outcome_in_bind; [apply outcome_check|]. intros _ _.
  eapply outcome_in_bind; [apply outcome_check|]. intros _ _.
  eapply outcome_in_bind; [apply outcome_createGeometry|]. intros st _.
  eapply outcome_in_bind; [apply outcome_check|]. intros _ _.
  eapply outcome_in_bind; [apply outcome_check|]. intros _ _.
  exact I.
Qed.

Lemma store_u32_stop (m : Dev.memory) (i v : Z) (s : stop) :
  Dev.store_u32 m i v = Stop s -> s = Undefined.
Proof.
  unfold Dev.store_u32.
  destruct ((i <? 0) || (Z.of_nat (List.length m) <? 4 * i + 4));
    [congruence|discriminate].
Qed.

Lemma apply_stores_stop (stores : list (Z * Z)) :
  forall (m : Dev.memory) (s : stop),
    Dev.apply_stores m stores = Stop s -> s = Undefined.
Proof.
  induction stores as [|[i v] rest IH]; intros m s; cbn [Dev.apply_stores];
    [discriminate|].
  destruct (Dev.store_u32 m i v) as [m'|s'] eqn:E; cbn [rbind].
  - apply IH.
  - intros H. apply store_u32_stop in E. congruence.
Qed.

Lemma outcome_launchSubframe (output_buffer : Dev.memory)
      (state : WhittedState) (b : Z) :
  outcome_in backend_or_bounds (fun _ => True)
             (launchSubframe w output_buffer state b).
Proof.
  destruct state as [p handles nd d nbatch]. cbn [launchSubframe].
  eapply outcome_in_bind; [apply outcome_check|]. intros _ _.
  eapply outcome_in_bind with (Q' := fun _ => True).
  { unfold lift, outcome_in, Dev.cudaMemset. cbn [snd].
    destruct (_ || _); [right; reflexivity|exact I]. }
  intros m _.
  eapply outcome_in_bind; [apply outcome_check|]. intros _ _.
  eapply outcome_in_bind; [apply outcome_check|]. intros _ _.
  eapply outcome_in_bind; [apply outcome_emit|]. intros _ _.
  eapply outcome_in_bind with (Q' := fun _ => True).
  { unfold lift, outcome_in. cbn [snd].
    destruct (Dev.apply_stores m _) as [m'|s] eqn:E; [exact I|].
    right. eapply apply_stores_stop. exact E. }
  intros m' _.
  eapply outcome_in_bind; [apply outcome_check|]. intros _ _.
  exact I.
Qed.

Lemma nd_load_stop (nd : ndarray) (b i : Z) (s : stop) :
  nd_load nd b i = Stop s -> s = Undefined.
Proof.
  unfold nd_load. destruct ((b <? 0) || (i <? 0)); [congruence|].
  destruct (nth_error nd (Z.to_nat b)) as [col|]; [|congruence].
  destruct (nth_error col (Z.to_nat i)); [discriminate|congruence].
Qed.

Lemma account_stop (nd : ndarray) (r : float) (q : Z) (st : stats) (p : Z)
      (s : stop) :
  account nd r q st p = Stop s -> s = Undefined.
Proof.
  unfold account, sq_dist.
  destruct (nd_load nd 0 p) as [a|s1] eqn:Ea; cbn [rbind].
  2:{ intros H. apply nd_load_stop in Ea. congruence. }
  destruct (nd_load nd 0 q) as [c|s2] eqn:Ec; cbn [rbind].
  2:{ intros H. apply nd_load_stop in Ec. congruence. }
  destruct (dot (float3_sub a c) (float3_sub a c)); cbn [rbind].
  - destruct (F32.gt _ _); discriminate.
  - congruence.
Qed.

Lemma outcome_check_row (data : Dev.memory) (nd : ndarray) (r : float)
      (k q : Z) (n : nat) :
  forall j st,
    outcome_in backend_or_bounds (fun _ => True)
               (check_row n j data nd r k q st).
Proof.
  induction n as [|n IH]; intros j st; cbn [check_row]; [exact I|].
  eapply outcome_in_bind with (Q' := fun _ => True).
  { unfold lift, outcome_in, host_load. cbn [snd].
    destruct (Dev.load_u32 data _); [exact I|right; reflexivity]. }
  intros p _. destruct (p =? U32.UINT_MAX); [exact I|].
  eapply outcome_in_bind with (Q' := fun _ => True).
  { unfold lift, outcome_in. cbn [snd].
    destruct (account nd r q st p) as [st'|s] eqn:E; [exact I|].
    right. eapply account_stop. exact E. }
  intros st' _.
  eapply outcome_in_bind; [apply outcome_emit|]. intros _ _. apply IH.
Qed.

Lemma outcome_check_rows (data : Dev.memory) (nd : ndarray) (r : float)
      (k : Z) (n : nat) :
  forall q st,
    outcome_in backend_or_bounds (fun _ => True)
               (check_rows n q data nd r k st).
Proof.
  induction n as [|n IH]; intros q st; cbn [check_rows]; [exact I|].
  eapply outcome_in_bind; [apply outcome_check_row|]. intros st' _.
  eapply outcome_in_bind; [apply outcome_emit|]. intros _ _. apply IH.
Qed.

Lemma outcome_udiv (a b : Z) :
  outcome_in backend_or_bounds (fun _ => True) (lift (udiv a b)).
Proof.
  unfold lift, outcome_in, udiv. cbn [snd].
  destruct (b =? 0); [right; reflexivity|exact I].
Qed.

Lemma outcome_sanity_check (data : Dev.memory) (state : WhittedState) :
  outcome_in backend_or_bounds (fun _ => True) (sanity_check data state).
Proof.
  unfold sanity_check.
  eapply outcome_in_bind; [apply outcome_check_rows|]. intros st _.
  unfold report.
  eapply outcome_in_bind; [apply outcome_emit|]. intros _ _.
  eapply outcome_in_bind; [apply outcome_udiv|]. intros a _.
  eapply outcome_in_bind; [apply outcome_emit|]. intros _ _.
  eapply outcome_in_bind; [apply outcome_udiv|]. intros b _.
  eapply outcome_in_bind; [apply outcome_emit|]. intros _ _.
  destruct (negb _); exact I.
Qed.

Lemma outcome_try_block (state : WhittedState) :
  outcome_in backend_or_bounds (fun c => c = 0) (try_block w state).
Proof.
  unfold try_block.
  eapply outcome_in_bind; [apply outcome_setup|]. intros st _.
  eapply outcome_in_bind with (Q' := fun _ => True).
  { unfold do_the_work.
    eapply outcome_in_bind; [apply outcome_check|]. intros _ _.
    apply outcome_launchSubframe. }
  intros [data st'] _.
  eapply outcome_in_bind with (Q' := fun _ => True).
  { unfold check_the_work.
    eapply outcome_in_bind; [apply outcome_check|]. intros _ _.
    apply outcome_sanity_check. }
  intros _ _.
  eapply outcome_in_bind; [apply outcome_check|]. intros _ _.
  reflexivity.
Qed.

Lemma parse_args_stop_kind (argv0 : string) (n : nat) :
  forall (args : list string) (r : float) (k : Z) (o : string)
         (t : list event) (s : stop),
    (List.length args <= n)%nat ->
    parse_args w argv0 args r k o = (t, Stop s) ->
    (s = Exit 0 /\ exists t', t = t' ++ [Usage argv0]) \/
    (exists e, s = Throw e).
Proof.
  induction n as [|n IH]; intros args r k o t s Hlen.
  - destruct args; [discriminate|cbn [List.length] in Hlen; lia].
  - destruct args as [|a rest]; [discriminate|].
    cbn [parse_args]. cbn [List.length] in Hlen.
    assert (Husage : forall t0, (t0 ++ [Usage argv0], Stop (Exit 0))
                                = (t, @Stop (float * Z * string) s) ->
                                (s = Exit 0 /\
                                 exists t', t = t' ++ [Usage argv0]) \/
                                (exists e, s = Throw e)).
    { intros t0 H. injection H as <- <-. left. split; [reflexivity|].
      exists t0. reflexivity. }
    destruct ((a =? "--help")%string || (a =? "-h")%string).
    { apply (Husage []). }
    destruct ((a =? "--file")%string || (a =? "-f")%string).
    { destruct rest as [|v rest']; [apply (Husage [])|].
      apply IH. cbn [List.length] in Hlen. lia. }
    destruct ((a =? "--knn")%string || (a =? "-k")%string).
    { destruct rest as [|v rest']; [apply (Husage [])|].
      apply IH. cbn [List.length] in Hlen. lia. }
    destruct ((a =? "--radius")%string || (a =? "-r")%string).
    { destruct rest as [|v rest']; [apply (Husage [])|].
      destruct (w_stof w v) as [e|f].
      - intros H. injection H as <- <-. right. exists e. reflexivity.
      - apply IH. cbn [List.length] in Hlen. lia. }
    apply (Husage [UnknownOption a]).
Qed.

Lemma tokenize_stop (s : string) (ndpoints : option ndarray) (lineId : Z)
      (st : stop) :
  tokenize (w_stof w) (w_ndebug w) s "," ndpoints lineId = Stop st ->
  (exists e, st = Throw e) \/ st = Undefined.
Proof.
  rewrite tokenize_fields.
  destruct (parse_all (w_stof w) (fields s)) as [vs|st'] eqn:Hp; cbn [rbind].
  2:{ intros H. left. apply parse_all_stop in Hp. destruct Hp as [e ->].
      exists e. congruence. }
  destruct ndpoints as [nd|]; [|discriminate].
  destruct (store_batches _ 0 vs nd lineId) as [nd'|st'] eqn:Hs; cbn [rbind];
    [discriminate|].
  intros H. right. apply store_batches_stop in Hs. congruence.
Qed.

Lemma count_lines_stop (stream : list string) :
  forall (lines dim : Z) (st : stop),
    count_lines (w_stof w) (w_ndebug w) stream lines dim = Stop st ->
    (exists e, st = Throw e) \/ st = Undefined.
Proof.
  induction stream as [|l stream IH]; intros lines dim st;
    cbn [count_lines]; [discriminate|].
  destruct (getline_ok l); [|discriminate].
  destruct (lines =? 0).
  - destruct (tokenize _ _ l "," None 0) as [[d o]|s] eqn:E; cbn [rbind].
    + apply IH.
    + intros H. apply tokenize_stop in E.
      assert (s = st) as <- by congruence. exact E.
  - cbn [rbind]. apply IH.
Qed.

Lemma fill_lines_stop (stream : list string) :
  forall (lines : Z) (nd : ndarray) (st : stop),
    fill_lines (w_stof w) (w_ndebug w) stream lines nd = Stop st ->
    (exists e, st = Throw e) \/ st = Undefined.
Proof.
  induction stream as [|l stream IH]; intros lines nd st;
    cbn [fill_lines]; [discriminate|].
  destruct (getline_ok l); [|discriminate].
  destruct (tokenize _ _ l "," (Some nd) lines) as [[d o]|s] eqn:E;
    cbn [rbind].
  - apply IH.
  - intros H. apply tokenize_stop in E.
    assert (s = st) as <- by congruence. exact E.
Qed.

Lemma read_points_stop (data_file : string) (t : list event) (st : stop) :
  read_points w data_file = (t, Stop st) -> ingestion_stop st.
Proof.
  unfold read_points, read_pc_data, ingestion_stop.
  destruct (w_open w data_file) as [ls|].
  - rewrite bind_ret_l. unfold lift. cbn [rbind].
    destruct (count_lines _ _ ls 0 0) as [[lines dim]|s] eqn:Ec; cbn [rbind].
    + destruct (fill_lines _ _ ls 0 _) as [nd|s] eqn:Ef; cbn [rbind];
        [discriminate|].
      intros H. apply fill_lines_stop in Ef.
      destruct Ef as [[e ->]| ->]; [left; exists e|right; left]; congruence.
    + intros H. apply count_lines_stop in Ec.
      destruct Ec as [[e ->]| ->]; [left; exists e|right; left]; congruence.
  - unfold emit. rewrite bind_trace. unfold lift, assert.
    destruct (w_ndebug w); cbn [rbind count_lines fill_lines fst snd];
      [discriminate|].
    intros H. right. right. congruence.
Qed.

(** X12: However a run ends, it ends in one of these ways: [main] returns 0;
    [main] returns 1, and then "Caught exception" is the last thing written;
    the process exits through [printUsageAndExit], with code 0 and the usage
    text last; or it dies (abort, or an access outside an array).  So [exit]
    is only ever called with code 0, the only other status [main] returns is
    the handler's 1, no exception leaves [main] as such, and the scanning
    loop of [tokenize] never runs out of fuel. *)
Theorem program_outcomes (argv0 : string) (args : list string) :
  match snd (program w argv0 args) with
  | Ret c =>
      c = 0 \/
      (c = 1 /\ exists t, fst (program w argv0 args) = t ++ [Caught])
  | Stop (Exit c) =>
      c = 0 /\ exists t, fst (program w argv0 args) = t ++ [Usage argv0]
  | Stop Abort | Stop Undefined => True
  | Stop (Throw _) | Stop OutOfFuel => False
  end.
Proof.
  unfold program. rewrite main_stages.
  destruct (parse_args w argv0 args (F32.of_Z 2) 50 "")
    as [t0 [[[r k] o]|s]] eqn:Hp.
  2:{ destruct (parse_args_stop_kind argv0 (List.length args) args _ _ _ _ _
                  (le_n _) Hp) as [[-> [t' ->]]|[e ->]]; cbn.
      - split; [reflexivity|]. exists t'. reflexivity.
      - exact I. }
  destruct (read_points w o) as [t1 [[[nd N] d]|s]] eqn:Hr.
  2:{ destruct (read_points_stop o t1 s Hr) as [[e ->]|[->| ->]]; exact I. }
  destruct ((d <=? 0) || (w_max_dim w <? d)).
  { cbn. split; [reflexivity|]. exists (t0 ++ t1).
    rewrite app_assoc. reflexivity. }
  cbv zeta.
  pose proof (outcome_try_block (entry_state r k nd N d)) as Ht.
  unfold outcome_in in Ht.
  destruct (try_block w (entry_state r k nd N d)) as [tt [c|s]];
    cbn [snd] in Ht.
  - cbn. left. exact Ht.
  - destruct Ht as [-> | ->]; cbn.
    + right. split; [reflexivity|].
      exists (t0 ++ t1 ++ Settings d (Z.quot d 3) N r k :: tt).
      rewrite <- !app_assoc. cbn [app]. reflexivity.
    + exact I.
Qed.

End Outcomes.

(** ** The output buffer of a launch *)

Lemma cudaMemset_whole (garbage : nat -> Z) (count value : Z) :
  0 <= count ->
  Dev.cudaMemset (Dev.fresh garbage count) value (count * 4)
  = Ret (repeat (value mod 256) (Z.to_nat (4 * count))).
Proof.
  intros Hc. unfold Dev.cudaMemset. rewrite fresh_length.
  replace (count * 4 <? 0) with false by (symmetry; apply Z.ltb_ge; lia).
  replace (Z.of_nat (Z.to_nat (4 * count)) <? count * 4) with false
    by (symmetry; apply Z.ltb_ge; lia).
  cbn [orb]. replace (count * 4) with (4 * count) by lia.
  rewrite skipn_all2 by (rewrite fresh_length; lia).
  now rewrite app_nil_r.
Qed.

Lemma bind_ext {A B : Type} (m : M A) (f g : A -> M B) :
  (forall a, f a = g a) -> bind m f = bind m g.
Proof.
  intros H. destruct m as [t [a|s]]; cbn [bind]; [|reflexivity].
  now rewrite H.
Qed.

Lemma do_the_work_garbage (w : world) (garbage : nat -> Z)
      (state : WhittedState) :
  do_the_work (with_garbage w garbage) state = do_the_work w state.
Proof.
  assert (Hpos : 0 <= U32.mul (numPrims (params state)) (knn (params state))).
  { unfold U32.mul, U32.u32. apply Z.mod_pos_bound. reflexivity. }
  destruct state as [p handles nd d nbatch]. cbn [params] in Hpos.
  unfold do_the_work. cbn [launchSubframe params w_garbage with_garbage].
  rewrite !cudaMemset_whole by exact Hpos. reflexivity.
Qed.

Lemma try_block_garbage (w : world) (garbage : nat -> Z)
      (state : WhittedState) :
  try_block (with_garbage w garbage) state = try_block w state.
Proof.
  unfold try_block.
  change (setup (with_garbage w garbage) state) with (setup w state).
  apply bind_ext. intros st. rewrite do_the_work_garbage. reflexivity.
Qed.

(** X13: A run does not depend on what the fresh allocation of the output
    buffer held: [cudaMemsetAsync] in [launchSubframe] covers exactly the
    [numPrims * knn] elements that [main] allocated (the same wrapped
    product on both sides), so no uninitialised device memory reaches the
    check, what is written, or the status. *)
Theorem program_ignores_garbage (w : world) (garbage : nat -> Z)
        (argv0 : string) (args : list string) :
  program (with_garbage w garbage) argv0 args = program w argv0 args.
Proof.
  unfold program. f_equal. unfold main.
  change (parse_args (with_garbage w garbage)) with (parse_args w).
  apply bind_ext. intros [[r k] outfile].
  change (read_points (with_garbage w garbage)) with (read_points w).
  apply bind_ext. intros [[nd N] d]. cbv zeta.
  change (w_max_dim (with_garbage w garbage)) with (w_max_dim w).
  apply bind_ext. intros _. apply bind_ext. intros _.
  now rewrite try_block_garbage.
Qed.

(** ** What [read_pc_data] returns when nothing is read *)

Section ReadNothing.

Variable stof : string -> exn + float.
Variable NDEBUG : bool.

Lemma count_lines_count (rows : list string) :
  forall (lines dim l' d' : Z),
    1 <= lines -> lines + Z.of_nat (List.length rows) < U32.modulus ->
    count_lines stof NDEBUG rows lines dim = Ret (l', d') -> lines <= l'.
Proof.
  induction rows as [|r rows IH]; intros lines dim l' d' H1 Hb H;
    cbn [count_lines] in H.
  - apply Ret_inj in H. assert (l' = lines) by congruence. lia.
  - destruct (getline_ok r).
    2:{ apply Ret_inj in H. assert (l' = lines) by congruence. lia. }
    replace (lines =? 0) with false in H by (symmetry; apply Z.eqb_neq; lia).
    cbn [rbind] in H. cbn [List.length] in Hb.
    rewrite incr_small in H by lia.
    apply IH in H; lia.
Qed.

(** X14: [*d] is 0 exactly when [*N] is 0, and that happens exactly when no line
    could be read: the file did not open (and [assert] is compiled out), it
    is empty, or its first line does not fit the 1024-byte buffer.  This is
    what the test [state.dim <= 0] of [main] detects. *)
Theorem read_pc_data_dim_zero_iff (file : option (list string))
        (nd : ndarray) (N d : Z) :
  Z.of_nat (List.length (match file with Some ls => ls | None => [] end))
  < U32.modulus ->
  read_pc_data stof NDEBUG file = Ret (nd, N, d) ->
  (d = 0 <-> N = 0) /\
  (N = 0 <-> match file with
             | Some (l :: _) => getline_ok l = false
             | _ => True
             end).
Proof.
  intros Hb H. unfold read_pc_data in H.
  assert (Hzero : forall (x : ndarray),
             Ret (x, 0, 0) = Ret (nd, N, d) -> N = 0 /\ d = 0).
  { intros x Hx. apply Ret_inj in Hx. split; congruence. }
  destruct file as [[|l ls]|].
  - cbn [rbind count_lines fill_lines] in H. apply Hzero in H.
    destruct H as [-> ->]. tauto.
  - cbn [rbind count_lines] in H.
    destruct (getline_ok l) eqn:Hg.
    + change (0 =? 0) with true in H. cbv iota in H.
      rewrite tokenize_fields in H.
      destruct (parse_all stof (fields l)) as [vs|s]; cbn [rbind] in H;
        [|discriminate].
      change (U32.incr 0) with 1 in H.
      destruct (count_lines stof NDEBUG ls 1 (3 * ceil3 (num_fields l)))
        as [[l' d']|s] eqn:Ec; cbn [rbind] in H; [|discriminate].
      destruct (fill_lines _ _ _ _ _) as [x|s] in H; cbn [rbind] in H;
        [|discriminate].
      apply Ret_inj in H.
      assert (N = l' /\ d = d') as [-> ->] by (split; congruence).
      cbn [List.length] in Hb.
      pose proof (count_lines_dim stof NDEBUG ls 1 _ l' d' ltac:(lia)
                                  ltac:(lia) Ec) as ->.
      pose proof (count_lines_count ls 1 _ l' _ ltac:(lia) ltac:(lia) Ec).
      pose proof (ceil3_pos _ (num_fields_pos l)).
      repeat split; intros; try lia; discriminate.
    + cbn [rbind fill_lines] in H. rewrite Hg in H. apply Hzero in H.
      destruct H as [-> ->]. tauto.
  - unfold assert in H. destruct NDEBUG; cbn [rbind count_lines fill_lines] in H.
    + apply Hzero in H. destruct H as [-> ->]. tauto.
    + discriminate.
Qed.

End ReadNothing.

(** ** The boxes of a padded batch *)

Section PaddedBoxes.

Variable w : world.

Lemma build_batches_trace (state : WhittedState) (n : nat) :
  forall (b : Z) (handles : list Z),
    gas_ok w b n = true ->
    fst (build_batches w n b state handles)
    = map (fun i => GasBuild i (boxes state i)) (zrange b n).
Proof.
  induction n as [|n IH]; intros b handles Hok; [reflexivity|].
  unfold gas_ok in Hok. cbn [zrange forallb] in Hok.
  apply andb_true_iff in Hok. destruct Hok as [Hb Hrest].
  apply andb_true_iff in Hb. destruct Hb as [Hu Hg].
  cbn [build_batches zrange map]. unfold check. rewrite Hu, Hg.
  rewrite !bind_ret_l. unfold emit. rewrite bind_trace. cbn [fst app].
  f_equal. apply IH. exact Hrest.
Qed.

Lemma coords_length (D : Z) (r : string) :
  row_ok (w_stof w) D r -> Z.of_nat (List.length (coords (w_stof w) r)) = D.
Proof.
  intros (_ & HD & vs & Hp). unfold coords. rewrite Hp.
  rewrite (parse_all_length _ _ _ Hp). exact HD.
Qed.

(** X15: When the number of coordinates per point is not a multiple of 3, the
    boxes [createGeometry] hands to [buildGas] for the last batch are built
    from the padding: one box per point, each with indeterminate lower and
    upper z bounds. *)
Theorem padded_batch_boxes_indeterminate (r : float) (k D : Z) (r0 : string)
        (rows : list string) (nd : ndarray) (N d : Z) :
  Z.of_nat (List.length (r0 :: rows)) < U32.modulus ->
  Forall (row_ok (w_stof w) D) (r0 :: rows) ->
  D mod 3 <> 0 ->
  read_pc_data (w_stof w) (w_ndebug w) (Some (r0 :: rows)) = Ret (nd, N, d) ->
  geometry_ok w (loaded r k nd N d) = true ->
  exists t1 bs,
    fst (createGeometry w (loaded r k nd N d))
    = t1 ++ [GasBuild (ceil3 D - 1) bs] /\
    List.length bs = List.length (r0 :: rows) /\
    Forall (fun b => minZ b = Indet /\ maxZ b = Indet) bs.
Proof.
  intros Hb Hok HD Hread Hgeo.
  rewrite (read_pc_data_table (w_stof w) (w_ndebug w) D r0 rows Hb Hok)
    in Hread.
  apply Ret_inj in Hread.
  assert (Hnd : nd = table (Z.to_nat (ceil3 D))
                           (map (coords (w_stof w)) (r0 :: rows)) 0)
    by congruence.
  assert (HN : N = Z.of_nat (List.length (r0 :: rows))) by congruence.
  assert (Hd : d = 3 * ceil3 D) by congruence.
  clear Hread.
  assert (HDpos : 1 <= D).
  { inversion Hok as [|? ? (_ & HD0 & _) _].
    rewrite <- HD0. apply num_fields_pos. }
  pose proof (ceil3_pos _ HDpos) as Hc.
  assert (Hbatch : batch (loaded r k nd N d) = ceil3 D).
  { unfold loaded. cbn [batch]. rewrite Hd.
    rewrite Z.quot_div_nonneg by lia.
    rewrite Z.mul_comm. apply Z.div_mul. lia. }
  unfold geometry_ok in Hgeo. apply andb_true_iff in Hgeo.
  destruct Hgeo as [Hup Hgas]. rewrite Hbatch in Hup, Hgas.
  unfold createGeometry. rewrite Hbatch, upload_batches_run, Hup.
  change (@pair (list event) (res unit) [] (Ret tt)) with (ret tt).
  rewrite bind_ret_l, bind_fst.
  rewrite (build_batches_trace _ _ 0 [] Hgas).
  assert (Htail : forall (m : M (list Z)),
             match snd m with
             | Ret a =>
                 fst (ret (make_state
                             (set_points (params (loaded r k nd N d))
                                         (ndpoints (loaded r k nd N d)))
                             a (ndpoints (loaded r k nd N d))
                             (dim (loaded r k nd N d)) (ceil3 D)))
             | Stop _ => []
             end = []).
  { intros m. destruct (snd m); reflexivity. }
  rewrite Htail, app_nil_r.
  destruct (Z.to_nat (ceil3 D)) as [|m] eqn:Hm; [lia|].
  rewrite zrange_snoc, map_app. cbn [map].
  assert (Hlast : 0 + Z.of_nat m = ceil3 D - 1) by lia.
  rewrite Hlast.
  eexists _, _. split; [reflexivity|].
  unfold boxes, loaded. cbn [params numPrims radius ndpoints].
  assert (Hcol : nth (Z.to_nat (ceil3 D - 1)) nd []
                 = map (fun vs => triple vs (ceil3 D - 1))
                       (map (coords (w_stof w)) (r0 :: rows))).
  { apply nth_error_nth. rewrite Hnd, ?Hm.
    rewrite nth_error_table by lia.
    rewrite Z2Nat.id by lia. reflexivity. }
  rewrite Hcol, HN, Nat2Z.id.
  rewrite firstn_all2 by (rewrite !length_map; lia).
  split; [now rewrite !length_map|].
  rewrite !Forall_map.
  eapply Forall_impl; [|exact Hok].
  intros row Hrow. cbn beta.
  pose proof (coords_length D row Hrow) as Hlen.
  pose proof (last_triple_padded (coords (w_stof w) row)) as Hz.
  cbv zeta in Hz. rewrite Hlen in Hz. specialize (Hz HD).
  unfold sphere_bound, fsub_scalar, fadd_scalar. cbn [minZ maxZ].
  rewrite Hz. split; reflexivity.
Qed.

End PaddedBoxes.

(** ** A run that returns 0 *)

Section ReturnZero.

Variable w : world.

Lemma bind_Ret_inv {A B : Type} (m : M A) (f : A -> M B) (t : list event)
      (b : B) :
  bind m f = (t, Ret b) ->
  exists t1 a t2, m = (t1, Ret a) /\ f a = (t2, Ret b) /\ t = t1 ++ t2.
Proof.
  destruct m as [t1 [a|s]]; cbn [bind]; [|discriminate].
  destruct (f a) as [t2 rb] eqn:E. intros H.
  assert (t = t1 ++ t2) by congruence.
  assert (rb = Ret b) by congruence. subst.
  exists t1, a, t2. auto.
Qed.

Lemma check_Ret (c : call) (t : list event) (u : unit) :
  check w c = (t, Ret u) -> t = [].
Proof.
  unfold check. destruct (w_ok w c); [|discriminate].
  intros H. unfold ret in H. congruence.
Qed.

Lemma report_Ret (numPrims : Z) (st : stats) (t : list event) (u : unit) :
  report numPrims st = (t, Ret u) ->
  exists a b t',
    t = SanityDone :: AvgNeighbors a :: AvgWrongNeighbors b :: t' /\
    (t' = [] \/ exists x, t' = [AvgWrongDist x]).
Proof.
  unfold report, udiv, emit, lift.
  destruct (numPrims =? 0).
  { rewrite bind_trace, bind_stop. discriminate. }
  rewrite !bind_trace. cbn [fst snd app].
  destruct (negb (totalWrongNeighbors st =? 0)); cbn [fst snd ret app];
    intros H; apply (f_equal fst) in H; cbn [fst] in H; subst t;
    eexists _, _, _; (split; [reflexivity|]);
    [right; eexists; reflexivity|left; reflexivity].
Qed.

(** X16: When [main] returns 0, the whole [try] block ran: the report of the
    sanity check ("Sanity check done.", the two averages, and "Avg wrong
    dist" when there were wrong neighbours) is the last thing the run wrote,
    and the launch of batch 0 came before it. *)
Theorem return_zero_after_report (argv0 : string) (args : list string) :
  snd (program w argv0 args) = Ret 0 ->
  exists t a b t',
    fst (program w argv0 args)
    = t ++ SanityDone :: AvgNeighbors a :: AvgWrongNeighbors b :: t' /\
    (t' = [] \/ exists x, t' = [AvgWrongDist x]) /\
    launches t = [0].
Proof.
  unfold program. rewrite main_stages.
  destruct (parse_args w argv0 args (F32.of_Z 2) 50 "")
    as [t0 [[[r k] o]|s]] eqn:Hp.
  2:{ destruct s; cbn; discriminate. }
  destruct (read_points w o) as [t1 [[[nd N] d]|s]] eqn:Hr.
  2:{ destruct s; cbn; discriminate. }
  destruct ((d <=? 0) || (w_max_dim w <? d)); [cbn; discriminate|].
  cbv zeta.
  destruct (try_block w (entry_state r k nd N d)) as [tt [c|s]] eqn:Ht.
  2:{ destruct s; cbn; discriminate. }
  cbn [try_catch terminate fst snd]. intros Hc.
  assert (c = 0) as -> by congruence. clear Hc.
  unfold try_block in Ht.
  apply bind_Ret_inv in Ht. destruct Ht as (ts & st1 & t2 & Hsetup & Ht & ->).
  apply bind_Ret_inv in Ht.
  destruct Ht as (tw & [data st2] & t3 & Hwork & Ht & ->).
  apply bind_Ret_inv in Ht. destruct Ht as (tc & u & t4 & Hcheck & Ht & ->).
  apply bind_Ret_inv in Ht. destruct Ht as (t5 & u' & t6 & Hclean & Ht & ->).
  apply check_Ret in Hclean. subst t5.
  assert (t6 = []) as -> by (unfold ret in Ht; congruence).
  unfold check_the_work in Hcheck.
  apply bind_Ret_inv in Hcheck.
  destruct Hcheck as (t7 & u'' & t8 & Hrb & Hsan & ->).
  apply check_Ret in Hrb. subst t7.
  unfold sanity_check in Hsan.
  apply bind_Ret_inv in Hsan.
  destruct Hsan as (trows & stt & trep & Hrows & Hrep & ->).
  apply report_Ret in Hrep. destruct Hrep as (a & b & t' & -> & Htail).
  assert (Hls : launches ts = []).
  { destruct (setup_run w (entry_state r k nd N d))
      as (t & k' & _ & _ & Hl & [[Hrun _]|Hrun]); rewrite Hrun in Hsetup.
    - assert (ts = t) by congruence. now subst.
    - discriminate. }
  assert (Hlw : launches tw = [0]).
  { destruct (do_the_work_run w st1) as [[s Hw]|[rw Hw]];
      rewrite Hw in Hwork; [discriminate|].
    assert (tw = [Launch 0 (numPrims (params st1))]) by congruence.
    subst. reflexivity. }
  assert (Hlr : launches trows = []).
  { pose proof (silent_check_rows data (ndpoints st2) (radius (params st2))
                  (knn (params st2)) (Z.to_nat (numPrims (params st2))) 0
                  (make_stats 0 0 (S754_zero false))) as [Hl _].
    rewrite Hrows in Hl. exact Hl. }
  pose proof (silent_parse_args w argv0 args (F32.of_Z 2) 50 "") as [Hl0 _].
  rewrite Hp in Hl0. cbn [fst] in Hl0.
  pose proof (silent_read_points w o) as [Hl1 _].
  rewrite Hr in Hl1. cbn [fst] in Hl1.
  exists (t0 ++ t1 ++ Settings d (Z.quot d 3) N r k :: ts ++ tw ++ trows),
    a, b, t'.
  split; [|split; [exact Htail|]].
  - cbn [app]. rewrite !app_nil_r.
    repeat (rewrite <- ?app_assoc; cbn [app]). reflexivity.
  - rewrite !launches_app.
    change (launches (Settings d (Z.quot d 3) N r k :: ts ++ tw ++ trows))
      with (launches (ts ++ tw ++ trows)).
    rewrite !launches_app, Hl0, Hl1, Hls, Hlw, Hlr. reflexivity.
Qed.

End ReturnZero.

Lemma read_pc_data_dim_zero_iff_witness :
  (3 = 0 <-> 2 = 0) /\ (2 = 0 <-> getline_ok "1,2,3" = false).
Proof.
  eapply (read_pc_data_dim_zero_iff StofDec.stof false
            (Some ["1,2,3"; "4,5,6"]) _ 2 3).
  - vm_compute. reflexivity.
  - vm_compute. reflexivity.
Defined.

Lemma padded_batch_boxes_indeterminate_witness :
  exists nd t1 bs,
    fst (createGeometry (Examples.world_of (Some ["1,2,3,4"; "5,6,7,8"])
                                           false [])
                        (loaded (F32.of_Z 2) 3 nd 2 6))
    = t1 ++ [GasBuild (ceil3 4 - 1) bs] /\
    List.length bs = List.length ["1,2,3,4"; "5,6,7,8"] /\
    Forall (fun b => minZ b = Indet /\ maxZ b = Indet) bs.
Proof.
  eexists.
  eapply (padded_batch_boxes_indeterminate
            (Examples.world_of (Some ["1,2,3,4"; "5,6,7,8"]) false [])
            (F32.of_Z 2) 3 4 "1,2,3,4" ["5,6,7,8"] _ 2 6).
  - vm_compute. reflexivity.
  - repeat constructor; eexists; vm_compute; reflexivity.
  - vm_compute. discriminate.
  - vm_compute. reflexivity.
  - vm_compute. reflexivity.
Defined.

Lemma return_zero_after_report_witness :
  exists t a b t',
    fst (program (Examples.world_of (Some Examples.square) false [(0, 1)])
                 "prog" ["-f"; "pts"])
    = t ++ SanityDone :: AvgNeighbors a :: AvgWrongNeighbors b :: t' /\
    (t' = [] \/ exists x, t' = [AvgWrongDist x]) /\
    launches t = [0].
Proof.
  apply (return_zero_after_report
           (Examples.world_of (Some Examples.square) false [(0, 1)])
           "prog" ["-f"; "pts"]).
  vm_compute. reflexivity.
Defined.
